(** * The update lifecycle and the tray message handler of the desktop app

    A shallow embedding of [app/lifecycle/updater.go] and
    [app/tray/wintray/eventloop.go].

    The Go functions talk to the network, the file system, the process table,
    the logger and the Win32 message API.  Each of them is embedded as a
    function in a small state monad over a [World]: the world carries the
    package variables, the files, the goroutines parked on the tray channels
    and the chronological list of the calls made so far (the history).  What
    the outside answers to a call is read from an [Env] of oracles, each a
    function of the history, so that an environment may answer differently
    every time it is asked. *)

From Stdlib Require Import ZArith Lia List Ascii String Bool HexadecimalString.
From stdpp Require Import base decidable option list functions gmap strings pretty.

Local Open Scope string_scope.
Local Open Scope list_scope.

(* ===================================================================== *)
(** ** Go values shared by both packages *)
(* ===================================================================== *)

(** Go's [error] values, as far as the code tells them apart:
    [errors.Is (err, os.ErrNotExist)] follows the chain of wrapped errors,
    [err.Error()] is the text put in log lines and in wrapping errors. *)
Inductive error : Type :=
| errors_New (msg : string)
| ErrNotExist
| PathError (op path : string) (err : error)
| Wrapped (prefix : string) (err : error).

Fixpoint Error (e : error) : string :=
  match e with
  | errors_New msg => msg
  | ErrNotExist => "file does not exist"
  | PathError op path err => op +:+ " " +:+ path +:+ ": " +:+ Error err
  | Wrapped prefix err => prefix +:+ Error err
  end.

(** [errors.Is (e, os.ErrNotExist)]. *)
Fixpoint is_ErrNotExist (e : error) : bool :=
  match e with
  | errors_New _ => false
  | ErrNotExist => true
  | PathError _ _ err => is_ErrNotExist err
  | Wrapped _ err => is_ErrNotExist err
  end.

(** [errors.Is (err, os.ErrNotExist)] on a possibly nil [err]. *)
Definition errors_Is_ErrNotExist (err : option error) : bool :=
  match err with
  | Some e => is_ErrNotExist e
  | None => false
  end.

(** [fmt.Errorf (prefix + "%w", err)]: wraps a non-nil operand; a nil
    operand is printed as a bad verb and nothing is wrapped. *)
Definition Errorf_w (prefix : string) (err : option error) : error :=
  match err with
  | Some e => Wrapped prefix e
  | None => errors_New (prefix +:+ "%!w(<nil>)")
  end.

(** [int32 (x)] for an unsigned machine word [x]: the low 32 bits, read as a
    two's complement number. *)
Definition int32 (x : Z) : Z := ((x + 2 ^ 31) mod 2 ^ 32 - 2 ^ 31)%Z.

(** [strings.Contains (s, sub)]. *)
Fixpoint contains (sub s : string) : bool :=
  String.prefix sub s ||
  match s with
  | EmptyString => false
  | String _ s' => contains sub s'
  end.

(* ===================================================================== *)
(** ** encoding/json, as [json.Unmarshal] uses it on the response body *)
(* ===================================================================== *)

(** [json.Unmarshal (data, &v)] first scans the whole of [data]
    ([checkValid]) and returns a syntax error, leaving [v] as it was, when
    [data] is not one JSON text.  Only then does it decode the value into
    [v].  The scanner is modelled by [json_parse], which also resolves the
    escapes of string literals the way the decoder does. *)
#[local] Unset Elimination Schemes.
Inductive json : Type :=
| JNull
| JBool (b : bool)
| JNumber (lit : string)
| JString (s : string)
| JArray (elems : list json)
| JObject (members : list (string * json)).
#[local] Set Elimination Schemes.

Module Scan.

Definition code (c : ascii) : N := N_of_ascii c.

Definition is_ws (c : ascii) : bool :=
  let n := code c in
  (n =? 32)%N || (n =? 9)%N || (n =? 13)%N || (n =? 10)%N.

Definition is_digit (c : ascii) : bool :=
  let n := code c in (48 <=? n)%N && (n <=? 57)%N.

Definition between (lo hi : N) (c : ascii) : bool :=
  (lo <=? code c)%N && (code c <=? hi)%N.

Definition hex_val (c : ascii) : option N :=
  let n := code c in
  if between 48 57 c then Some (n - 48)%N
  else if between 97 102 c then Some (n - 87)%N
  else if between 65 70 c then Some (n - 55)%N
  else None.

Definition hex4 (a b c d : ascii) : option N :=
  x ← hex_val a; y ← hex_val b; z ← hex_val c; w ← hex_val d;
  Some (((x * 16 + y) * 16 + z) * 16 + w)%N.

Fixpoint skip_ws (s : list ascii) : list ascii :=
  match s with
  | c :: s' => if is_ws c then skip_ws s' else s
  | [] => []
  end.

(** What follows the digits at the head of [s]. *)
Fixpoint skip_digits (s : list ascii) : list ascii :=
  match s with
  | c :: s' => if is_digit c then skip_digits s' else s
  | [] => []
  end.

(** What follows one digit or more at the head of [s]. *)
Definition skip_digits1 (s : list ascii) : option (list ascii) :=
  match s with
  | c :: s' => if is_digit c then Some (skip_digits s') else None
  | [] => None
  end.

(** [utf8.EncodeRune]. *)
Definition utf8_encode (cp : N) : list ascii :=
  let b (n : N) := ascii_of_N n in
  if (cp <? 128)%N then [b cp]
  else if (cp <? 2048)%N then
    [b (192 + cp / 64); b (128 + cp mod 64)]%N
  else if (cp <? 65536)%N then
    [b (224 + cp / 4096); b (128 + (cp / 64) mod 64); b (128 + cp mod 64)]%N
  else
    [b (240 + cp / 262144); b (128 + (cp / 4096) mod 64);
     b (128 + (cp / 64) mod 64); b (128 + cp mod 64)]%N.

(** U+FFFD, which replaces what is not valid UTF-8 or UTF-16. *)
Definition replacement : list ascii := utf8_encode 65533.

(** The length of the well-formed UTF-8 sequence that starts with the
    byte [c0] when the next bytes are [c1 c2 c3] (0 if there is none):
    the table of [utf8.DecodeRune]. *)
Definition utf8_len (c0 : ascii) (rest : list ascii) : nat :=
  let cont := between 128 191 in
  let tail lo hi n :=
    match rest with
    | c1 :: r1 =>
        if between lo hi c1 then
          match n, r1 with
          | 2%nat, _ => 2%nat
          | 3%nat, c2 :: _ => if cont c2 then 3%nat else 0%nat
          | 4%nat, c2 :: c3 :: _ =>
              if cont c2 && cont c3 then 4%nat else 0%nat
          | _, _ => 0%nat
          end
        else 0%nat
    | [] => 0%nat
    end in
  if between 194 223 c0 then tail 128%N 191%N 2%nat
  else if between 224 224 c0 then tail 160%N 191%N 3%nat
  else if between 225 236 c0 || between 238 239 c0 then tail 128%N 191%N 3%nat
  else if between 237 237 c0 then tail 128%N 159%N 3%nat
  else if between 240 240 c0 then tail 144%N 191%N 4%nat
  else if between 241 243 c0 then tail 128%N 191%N 4%nat
  else if between 244 244 c0 then tail 128%N 143%N 4%nat
  else 0%nat.

(** The low half of a surrogate pair written as a second [\uXXXX]. *)
Definition low_surrogate (s : list ascii) : option N :=
  match s with
  | bs :: u :: a :: b :: c :: d :: _ =>
      if (code bs =? 92)%N && (code u =? 117)%N then
        lo ← hex4 a b c d;
        if (56320 <=? lo)%N && (lo <=? 57343)%N then Some lo else None
      else None
  | _ => None
  end.

(** The byte a one-letter escape stands for. *)
Definition simple_escape (e : ascii) : option N :=
  let n := code e in
  if (n =? 34)%N || (n =? 92)%N || (n =? 47)%N then Some n
  else if (n =? 98)%N then Some 8%N
  else if (n =? 102)%N then Some 12%N
  else if (n =? 110)%N then Some 10%N
  else if (n =? 114)%N then Some 13%N
  else if (n =? 116)%N then Some 9%N
  else None.

(** The rest of a string literal, after its opening quote: the decoded
    bytes and what follows the closing quote. *)
Fixpoint scan_string (s : list ascii) : option (list ascii * list ascii) :=
  let emit (bs : list ascii) (r : option (list ascii * list ascii)) :=
    '(str, rest) ← r; Some (bs ++ str, rest) in
  match s with
  | [] => None
  | c :: r =>
      if (code c =? 34)%N then Some ([], r)
      else if (code c <? 32)%N then None
      else if (code c =? 92)%N then
        match r with
        | e :: r1 =>
            if (code e =? 117)%N then
              match r1 with
              | a :: b :: c4 :: d :: r5 =>
                  match hex4 a b c4 d with
                  | None => None
                  | Some hi =>
                      if (55296 <=? hi)%N && (hi <=? 57343)%N then
                        match (if (hi <=? 56319)%N then low_surrogate r5
                               else None), r5 with
                        | Some lo, _ :: _ :: _ :: _ :: _ :: _ :: r11 =>
                            emit (utf8_encode
                                    (65536 + (hi - 55296) * 1024
                                     + (lo - 56320))%N)
                                 (scan_string r11)
                        | _, _ => emit replacement (scan_string r5)
                        end
                      else emit (utf8_encode hi) (scan_string r5)
                  end
              | _ => None
              end
            else
              match simple_escape e with
              | Some n => emit [ascii_of_N n] (scan_string r1)
              | None => None
              end
        | [] => None
        end
      else if (code c <? 128)%N then emit [c] (scan_string r)
      else
        match utf8_len c r, r with
        | 2%nat, c1 :: r1 => emit [c; c1] (scan_string r1)
        | 3%nat, c1 :: c2 :: r2 => emit [c; c1; c2] (scan_string r2)
        | 4%nat, c1 :: c2 :: c3 :: r3 =>
            emit [c; c1; c2; c3] (scan_string r3)
        | _, _ => emit replacement (scan_string r)
        end
  end.

(** What follows the number literal at the head of [s]: a minus sign or
    none, then 0 or a digit from 1 to 9 and digits, then a fraction or none,
    then an exponent or none. *)
Definition number_rest (s : list ascii) : option (list ascii) :=
  let s1 :=
    match s with
    | c :: r => if (code c =? 45)%N then r else s
    | [] => s
    end in
  s2 ←
    match s1 with
    | c :: r => if (code c =? 48)%N then Some r else skip_digits1 s1
    | [] => None
    end;
  s3 ←
    match s2 with
    | c :: r => if (code c =? 46)%N then skip_digits1 r else Some s2
    | [] => Some s2
    end;
  match s3 with
  | c :: r =>
      if (code c =? 101)%N || (code c =? 69)%N then
        match r with
        | sign :: r' =>
            if (code sign =? 43)%N || (code sign =? 45)%N
            then skip_digits1 r' else skip_digits1 r
        | [] => None
        end
      else Some s3
  | [] => Some s3
  end.

(** A number literal at the head of [s]: its text and what follows. *)
Definition scan_number (s : list ascii) : option (list ascii * list ascii) :=
  r ← number_rest s; Some (take (length s - length r) s, r).

Definition strip (lit : string) (s : list ascii) : option (list ascii) :=
  let l := list_ascii_of_string lit in
  if decide (take (length l) s = l) then Some (drop (length l) s) else None.

(** The scanner gives up beyond this nesting of arrays and objects. *)
Definition maxNestingDepth : N := 10000.

Fixpoint parse_value (fuel : nat) (depth : N) (s : list ascii)
  : option (json * list ascii) :=
  match fuel with
  | O => None
  | S fuel' =>
      match skip_ws s with
      | [] => None
      | c :: r =>
          if (code c =? 123)%N then
            if (depth <? maxNestingDepth)%N then
              match skip_ws r with
              | c' :: r' =>
                  if (code c' =? 125)%N then Some (JObject [], r')
                  else '(ms, r2) ← parse_members fuel' (depth + 1)%N r;
                       Some (JObject ms, r2)
              | [] => None
              end
            else None
          else if (code c =? 91)%N then
            if (depth <? maxNestingDepth)%N then
              match skip_ws r with
              | c' :: r' =>
                  if (code c' =? 93)%N then Some (JArray [], r')
                  else '(vs, r2) ← parse_elems fuel' (depth + 1)%N r;
                       Some (JArray vs, r2)
              | [] => None
              end
            else None
          else if (code c =? 34)%N then
            '(str, r') ← scan_string r;
            Some (JString (string_of_list_ascii str), r')
          else if (code c =? 116)%N then
            r' ← strip "true" (c :: r); Some (JBool true, r')
          else if (code c =? 102)%N then
            r' ← strip "false" (c :: r); Some (JBool false, r')
          else if (code c =? 110)%N then
            r' ← strip "null" (c :: r); Some (JNull, r')
          else
            '(lit, r') ← scan_number (c :: r);
            Some (JNumber (string_of_list_ascii lit), r')
      end
  end
with parse_elems (fuel : nat) (depth : N) (s : list ascii)
  : option (list json * list ascii) :=
  match fuel with
  | O => None
  | S fuel' =>
      '(v, r) ← parse_value fuel' depth s;
      match skip_ws r with
      | c :: r' =>
          if (code c =? 44)%N then
            '(vs, r2) ← parse_elems fuel' depth r'; Some (v :: vs, r2)
          else if (code c =? 93)%N then Some ([v], r')
          else None
      | [] => None
      end
  end
with parse_members (fuel : nat) (depth : N) (s : list ascii)
  : option (list (string * json) * list ascii) :=
  match fuel with
  | O => None
  | S fuel' =>
      match skip_ws s with
      | q :: r =>
          if (code q =? 34)%N then
            '(k, r1) ← scan_string r;
            match skip_ws r1 with
            | colon :: r2 =>
                if (code colon =? 58)%N then
                  '(v, r3) ← parse_value fuel' depth r2;
                  let member := (string_of_list_ascii k, v) in
                  match skip_ws r3 with
                  | c :: r4 =>
                      if (code c =? 44)%N then
                        '(ms, r5) ← parse_members fuel' depth r4;
                        Some (member :: ms, r5)
                      else if (code c =? 125)%N then Some ([member], r4)
                      else None
                  | [] => None
                  end
                else None
            | [] => None
            end
          else None
      | [] => None
      end
  end.

End Scan.

(** The JSON value [data] denotes, or [None] when [data] is not exactly one
    JSON text.  A call of the scanner moves either to a shorter input or
    from a list of elements to its first element, so twice the length of
    the input (and a little) bounds the depth of its calls: this fuel is
    always enough ([json_parse_fuel]). *)
Definition json_parse (data : string) : option json :=
  let s := list_ascii_of_string data in
  match Scan.parse_value (2 * length s + 3) 0 s with
  | Some (v, r) =>
      match Scan.skip_ws r with
      | [] => Some v
      | _ :: _ => None
      end
  | None => None
  end.

(* ===================================================================== *)
(** ** The world the program runs in *)
(* ===================================================================== *)

Inductive Level : Type := LevelDebug | LevelInfo | LevelWarn | LevelError.

(** The four channels of the tray's [callbacks]. *)
Inductive Chan : Type := Quit | Update | ShowLogs | DoFirstUse.

Global Instance Chan_eq_dec : EqDecision Chan := ltac:(solve_decision).

(** One entry of the history per call that leaves the program. *)
Inductive Event : Type :=
| EvLog (level : Level) (msg : string)
| EvGetID
| EvHttpGet (url : string)
| EvBodyClose
| EvStat (path : string)
| EvMkdirAll (path : string) (perm : Z)
| EvOpenFile (path : string) (perm : Z)
| EvWrite (path : string) (n : nat)
| EvFileClose (path : string)
| EvStart (exe : string) (args : list string)
| EvRelease (pid : Z)
| EvExit (code : Z)
| EvSleep (nanoseconds : Z)
| EvCtxDone (closed : bool)
| EvCallback (arg : string)
| EvSend (c : Chan)
| EvLock
| EvUnlock
| EvNidDelete
| EvNidAdd
| EvShowMenu
| EvDestroyWindow (window : Z)
| EvUnregister
| EvPostQuitMessage (code : Z)
| EvDefWindowProc (hWnd message wParam lParam : Z).

Definition History : Type := list Event.

(** What is at a path: a file, a directory, or something [os.Stat] cannot
    look at (access denied, say) and reports [err] for. *)
Inductive node : Type :=
| File (data : string)
| Dir
| Unreadable (err : error).

(** [*http.Response]: the status, and what [io.ReadAll] will return for the
    body (the bytes read, and the error that cut the read short, if any). *)
Record Response : Type := {
  StatusCode : Z;
  Body : string * option error;
}.

(** What [cmd.Start ()] leaves behind: an error, or [cmd.Process] (which
    the code still compares with nil). *)
Inductive Started : Type :=
| StartError (err : error)
| StartOk (Process : option Z).

(** The answers of the outside world, each as a function of the history. *)
Class Env : Type := {
  (* app/store and net/http *)
  on_GetID : History → string;
  on_Get : History → string → error + Response;
  (* os: a fault makes the call fail whatever the files are *)
  on_MkdirAll : History → string → option error;
  on_OpenFile : History → string → option error;
  on_Write : History → string → string → nat * option error;
  (* os/exec *)
  on_Start : History → string → list string → Started;
  on_Release : History → Z → option error;
  (* the Win32 calls and the tray's helpers *)
  on_DestroyWindow : History → Z → Z * error;
  on_unregister : History → option error;
  on_nid_delete : History → option error;
  on_nid_add : History → option error;
  on_showMenu : History → option error;
  on_DefWindowProc : History → Z → Z → Z → Z → Z;
}.

(** What the build and the rest of the repository fix: [runtime.GOOS],
    [runtime.GOARCH], [version.Version], the package's [UpdateStageDir] and
    [Installer], the tray's menu identifiers, and the path and URL functions
    of the standard library. *)
Class Platform : Type := {
  GOOS : string;
  GOARCH : string;
  Version : string;
  UpdateStageDir : string;
  Installer : string;
  filepath_Join : string → string → string;
  (* url.Parse, as far as its result is used: the Path of the URL *)
  url_Parse : string → error + string;
  url_PathEscape : string → string;
  QuitMenuID : Z;
  UpdateMenuID : Z;
  LogsMenuID : Z;
  GetStartedMenuID : Z;
}.

Record World : Type := {
  (* package lifecycle *)
  UpdateCheckURLBase : string;
  UpdateDownloaded : bool;
  (* the file system *)
  files : gmap string node;
  (* goroutines blocked in a receive, per channel *)
  receivers : Chan → nat;
  (* the calls made so far, oldest first *)
  history : History;
}.

Definition set_UpdateDownloaded (b : bool) (w : World) : World :=
  {| UpdateCheckURLBase := UpdateCheckURLBase w; UpdateDownloaded := b;
     files := files w; receivers := receivers w; history := history w |}.

Definition set_files (fs : gmap string node) (w : World) : World :=
  {| UpdateCheckURLBase := UpdateCheckURLBase w;
     UpdateDownloaded := UpdateDownloaded w;
     files := fs; receivers := receivers w; history := history w |}.

Definition set_receivers (r : Chan → nat) (w : World) : World :=
  {| UpdateCheckURLBase := UpdateCheckURLBase w;
     UpdateDownloaded := UpdateDownloaded w;
     files := files w; receivers := r; history := history w |}.

Definition push (e : Event) (w : World) : World :=
  {| UpdateCheckURLBase := UpdateCheckURLBase w;
     UpdateDownloaded := UpdateDownloaded w;
     files := files w; receivers := receivers w;
     history := history w ++ [e] |}.

(** The package variables as the source initialises them, on a given disk. *)
Definition process_start (fs : gmap string node) (rcv : Chan → nat) : World :=
  {| UpdateCheckURLBase := "https://ollama.ai/api/update";
     UpdateDownloaded := false;
     files := fs; receivers := rcv; history := [] |}.

(** A call either returns or ends the process ([os.Exit]). *)
Inductive Outcome (A : Type) : Type :=
| Returns (a : A)
| Exits (code : Z).
Arguments Returns {A} a.
Arguments Exits {A} code.

Definition M (A : Type) : Type := World → Outcome A * World.

Global Instance M_ret : MRet M := λ A a w, (Returns a, w).

Global Instance M_bind : MBind M := λ A B k m w,
  match m w with
  | (Returns a, w') => k a w'
  | (Exits code, w') => (Exits code, w')
  end.

(** [defer f ()]: [f] runs when the function returns, not when the process
    exits under it. *)
Definition defer {A : Type} (f : M unit) (body : M A) : M A := λ w,
  match body w with
  | (Returns a, w') =>
      match f w' with
      | (Returns _, w'') => (Returns a, w'')
      | (Exits code, w'') => (Exits code, w'')
      end
  | (Exits code, w') => (Exits code, w')
  end.

Definition emit (e : Event) : M unit := λ w, (Returns (), push e w).

(** Makes the call [e] and reads its answer off the history before it. *)
Definition ask {A : Type} (e : Event) (answer : History → A) : M A := λ w,
  (Returns (answer (history w)), push e w).

(** The error of [os.Stat (path)] on the files [fs]. *)
Definition Stat_error (fs : gmap string node) (path : string) : option error :=
  match fs !! path with
  | None => Some (PathError "stat" path ErrNotExist)
  | Some (Unreadable e) => Some (PathError "stat" path e)
  | Some _ => None
  end.

Definition slog_Debug (msg : string) : M unit := emit (EvLog LevelDebug msg).
Definition slog_Info (msg : string) : M unit := emit (EvLog LevelInfo msg).
Definition slog_Warn (msg : string) : M unit := emit (EvLog LevelWarn msg).
Definition slog_Error (msg : string) : M unit := emit (EvLog LevelError msg).

Definition os_Exit {A : Type} (code : Z) : M A := λ w,
  (Exits code, push (EvExit code) w).

Definition Second : Z := 1000000000.

Definition time_Sleep (d : Z) : M unit := emit (EvSleep d).

Section Calls.
Context {env : Env}.

Definition store_GetID : M string := ask EvGetID on_GetID.

Definition http_Get (url : string) : M (error + Response) :=
  ask (EvHttpGet url) (λ h, on_Get h url).

Definition io_ReadAll (resp : Response) : M (string * option error) :=
  mret (Body resp).

Definition Body_Close : M unit := emit EvBodyClose.

(** [os.Stat], of which the code keeps the error only. *)
Definition os_Stat (path : string) : M (option error) := λ w,
  (Returns (Stat_error (files w) path), push (EvStat path) w).

(** [os.MkdirAll]: nothing to do on a directory, an error on a file. *)
Definition os_MkdirAll (path : string) (perm : Z) : M (option error) := λ w,
  let w' := push (EvMkdirAll path perm) w in
  match on_MkdirAll (history w) path with
  | Some e => (Returns (Some e), w')
  | None =>
      match files w !! path with
      | Some Dir => (Returns None, w')
      | Some (File _) =>
          (Returns (Some (PathError "mkdir" path
                            (errors_New "not a directory"))), w')
      | Some (Unreadable e) =>
          (Returns (Some (PathError "mkdir" path e)), w')
      | None => (Returns None, set_files (<[path := Dir]> (files w)) w')
      end
  end.

(** [os.OpenFile (path, O_WRONLY|O_CREATE|O_TRUNC, perm)]: the file is
    there and empty afterwards. *)
Definition os_OpenFile (path : string) (perm : Z) : M (option error) := λ w,
  let w' := push (EvOpenFile path perm) w in
  match on_OpenFile (history w) path with
  | Some e => (Returns (Some e), w')
  | None =>
      match files w !! path with
      | Some Dir =>
          (Returns (Some (PathError "open" path
                            (errors_New "is a directory"))), w')
      | Some (Unreadable e) =>
          (Returns (Some (PathError "open" path e)), w')
      | _ => (Returns None, set_files (<[path := File EmptyString]> (files w)) w')
      end
  end.

(** [fp.Write (payload)] on the file just opened: [n] bytes reach it. *)
Definition File_Write (path payload : string) : M (nat * option error) := λ w,
  let '(n, err) := on_Write (history w) path payload in
  (Returns (n, err),
   set_files (<[path := File (substring 0 n payload)]> (files w))
     (push (EvWrite path n) w)).

Definition File_Close (path : string) : M unit := emit (EvFileClose path).

Definition cmd_Start (exe : string) (args : list string) : M Started :=
  ask (EvStart exe args) (λ h, on_Start h exe args).

Definition Process_Release (pid : Z) : M (option error) :=
  ask (EvRelease pid) (λ h, on_Release h pid).

End Calls.

(* ===================================================================== *)
(** ** package lifecycle: updater.go *)
(* ===================================================================== *)

Record UpdateResponse : Type := {
  UpdateURL : string;      (* `json:"url"` *)
  UpdateVersion : string;  (* `json:"version"` *)
}.

(** [var updateResp UpdateResponse]. *)
Definition zero_UpdateResponse : UpdateResponse :=
  {| UpdateURL := EmptyString; UpdateVersion := EmptyString |}.

Inductive field : Type := field_url | field_version.

Definition field_name (f : field) : string :=
  match f with
  | field_url => "url"
  | field_version => "version"
  end.

(** The decoder's case folding of an object key, as far as it can make the
    key equal to a name of ASCII letters: lower case letters go to upper
    case, and so do the two letters outside ASCII that fold to one, U+017F
    (long s) and U+212A (Kelvin sign). *)
Fixpoint foldName (s : list ascii) : list ascii :=
  match s with
  | [] => []
  | c :: r =>
      if Scan.between 97 122 c then
        ascii_of_N (Scan.code c - 32) :: foldName r
      else
        match Scan.code c, r with
        | 197%N, c1 :: r1 =>
            if (Scan.code c1 =? 191)%N then "S"%char :: foldName r1
            else c :: foldName r
        | 226%N, c1 :: c2 :: r2 =>
            if (Scan.code c1 =? 132)%N && (Scan.code c2 =? 170)%N
            then "K"%char :: foldName r2
            else c :: foldName r
        | _, _ => c :: foldName r
        end
  end.

Definition equalFold (a b : string) : bool :=
  bool_decide (foldName (list_ascii_of_string a)
               = foldName (list_ascii_of_string b)).

(** The field an object key names: an exact match first, then one up to
    case. *)
Definition field_of_key (key : string) : option field :=
  if bool_decide (key = field_name field_url) then Some field_url
  else if bool_decide (key = field_name field_version) then Some field_version
  else if equalFold key (field_name field_url) then Some field_url
  else if equalFold key (field_name field_version) then Some field_version
  else None.

(** The name of a JSON value in an [UnmarshalTypeError]. *)
Definition json_kind (v : json) : string :=
  match v with
  | JNull => "null"
  | JBool _ => "bool"
  | JNumber _ => "number"
  | JString _ => "string"
  | JArray _ => "array"
  | JObject _ => "object"
  end.

Definition UnmarshalTypeError (v : json) (f : option field) : error :=
  errors_New
    ("json: cannot unmarshal " +:+ json_kind v +:+
     match f with
     | Some f =>
         " into Go struct field UpdateResponse." +:+ field_name f +:+
         " of type string"
     | None => " into Go value of type lifecycle.UpdateResponse"
     end).

Definition set_field (f : field) (s : string) (r : UpdateResponse)
  : UpdateResponse :=
  match f with
  | field_url => {| UpdateURL := s; UpdateVersion := UpdateVersion r |}
  | field_version => {| UpdateURL := UpdateURL r; UpdateVersion := s |}
  end.

(** A JSON value met for a string field: a string is stored, null leaves
    the field alone, anything else is a type error and is skipped. *)
Definition store_field (f : field) (v : json) (r : UpdateResponse)
  : option error * UpdateResponse :=
  match v with
  | JString s => (None, set_field f s r)
  | JNull => (None, r)
  | _ => (Some (UnmarshalTypeError v (Some f)), r)
  end.

(** [d.saveError]: the earliest error is the one returned. *)
Definition saveError (saved err : option error) : option error :=
  match saved with
  | Some e => Some e
  | None => err
  end.

(** The members of an object, in order; decoding goes on after a type
    error, and keys that name no field are skipped. *)
Fixpoint decode_members (ms : list (string * json)) (saved : option error)
    (r : UpdateResponse) : option error * UpdateResponse :=
  match ms with
  | [] => (saved, r)
  | (key, v) :: ms' =>
      match field_of_key key with
      | Some f =>
          let '(err, r') := store_field f v r in
          decode_members ms' (saveError saved err) r'
      | None => decode_members ms' saved r
      end
  end.

(** A JSON value decoded into the struct. *)
Definition decode (v : json) (r : UpdateResponse)
  : option error * UpdateResponse :=
  match v with
  | JObject ms => decode_members ms None r
  | JNull => (None, r)
  | _ => (Some (UnmarshalTypeError v None), r)
  end.

(** [err = json.Unmarshal (data, &v)]: the error and the contents of [v]
    afterwards.  The text of a syntax error is not modelled. *)
Definition json_Unmarshal (data : string) (v : UpdateResponse)
  : option error * UpdateResponse :=
  match json_parse data with
  | None => (Some (errors_New "json: syntax error"), v)
  | Some j => decode j v
  end.

(** The JSON values [decode] takes without an error: null, and the objects
    whose members that name a field hold a string or null. *)
Definition accepted (j : json) : bool :=
  match j with
  | JNull => true
  | JObject ms =>
      forallb (λ m : string * json,
                 match field_of_key m.1, m.2 with
                 | Some _, JString _ | Some _, JNull | None, _ => true
                 | Some _, _ => false
                 end) ms
  | _ => false
  end.

(** [ctx context.Context]: whether [ctx.Done ()] is closed, given what has
    happened so far.  [cb func(string) error]: what the callback returns. *)
Definition Context : Type := History → bool.
Definition Callback : Type := History → string → option error.

(** How far the goroutine of the checker got: it returned, or it is still
    in its loop after the iterations it was followed for. *)
Inductive Goroutine : Type := Returned | Looping.

Section lifecycle.
Context {env : Env} {plat : Platform}.

Definition GetUpdateCheckURL (id : string) : M string := λ w,
  (Returns
     (UpdateCheckURLBase w +:+ "?os=" +:+ GOOS +:+ "&arch=" +:+ GOARCH +:+
      "&version=" +:+ Version +:+ "&id=" +:+ id),
   w).

Definition IsNewReleaseAvailable : M (bool * UpdateResponse) :=
  let updateResp := zero_UpdateResponse in
  id ← store_GetID;
  updateCheckURL ← GetUpdateCheckURL id;
  slog_Debug ("XXX checking for update via " +:+ updateCheckURL);;
  got ← http_Get updateCheckURL;
  match got with
  | inl err =>
      slog_Debug ("XXX error checking for update: " +:+ Error err);;
      mret (false, updateResp)
  | inr resp =>
      defer Body_Close (
        if (StatusCode resp =? 204)%Z then
          slog_Debug "XXX got 204 when checking for update";;
          mret (false, updateResp)
        else
          '(body, err) ← io_ReadAll resp;
          match err with
          | Some e =>
              slog_Debug ("XXX failed to read body response: " +:+ Error e)
          | None => mret ()
          end;;
          let '(err, updateResp) := json_Unmarshal body updateResp in
          match err with
          | Some e =>
              slog_Warn ("malformed response checking for update: "
                         +:+ Error e);;
              mret (false, updateResp)
          | None =>
              slog_Info ("New update available at" +:+ UpdateURL updateResp);;
              mret (true, updateResp)
          end)
  end.

Definition DownloadNewRelease (updateResp : UpdateResponse)
  : M (option error) :=
  match url_Parse (UpdateURL updateResp) with
  | inl err =>
      mret (Some (Errorf_w ("failed to parse update URL "
                            +:+ UpdateURL updateResp +:+ ": ") (Some err)))
  | inr updateURL_Path =>
      let escapedFilename :=
        filepath_Join UpdateStageDir (url_PathEscape updateURL_Path) in
      let finish : M (option error) :=
        (λ w, (Returns (), set_UpdateDownloaded true w));;
        mret None in
      err ← os_Stat UpdateStageDir;
      made ←
        (if errors_Is_ErrNotExist err then os_MkdirAll UpdateStageDir 493
         else mret None);
      match made with
      | Some e =>
          mret (Some (errors_New ("create ollama dir " +:+ UpdateStageDir
                                  +:+ ": " +:+ Error e)))
      | None =>
          err ← os_Stat escapedFilename;
          if errors_Is_ErrNotExist err then
            slog_Debug ("XXX downloading " +:+ UpdateURL updateResp);;
            got ← http_Get (UpdateURL updateResp);
            match got with
            | inl err =>
                mret (Some (Errorf_w "error downloading update: " (Some err)))
            | inr resp =>
                defer Body_Close (
                  '(payload, err) ← io_ReadAll resp;
                  match err with
                  | Some e =>
                      mret (Some (Errorf_w "failed to read body response: "
                                    (Some e)))
                  | None =>
                      err ← os_OpenFile escapedFilename 493;
                      match err with
                      | Some e =>
                          mret (Some (Errorf_w ("write payload "
                                        +:+ escapedFilename +:+ ": ")
                                        (Some e)))
                      | None =>
                          defer (File_Close escapedFilename) (
                            '(n, err) ← File_Write escapedFilename payload;
                            if bool_decide (err ≠ None)
                               || bool_decide (n ≠ String.length payload)
                            then
                              mret (Some (Errorf_w ("write payload "
                                      +:+ escapedFilename +:+ ": "
                                      +:+ pretty n +:+ " vs "
                                      +:+ pretty (String.length payload)
                                      +:+ " -- ") err))
                            else
                              slog_Debug
                                ("XXX completed writing out update payload to "
                                 +:+ escapedFilename);;
                              finish)
                      end
                  end)
            end
          else
            match err with
            | Some e =>
                mret (Some (Errorf_w "XXX unexpected stat error " (Some e)))
            | None =>
                slog_Debug "XXX update already downloaded";;
                finish
            end
      end
  end.

(** The [select] at the end of a turn of the checker: the default case
    keeps it from blocking when [ctx.Done ()] is not closed.  [true] when
    the goroutine returns. *)
Definition select_Done (ctx : Context) : M bool :=
  closed ← (λ w, (Returns (ctx (history w)),
                  push (EvCtxDone (ctx (history w))) w));
  if closed : bool then
    slog_Debug "XXX stopping background update checker";;
    mret true
  else
    time_Sleep (60 * 60 * Second);;
    mret false.

(** One turn of the [for] loop of the checker; [true] when it returns. *)
Definition checker_iteration (ctx : Context) (cb : Callback) : M bool :=
  '(available, resp) ← IsNewReleaseAvailable;
  (if available : bool then
     err ← DownloadNewRelease resp;
     match err with
     | Some e =>
         slog_Error ("failed to download new release: " +:+ Error e)
     | None => mret ()
     end;;
     err ← ask (EvCallback "TODO version") (λ h, cb h "TODO version");
     match err with
     | Some _ =>
         slog_Debug "XXX failed to register update available with tray"
     | None => mret ()
     end
   else mret ());;
  select_Done ctx.

Fixpoint checker_loop (turns : nat) (ctx : Context) (cb : Callback)
  : M Goroutine :=
  match turns with
  | O => mret Looping
  | S turns' =>
      stop ← checker_iteration ctx cb;
      if stop : bool then mret Returned
      else checker_loop turns' ctx cb
  end.

(** The goroutine that [StartBackgroundUpdaterChecker] starts, followed
    for [turns] turns of its loop. *)
Definition StartBackgroundUpdaterChecker (turns : nat) (ctx : Context)
    (cb : Callback) : M Goroutine :=
  time_Sleep (5 * Second);;
  checker_loop turns ctx cb.

Definition installArgs : list string :=
  ["/SP"; "/SILENT"; "/SUPPRESSMSGBOXES"; "/CLOSEAPPLICATIONS"].

Definition DoUpgrade : M (option error) :=
  let installerExe := filepath_Join UpdateStageDir Installer in
  err ← os_Stat installerExe;
  if errors_Is_ErrNotExist err then
    mret (Some (errors_New ("could not locate ollama installer at "
                            +:+ installerExe)))
  else
    slog_Debug ("XXX attempting to start installer " +:+ installerExe);;
    started ← cmd_Start installerExe installArgs;
    match started with
    | StartError err =>
        mret (Some (Errorf_w "unable to start ollama app " (Some err)))
    | StartOk None =>
        mret (Some (errors_New "Installer process did not start"))
    | StartOk (Some pid) =>
        err ← Process_Release pid;
        match err with
        | Some e =>
            slog_Error ("failed to release server process: " +:+ Error e)
        | None => mret ()
        end;;
        slog_Info "Installer started in background, exiting";;
        os_Exit 0
    end.

End lifecycle.

(* ===================================================================== *)
(** ** package wintray: eventloop.go *)
(* ===================================================================== *)

(** [*notifyIconData], whose fields the message handler never reads. *)
Inductive notifyIconData : Type := NotifyIconData.

(** The fields of [winTray] that [wndProc] reads.  The channels of
    [t.callbacks] are shared with other goroutines: the goroutines waiting
    on them are in the world.  The mutex [t.muNID] shows in the history by
    its Lock and Unlock. *)
Record winTray : Type := {
  window : Z;
  nid : option notifyIconData;
  pendingUpdate : bool;
  wmSystrayMessage : Z;
  wmTaskbarCreated : Z;
}.

(** The name of a channel in the log lines. *)
Definition Chan_name (c : Chan) : string :=
  match c with
  | Quit => "Quit"
  | Update => "Update"
  | ShowLogs => "ShowLogs"
  | DoFirstUse => "DoFirstUse"
  end.

Definition WM_RBUTTONUP : Z := 0x0205.
Definition WM_LBUTTONUP : Z := 0x0202.
Definition WM_COMMAND : Z := 0x0111.
Definition WM_ENDSESSION : Z := 0x0016.
Definition WM_CLOSE : Z := 0x0010.
Definition WM_DESTROY : Z := 0x0002.
Definition WM_MOUSEMOVE : Z := 0x0200.
Definition WM_LBUTTONDOWN : Z := 0x0201.

(** [fmt.Sprintf ("0x%x", n)] for an unsigned [n]. *)
Definition hex (n : Z) : string :=
  "0x" +:+ NilZero.string_of_uint (N.to_hex_uint (Z.to_N n)).

(** [select { case ch <- struct{}{}: default: }]: the send goes through
    when a goroutine is blocked receiving from [c], and hands the signal to
    one of them; otherwise the default case runs.  [true] when sent. *)
Definition try_send (c : Chan) : M bool := λ w,
  match receivers w c with
  | O => (Returns false, w)
  | S n =>
      (Returns true,
       set_receivers (<[c := n]> (receivers w)) (push (EvSend c) w))
  end.

(** The [select] the handler writes out for each channel. *)
Definition notify (c : Chan) : M unit :=
  sent ← try_send c;
  if sent : bool then mret ()
  else slog_Error ("no listener on " +:+ Chan_name c).

Section wintray.
Context {env : Env} {plat : Platform}.

Definition pDestroyWindow_Call (window : Z) : M (Z * error) :=
  ask (EvDestroyWindow window) (λ h, on_DestroyWindow h window).

Definition wcex_unregister : M (option error) :=
  ask EvUnregister on_unregister.

Definition pPostQuitMessage_Call (code : Z) : M unit :=
  emit (EvPostQuitMessage code).

Definition muNID_Lock : M unit := emit EvLock.
Definition muNID_Unlock : M unit := emit EvUnlock.

Definition nid_delete : M (option error) := ask EvNidDelete on_nid_delete.
Definition nid_add : M (option error) := ask EvNidAdd on_nid_add.
Definition showMenu : M (option error) := ask EvShowMenu on_showMenu.

Definition pDefWindowProc_Call (hWnd message wParam lParam : Z) : M Z :=
  ask (EvDefWindowProc hWnd message wParam lParam)
      (λ h, on_DefWindowProc h hWnd message wParam lParam).

(** The body of [case WM_ENDSESSION], which [case WM_DESTROY] falls
    through to. *)
Definition endsession (t : winTray) : M unit :=
  muNID_Lock;;
  match nid t with
  | Some _ =>
      err ← nid_delete;
      match err with
      | Some e => slog_Error ("failed to delete nid: " +:+ Error e)
      | None => mret ()
      end
  | None => mret ()
  end;;
  muNID_Unlock.

(** [func (t *winTray) wndProc (hWnd, message, wParam, lParam) (lResult)].
    The cases of a Go [switch] are tried from the top, so a registered
    message number equal to one of the constants is taken by the
    constant's case. *)
Definition wndProc (t : winTray) (hWnd message wParam lParam : Z) : M Z :=
  let lResult := 0%Z in
  if (message =? WM_COMMAND)%Z then
    let menuItemId := int32 wParam in
    (if (menuItemId =? QuitMenuID)%Z then notify Quit
     else if (menuItemId =? UpdateMenuID)%Z then notify Update
     else if (menuItemId =? LogsMenuID)%Z then notify ShowLogs
     else if (menuItemId =? GetStartedMenuID)%Z then notify DoFirstUse
     else slog_Debug ("Unexpected menu item id: " +:+ pretty menuItemId));;
    mret lResult
  else if (message =? WM_CLOSE)%Z then
    '(boolRet, err) ← pDestroyWindow_Call (window t);
    (if (boolRet =? 0)%Z then
       slog_Error ("failed to destroy window: " +:+ Error err)
     else mret ());;
    err ← wcex_unregister;
    match err with
    | Some e => slog_Error ("failed to uregister windo " +:+ Error e)
    | None => mret ()
    end;;
    mret lResult
  else if (message =? WM_DESTROY)%Z then
    defer (pPostQuitMessage_Call (int32 0)) (
      endsession t;;
      mret lResult)
  else if (message =? WM_ENDSESSION)%Z then
    endsession t;;
    mret lResult
  else if (message =? wmSystrayMessage t)%Z then
    (if (lParam =? WM_MOUSEMOVE)%Z || (lParam =? WM_LBUTTONDOWN)%Z then
       mret ()
     else if (lParam =? WM_RBUTTONUP)%Z || (lParam =? WM_LBUTTONUP)%Z then
       err ← showMenu;
       match err with
       | Some e => slog_Error ("failed to show menu: " +:+ Error e)
       | None => mret ()
       end
     else if (lParam =? 0x405)%Z then
       if pendingUpdate t then notify Update else notify DoFirstUse
     else if (lParam =? 0x404)%Z then mret ()
     else
       slog_Debug ("unmanaged app specific message, lParm: " +:+ hex lParam));;
    mret lResult
  else if (message =? wmTaskbarCreated t)%Z then
    slog_Debug "XXX got taskbar created event";;
    muNID_Lock;;
    err ← nid_add;
    match err with
    | Some e =>
        slog_Error ("failed to refresh the taskbar on explorer restart: "
                    +:+ Error e)
    | None => mret ()
    end;;
    muNID_Unlock;;
    mret lResult
  else
    pDefWindowProc_Call hWnd message wParam lParam.

End wintray.


(* ===================================================================== *)
(** ** What a history shows *)
(* ===================================================================== *)

(** The URLs requested, the processes spawned, the exit codes, the polls of
    a context and the signals sent that a list of events holds, in order. *)
Definition gets (h : History) : list string :=
  omap (λ e, match e with EvHttpGet url => Some url | _ => None end) h.

Definition spawns (h : History) : list (string * list string) :=
  omap (λ e, match e with EvStart exe args => Some (exe, args) | _ => None end) h.

Definition exits (h : History) : list Z :=
  omap (λ e, match e with EvExit code => Some code | _ => None end) h.

Definition polls (h : History) : list bool :=
  omap (λ e, match e with EvCtxDone closed => Some closed | _ => None end) h.

Definition sends (h : History) : list Chan :=
  omap (λ e, match e with EvSend c => Some c | _ => None end) h.

Definition logs (h : History) : list (Level * string) :=
  omap (λ e, match e with EvLog l msg => Some (l, msg) | _ => None end) h.

(** The line the checker logs for a failed download. *)
Definition download_failure (err : option error) : History :=
  match err with
  | Some e => [EvLog LevelError ("failed to download new release: " +:+ Error e)]
  | None => []
  end.

(** A call is tame when it always returns (it never exits the process),
    only adds to the history, does not poll any context, and does not take
    [UpdateDownloaded] down. *)
Definition tame {A : Type} (m : M A) : Prop :=
  ∀ w, ∃ a w' evs,
    m w = (Returns a, w') ∧
    history w' = history w ++ evs ∧
    polls evs = [] ∧
    (UpdateDownloaded w = true → UpdateDownloaded w' = true).

Section Answers.
Context {env : Env} {plat : Platform}.

(** What [http.Get] answers to the update check that
    [IsNewReleaseAvailable] makes when called in [w]: the request comes
    after the read of the client id and one log line. *)
Definition update_check (w : World) : error + Response :=
  let url :=
    UpdateCheckURLBase w +:+ "?os=" +:+ GOOS +:+ "&arch=" +:+ GOARCH +:+
    "&version=" +:+ Version +:+ "&id=" +:+ on_GetID (history w) in
  on_Get (history w ++
          [EvGetID; EvLog LevelDebug ("XXX checking for update via " +:+ url)])
         url.

(** [installerExe] of [DoUpgrade]. *)
Definition installerExe : string := filepath_Join UpdateStageDir Installer.

(** What [cmd.Start] answers when [DoUpgrade], called in [w], gets to it. *)
Definition spawn_answer (w : World) : Started :=
  on_Start (history w ++
            [EvStat installerExe;
             EvLog LevelDebug
               ("XXX attempting to start installer " +:+ installerExe)])
           installerExe installArgs.

(** [escapedFilename] of [DownloadNewRelease], for the Path of the URL. *)
Definition escapedFilename (path : string) : string :=
  filepath_Join UpdateStageDir (url_PathEscape path).

(** The menu identifier whose case sends on the channel [c]. *)
Definition MenuID (c : Chan) : Z :=
  match c with
  | Quit => QuitMenuID
  | Update => UpdateMenuID
  | ShowLogs => LogsMenuID
  | DoFirstUse => GetStartedMenuID
  end.

(** What the cleanup of the notification icon adds to the history after the
    lock is taken: the deletion, when the tray has a descriptor, and a log
    line when the deletion fails. *)
Definition deletion (t : winTray) (h : History) : History :=
  match nid t with
  | Some _ =>
      EvNidDelete ::
      match on_nid_delete h with
      | Some e => [EvLog LevelError ("failed to delete nid: " +:+ Error e)]
      | None => []
      end
  | None => []
  end.

(** The entry points of the two files. *)
Inductive Call : Type :=
| CallIsNewReleaseAvailable
| CallDownloadNewRelease (updateResp : UpdateResponse)
| CallChecker (turns : nat) (ctx : Context) (cb : Callback)
| CallDoUpgrade
| CallWndProc (t : winTray) (hWnd message wParam lParam : Z).

(** The world after a call. *)
Definition after (c : Call) (w : World) : World :=
  match c with
  | CallIsNewReleaseAvailable => (IsNewReleaseAvailable w).2
  | CallDownloadNewRelease r => (DownloadNewRelease r w).2
  | CallChecker turns ctx cb => (StartBackgroundUpdaterChecker turns ctx cb w).2
  | CallDoUpgrade => (DoUpgrade w).2
  | CallWndProc t hWnd message wParam lParam =>
      (wndProc t hWnd message wParam lParam w).2
  end.

Definition after_all (cs : list Call) (w : World) : World :=
  foldl (λ w c, after c w) w cs.

End Answers.

(* ===================================================================== *)
(** ** A platform and some environments to run the code on *)
(* ===================================================================== *)

Definition dq : string := String "034" EmptyString.
Definition quoted (s : string) : string := dq +:+ s +:+ dq.

(** [url.PathEscape]: letters, digits and [-_.~$&+:=@] stay, every other
    byte becomes [%XX]. *)
Definition hex_digit (n : N) : ascii :=
  ascii_of_N (if (n <? 10)%N then 48 + n else 55 + n).

Definition PathEscape_byte (c : ascii) : string :=
  let n := Scan.code c in
  if Scan.between 48 57 c || Scan.between 65 90 c || Scan.between 97 122 c
     || bool_decide (n ∈ [45; 95; 46; 126; 36; 38; 43; 58; 61; 64]%N)
  then String c EmptyString
  else String "%" (String (hex_digit (n / 16)) (String (hex_digit (n mod 16))
                                                       EmptyString)).

Fixpoint PathEscape (s : string) : string :=
  match s with
  | EmptyString => EmptyString
  | String c r => PathEscape_byte c +:+ PathEscape r
  end.

Fixpoint after_scheme (s : string) : option string :=
  match s with
  | String ":" (String "/" (String "/" r)) => Some r
  | String _ r => after_scheme r
  | EmptyString => None
  end.

Fixpoint from_slash (s : string) : string :=
  match s with
  | String c r => if (Scan.code c =? 47)%N then s else from_slash r
  | EmptyString => EmptyString
  end.

Fixpoint until_query (s : string) : string :=
  match s with
  | String c r =>
      if (Scan.code c =? 63)%N || (Scan.code c =? 35)%N then EmptyString
      else String c (until_query r)
  | EmptyString => EmptyString
  end.

(** The Path of a URL written [scheme://host/path?query] with nothing to
    unescape in it, which is all the examples need of [url.Parse]. *)
Definition plain_url_Path (s : string) : error + string :=
  inr (until_query match after_scheme s with
                   | Some r => from_slash r
                   | None => s
                   end).

Definition windows_amd64 : Platform := {|
  GOOS := "windows";
  GOARCH := "amd64";
  Version := "0.1.25";
  UpdateStageDir := "C:\Temp\ollama";
  Installer := "OllamaSetup.exe";
  filepath_Join := λ dir name, dir +:+ "\" +:+ name;
  url_Parse := plain_url_Path;
  url_PathEscape := PathEscape;
  QuitMenuID := 1;
  UpdateMenuID := 2;
  LogsMenuID := 3;
  GetStartedMenuID := 4;
|}.

(** An environment in which nothing fails but what [get] and [start] say. *)
Definition env_of (get : History → string → error + Response)
    (start : Started) : Env := {|
  on_GetID := λ _, "client-1";
  on_Get := get;
  on_MkdirAll := λ _ _, None;
  on_OpenFile := λ _ _, None;
  on_Write := λ _ _ payload, (String.length payload, None);
  on_Start := λ _ _ _, start;
  on_Release := λ _ _, None;
  on_DestroyWindow := λ _ _, (1%Z, errors_New "The operation completed successfully.");
  on_unregister := λ _, None;
  on_nid_delete := λ _, None;
  on_nid_add := λ _, None;
  on_showMenu := λ _, None;
  on_DefWindowProc := λ _ _ _ _ _, 0%Z;
|}.

Definition ok (status : Z) (body : string) : error + Response :=
  inr {| StatusCode := status; Body := (body, None) |}.

(** The release the update server announces in the examples. *)
Definition release_url : string := "https://example.com/v2/installer.exe".

Definition release_body : string :=
  "{" +:+ quoted "url" +:+ ":" +:+ quoted release_url +:+ "," +:+
  quoted "version" +:+ ":" +:+ quoted "2.0" +:+ "}".


(** The update server answers [status] and [body] to the check and the
    bytes [payload] to the download. *)
Definition server (status : Z) (body payload : string)
  : History → string → error + Response :=
  λ _ url, if bool_decide (url = release_url) then ok 200 payload
           else ok status body.

Definition offline : History → string → error + Response :=
  λ _ _, inl (errors_New "dial tcp: no route to host").

Definition no_receivers : Chan → nat := λ _, O.

(** The process right after its start, on an empty disk. *)
Definition cold_start : World := process_start ∅ no_receivers.

(** The same with the staging directory and the installer in it. *)
Definition staged : World :=
  process_start
    (<["C:\Temp\ollama\OllamaSetup.exe" := File "MZ"]>
       (<["C:\Temp\ollama" := Dir]> ∅))
    no_receivers.


#[global] Existing Instance windows_amd64.

Definition spawned : Started := StartOk (Some 7%Z).

(** No network. *)
Definition env_offline : Env := env_of offline spawned.




(** The server answers JSON that has none of the fields. *)
Definition env_empty_object : Env :=
  env_of (server 200 "{}" EmptyString) spawned.

Definition env_null : Env := env_of (server 200 "null" EmptyString) spawned.

(** The server answers an error status, with a JSON body. *)
Definition env_error_status : Env :=
  env_of (server 500 "{}" EmptyString) spawned.

(** The server announces a release and serves it. *)
Definition env_release : Env := env_of (server 200 release_body "MZ") spawned.

(** The server announces a release and drops the download. *)
Definition env_flaky : Env :=
  env_of (λ _ url,
            if bool_decide (url = release_url)
            then inl (errors_New "connection reset by peer")
            else ok 200 release_body)
         spawned.

(** The installer cannot be started. *)
Definition env_no_spawn : Env :=
  env_of offline (StartError (errors_New "Access is denied.")).

(** [cmd.Start] returns nil and leaves no process. *)
Definition env_no_process : Env := env_of offline (StartOk None).

Definition release : UpdateResponse :=
  {| UpdateURL := release_url; UpdateVersion := "2.0" |}.

(** The release is in the staging directory already. *)
Definition already_staged : World :=
  process_start
    (<["C:\Temp\ollama\%2Fv2%2Finstaller.exe" := File "MZ"]>
       (<["C:\Temp\ollama" := Dir]> ∅))
    no_receivers.

(** The installer is there and cannot be looked at. *)
Definition locked_out : World :=
  process_start
    (<["C:\Temp\ollama\OllamaSetup.exe" :=
         Unreadable (errors_New "Access is denied.")]>
       (<["C:\Temp\ollama" := Dir]> ∅))
    no_receivers.

Definition tray (icon : option notifyIconData) : winTray :=
  {| window := 0x50a; nid := icon; pendingUpdate := false;
     wmSystrayMessage := 0x401; wmTaskbarCreated := 0xc0b3 |}.

(** One goroutine is receiving from [c], none from the other channels. *)
Definition one_receiver (c : Chan) : Chan → nat :=
  λ c', if decide (c' = c) then 1 else 0.

Definition listening (c : Chan) : World := process_start ∅ (one_receiver c).

(** A context that is cancelled once it has been polled [n] times. *)
Definition cancelled_after (n : nat) : Context :=
  λ h, bool_decide (n ≤ length (polls h))%nat.

Definition never_cancelled : Context := λ _, false.

Definition failing_callback : Callback := λ _ _, Some (errors_New "no tray").

Definition quiet_callback : Callback := λ _ _, None.


(* ===================================================================== *)
(** ** eventloop.go: the message pump and Quit *)
(* ===================================================================== *)

(** The struct [nativeLoop] hands to GetMessage. *)
Record MSG : Type := {
  WindowHandle : Z;
  Message : Z;
  Wparam : Z;
  Lparam : Z;
  Time : Z;
  Pt : Z * Z;
  LPrivate : Z;
}.

(** The calls of the pump and of [quit] into user32. *)
Inductive Win32Call : Type :=
| Call_GetMessage
| Call_TranslateMessage (m : MSG)
| Call_DispatchMessage (m : MSG)
| Call_PostMessage (window message wParam lParam : Z).

(** The world together with the calls into user32 made so far and with the
    package variable [quitOnce] (whether its [Do] has run). *)
Record Desktop : Type := {
  world : World;
  user32 : list Win32Call;
  quitOnce : bool;
}.

(** What the build and user32 fix for [quit]: the answer of PostMessage, as
    a function of the calls before it, and the package's [WM_CLOSE]
    ([wndProc] declares its own). *)
Class User32 : Type := {
  on_PostMessage : list Win32Call → Z → Z → Z → Z → Z * error;
  pkg_WM_CLOSE : Z;
}.

Definition D (A : Type) : Type := Desktop → Outcome A * Desktop.

Global Instance D_ret : MRet D := λ A a d, (Returns a, d).

Global Instance D_bind : MBind D := λ A B k m d,
  match m d with
  | (Returns a, d') => k a d'
  | (Exits code, d') => (Exits code, d')
  end.

(** A call of the other sections, made on the world of the desktop. *)
Definition lift {A : Type} (m : M A) : D A := λ d,
  let '(o, w') := m (world d) in
  (o, {| world := w'; user32 := user32 d; quitOnce := quitOnce d |}).

Definition call (c : Win32Call) : D unit := λ d,
  (Returns (),
   {| world := world d; user32 := user32 d ++ [c]; quitOnce := quitOnce d |}).

(** The [for] loop of [nativeLoop], followed through the answers of
    GetMessage it gets: the value returned, the error and the message
    filled in.  DispatchMessage runs the window procedure [proc] on the
    message and comes back when it has returned; what TranslateMessage and
    DispatchMessage return is dropped, as in the source.  When the answers
    run out the loop is still going. *)
Fixpoint pump (proc : MSG → M Z) (answers : list (Z * error * MSG))
  : D Goroutine :=
  match answers with
  | [] => mret Looping
  | (ret, err, m) :: answers' =>
      call Call_GetMessage;;
      if (int32 ret =? -1)%Z then
        lift (slog_Error ("get message failure: " +:+ Error err));;
        mret Returned
      else if (int32 ret =? 0)%Z then mret Returned
      else
        call (Call_TranslateMessage m);;
        call (Call_DispatchMessage m);;
        lift (proc m);;
        pump proc answers'
  end.

Definition nativeLoop (proc : MSG → M Z) (answers : list (Z * error * MSG))
  : D Goroutine :=
  lift (slog_Debug "XXX starting nativeLoop...");;
  pump proc answers.

(** [func (t *winTray) Run ()]. *)
Definition winTray_Run (t : winTray) (proc : MSG → M Z)
    (answers : list (Z * error * MSG)) : D Goroutine :=
  nativeLoop proc answers.

(** [quitOnce.Do (f)]. *)
Definition quitOnce_Do (f : D unit) : D unit := λ d,
  if quitOnce d then (Returns (), d)
  else
    match f d with
    | (Returns _, d') =>
        (Returns (),
         {| world := world d'; user32 := user32 d'; quitOnce := true |})
    | (Exits code, d') => (Exits code, d')
    end.

Section Quit.
Context {u32 : User32}.

(** [quit ()], which posts to the window of the package's tray [wt]. *)
Definition quit (wt : winTray) : D unit :=
  '(boolRet, err) ← (λ d,
     (Returns (on_PostMessage (user32 d) (window wt) pkg_WM_CLOSE 0 0),
      {| world := world d;
         user32 := user32 d ++ [Call_PostMessage (window wt) pkg_WM_CLOSE 0 0];
         quitOnce := quitOnce d |}));
  if (boolRet =? 0)%Z then
    lift (slog_Error ("failed to post close message on shutdown "
                      +:+ Error err))
  else mret ().

(** [func (t *winTray) Quit ()]: the receiver [t] is not used. *)
Definition winTray_Quit (wt t : winTray) : D unit := quitOnce_Do (quit wt).

End Quit.

(** The window procedure of the tray [t], as DispatchMessage runs it. *)
Definition wndProc_of {env : Env} {plat : Platform} (t : winTray) (m : MSG)
  : M Z :=
  wndProc t (WindowHandle m) (Message m) (Wparam m) (Lparam m).

(** The messages [ms] handled one after the other. *)
Fixpoint handle_all (proc : MSG → M Z) (ms : list MSG) : M unit :=
  match ms with
  | [] => mret ()
  | m :: ms' => proc m;; handle_all proc ms'
  end.

(** More of what a history shows: the arguments of the callback, the
    sleeps, and how many response bodies were closed. *)
Definition callbacks (h : History) : list string :=
  omap (λ e, match e with EvCallback arg => Some arg | _ => None end) h.

Definition sleeps (h : History) : list Z :=
  omap (λ e, match e with EvSleep d => Some d | _ => None end) h.

Definition closes (h : History) : nat :=
  length (omap (λ e, match e with EvBodyClose => Some () | _ => None end) h).

(** The desktop when the process starts. *)
Definition desktop_start (w : World) : Desktop :=
  {| world := w; user32 := []; quitOnce := false |}.

(** [Quit] called on the trays [ts], one call after the other. *)
Fixpoint Quit_each {u32 : User32} (wt : winTray) (ts : list winTray)
  : D unit :=
  match ts with
  | [] => mret ()
  | t :: ts' => winTray_Quit wt t;; Quit_each wt ts'
  end.

(** An answer of GetMessage on which the pump goes on. *)
Definition ordinary (a : Z * error * MSG) : bool :=
  negb (int32 a.1.1 =? -1)%Z && negb (int32 a.1.1 =? 0)%Z.

(** The calls into user32 for the answers the pump went on with. *)
Definition dispatched (answers : list (Z * error * MSG)) : list Win32Call :=
  answers ≫= λ a,
    [Call_GetMessage; Call_TranslateMessage a.2; Call_DispatchMessage a.2].

(** The messages [wndProc] has a case for. *)
Definition handled (t : winTray) : list Z :=
  [WM_COMMAND; WM_CLOSE; WM_DESTROY; WM_ENDSESSION;
   wmSystrayMessage t; wmTaskbarCreated t].

(** The part of the outside a call goes to.  For the tray: the channels of
    its callbacks, the mutex of the icon, the icon itself, the menu, the
    window and its class, and the default window procedure. *)
Inductive Kind : Type :=
| Logging | Store | Network | Disk | Process | Clock | Caller
| Channel | Mutex | Icon | Menu | Window | Default.

Global Instance Kind_eq_dec : EqDecision Kind := ltac:(solve_decision).

Definition kind (e : Event) : Kind :=
  match e with
  | EvLog _ _ => Logging
  | EvGetID => Store
  | EvHttpGet _ | EvBodyClose => Network
  | EvStat _ | EvMkdirAll _ _ | EvOpenFile _ _ | EvWrite _ _
  | EvFileClose _ => Disk
  | EvStart _ _ | EvRelease _ | EvExit _ => Process
  | EvSleep _ => Clock
  | EvCtxDone _ | EvCallback _ => Caller
  | EvSend _ => Channel
  | EvLock | EvUnlock => Mutex
  | EvNidDelete | EvNidAdd => Icon
  | EvShowMenu => Menu
  | EvDestroyWindow _ | EvUnregister | EvPostQuitMessage _ => Window
  | EvDefWindowProc _ _ _ _ => Default
  end.

(** The parts of the world a call may write. *)
Inductive Part : Type := Flag | Files | Receivers.

Global Instance Part_eq_dec : EqDecision Part := ltac:(solve_decision).

(** A call is confined to the kinds [ks] and the parts [ps] when it always
    returns, makes calls of the kinds [ks] only, leaves
    [UpdateCheckURLBase] alone, and leaves alone each of
    [UpdateDownloaded], the files and the receivers that is not in [ps]. *)
Definition confined {A : Type} (ks : list Kind) (ps : list Part) (m : M A)
  : Prop :=
  ∀ w, ∃ a w' evs,
    m w = (Returns a, w') ∧
    history w' = history w ++ evs ∧
    Forall (λ e, kind e ∈ ks) evs ∧
    UpdateCheckURLBase w' = UpdateCheckURLBase w ∧
    (Flag ∉ ps → UpdateDownloaded w' = UpdateDownloaded w) ∧
    (Files ∉ ps → files w' = files w) ∧
    (Receivers ∉ ps → receivers w' = receivers w).

(** [filepath.Join] on two elements without separators inside: an empty
    element is dropped. *)
Definition Join2 (dir name : string) : string :=
  if bool_decide (name = EmptyString) then dir
  else if bool_decide (dir = EmptyString) then name
  else dir +:+ "\" +:+ name.

Definition windows_amd64_Join2 : Platform := {|
  GOOS := "windows";
  GOARCH := "amd64";
  Version := "0.1.25";
  UpdateStageDir := "C:\Temp\ollama";
  Installer := "OllamaSetup.exe";
  filepath_Join := Join2;
  url_Parse := plain_url_Path;
  url_PathEscape := PathEscape;
  QuitMenuID := 1;
  UpdateMenuID := 2;
  LogsMenuID := 3;
  GetStartedMenuID := 4;
|}.

(** Only the first byte of a write reaches the disk. *)
Definition env_short_write : Env := {|
  on_GetID := λ _, "client-1";
  on_Get := server 200 release_body "MZ";
  on_MkdirAll := λ _ _, None;
  on_OpenFile := λ _ _, None;
  on_Write := λ _ _ _, (1%nat, Some (errors_New "There is not enough space on the disk."));
  on_Start := λ _ _ _, spawned;
  on_Release := λ _ _, None;
  on_DestroyWindow := λ _ _, (1%Z, errors_New "The operation completed successfully.");
  on_unregister := λ _, None;
  on_nid_delete := λ _, None;
  on_nid_add := λ _, None;
  on_showMenu := λ _, None;
  on_DefWindowProc := λ _ _ _ _ _, 0%Z;
|}.

(** The staging directory cannot be created, and the Win32 calls fail. *)
Definition env_denied : Env := {|
  on_GetID := λ _, "client-1";
  on_Get := server 200 release_body "MZ";
  on_MkdirAll := λ _ _, Some (PathError "mkdir" "C:\Temp" ErrNotExist);
  on_OpenFile := λ _ _, Some (errors_New "Access is denied.");
  on_Write := λ _ _ payload, (String.length payload, None);
  on_Start := λ _ _ _, spawned;
  on_Release := λ _ _, None;
  on_DestroyWindow := λ _ _, (0%Z, errors_New "Invalid window handle.");
  on_unregister := λ _, Some (errors_New "Class does not exist.");
  on_nid_delete := λ _, None;
  on_nid_add := λ _, None;
  on_showMenu := λ _, Some (errors_New "Invalid menu handle.");
  on_DefWindowProc := λ _ _ _ _ _, 0%Z;
|}.

(** The release is there and cannot be looked at. *)
Definition release_locked : World :=
  process_start
    (<["C:\Temp\ollama\%2Fv2%2Finstaller.exe" :=
         Unreadable (errors_New "Access is denied.")]>
       (<["C:\Temp\ollama" := Dir]> ∅))
    no_receivers.

(** [n] goroutines are receiving from [c], none from the other channels. *)
Definition crowd (n : nat) (c : Chan) : World :=
  process_start ∅ (λ c', if decide (c' = c) then n else 0%nat).

Definition user32_failing : User32 := {|
  on_PostMessage := λ _ _ _ _ _, (0%Z, errors_New "Invalid window handle.");
  pkg_WM_CLOSE := 0x0010;
|}.

(** A message for the tray window. *)
Definition msg (message wParam lParam : Z) : MSG :=
  {| WindowHandle := 0x50a; Message := message; Wparam := wParam;
     Lparam := lParam; Time := 0; Pt := (0, 0)%Z; LPrivate := 0 |}.


(* ===================================================================== *)
(** ** Reasoning about calls and histories *)
(* ===================================================================== *)

Lemma prefix_app (s t : string) : String.prefix s (s +:+ t) = true.
Proof.
  induction s as [|c s IH]; simpl.
  - by destruct t.
  - destruct (ascii_dec c c); [exact IH | congruence].
Qed.

Lemma contains_prefix (sub s : string) :
  String.prefix sub s = true → contains sub s = true.
Proof. intros Hp. destruct s; cbn [contains]; rewrite Hp; reflexivity. Qed.

Lemma contains_app (pre sub post : string) :
  contains sub (pre +:+ sub +:+ post) = true.
Proof.
  induction pre as [|c pre IH].
  - change (EmptyString +:+ sub +:+ post) with (sub +:+ post).
    apply contains_prefix, prefix_app.
  - change (String c pre +:+ sub +:+ post)
      with (String c (pre +:+ sub +:+ post)).
    cbn [contains]. rewrite IH. apply orb_true_r.
Qed.

Lemma contains_suffix (pre sub : string) : contains sub (pre +:+ sub) = true.
Proof.
  assert (sub = sub +:+ EmptyString) as Hs.
  { clear. induction sub as [|a s IH]; [reflexivity|].
    change (String a s +:+ EmptyString) with (String a (s +:+ EmptyString)).
    by rewrite <- IH. }
  rewrite Hs at 2. apply contains_app.
Qed.

Lemma gets_app (h1 h2 : History) : gets (h1 ++ h2) = gets h1 ++ gets h2.
Proof. apply omap_app. Qed.

Lemma spawns_app (h1 h2 : History) : spawns (h1 ++ h2) = spawns h1 ++ spawns h2.
Proof. apply omap_app. Qed.

Lemma exits_app (h1 h2 : History) : exits (h1 ++ h2) = exits h1 ++ exits h2.
Proof. apply omap_app. Qed.

Lemma polls_app (h1 h2 : History) : polls (h1 ++ h2) = polls h1 ++ polls h2.
Proof. apply omap_app. Qed.

Lemma sends_app (h1 h2 : History) : sends (h1 ++ h2) = sends h1 ++ sends h2.
Proof. apply omap_app. Qed.

Lemma logs_app (h1 h2 : History) : logs (h1 ++ h2) = logs h1 ++ logs h2.
Proof. apply omap_app. Qed.

Lemma snoc2 {A : Type} (l : list A) (a b : A) : l ++ [a; b] = (l ++ [a]) ++ [b].
Proof. by rewrite <- app_assoc. Qed.

(** Unfolds the calls of the monad down to pairs of an outcome and a world. *)
Ltac step :=
  unfold slog_Debug, slog_Info, slog_Warn, slog_Error, store_GetID, http_Get,
    io_ReadAll, Body_Close, os_Stat, File_Close, cmd_Start, Process_Release,
    muNID_Lock, muNID_Unlock, nid_delete, nid_add, showMenu,
    pDestroyWindow_Call, wcex_unregister, pPostQuitMessage_Call,
    pDefWindowProc_Call, time_Sleep in *;
  unfold mbind, M_bind, mret, M_ret, defer, emit, ask, os_Exit in *;
  cbv beta iota zeta in *;
  cbn [fst snd history push files UpdateDownloaded receivers
       UpdateCheckURLBase set_UpdateDownloaded set_files set_receivers] in *.

(** Splits on the scrutinee of a match of the goal that is not itself a
    match: the next question the code asks. *)
Ltac split_head :=
  match goal with
  | |- context [match ?x with _ => _ end] =>
      lazymatch x with
      | context [match _ with _ => _ end] => fail
      | _ => destruct x eqn:?
      end
  end.

(** Brings a history that grew by single events into the shape
    [old ++ new]. *)
Ltac tidy :=
  cbn [history push files UpdateDownloaded receivers set_UpdateDownloaded
       set_files set_receivers] in *;
  rewrite <- ?app_assoc; cbn [app].

Section DoUpgrade_facts.
Context {env : Env} {plat : Platform}.

(** What [DoUpgrade] does, by the state of the installer and the answer to
    the spawn. *)
Lemma DoUpgrade_unfold (w : World) :
  DoUpgrade w =
    let w1 := push (EvStat installerExe) w in
    if errors_Is_ErrNotExist (Stat_error (files w) installerExe) then
      (Returns (Some (errors_New ("could not locate ollama installer at "
                                  +:+ installerExe))), w1)
    else
      let w2 := push (EvLog LevelDebug ("XXX attempting to start installer "
                                        +:+ installerExe)) w1 in
      let w3 := push (EvStart installerExe installArgs) w2 in
      match spawn_answer w with
      | StartError err =>
          (Returns (Some (Errorf_w "unable to start ollama app " (Some err))),
           w3)
      | StartOk None =>
          (Returns (Some (errors_New "Installer process did not start")), w3)
      | StartOk (Some pid) =>
          let w4 := push (EvRelease pid) w3 in
          let w5 :=
            match on_Release (history w3) pid with
            | Some e =>
                push (EvLog LevelError ("failed to release server process: "
                                        +:+ Error e)) w4
            | None => w4
            end in
          (Exits 0,
           push (EvExit 0)
             (push (EvLog LevelInfo "Installer started in background, exiting")
                w5))
      end.
Proof.
  unfold DoUpgrade, spawn_answer. fold installerExe. step.
  destruct (errors_Is_ErrNotExist _); [reflexivity|].
  rewrite snoc2.
  destruct (on_Start _ _ _) as [err|[pid|]]; try reflexivity.
  step. destruct (on_Release _ _); reflexivity.
Qed.

End DoUpgrade_facts.

Lemma history_push (e : Event) (w : World) : history (push e w) = history w ++ [e].
Proof. reflexivity. Qed.

Ltac projections :=
  cbn [history push files set_UpdateDownloaded set_files set_receivers];
  rewrite ?history_push, ?gets_app, ?spawns_app, ?exits_app, ?polls_app,
    ?sends_app, ?logs_app;
  cbn [gets spawns exits polls sends logs omap list_omap app];
  rewrite ?app_nil_r.

Section DoUpgrade_claims.
Context {env : Env} {plat : Platform}.

(** C5.  When nothing is at the path of the installer in the staging
    directory, [DoUpgrade] returns an error whose text holds that path; it
    has spawned no process and the process has not exited. *)
Theorem DoUpgrade_installer_missing (w : World) :
  files w !! installerExe = None →
  ∃ err w',
    DoUpgrade w = (Returns (Some err), w') ∧
    contains installerExe (Error err) = true ∧
    spawns (history w') = spawns (history w) ∧
    exits (history w') = exits (history w).
Proof.
  intros Habsent. rewrite DoUpgrade_unfold. unfold Stat_error.
  rewrite Habsent. cbn [errors_Is_ErrNotExist is_ErrNotExist].
  eexists _, _. split; [reflexivity|]. split.
  - cbn [Error]. apply contains_suffix.
  - by projections.
Qed.

(** C6.  Once the installer is there to be started: if [cmd.Start] leaves
    a process behind, [DoUpgrade] releases it and then, after log lines
    only, exits with status 0; if the start fails, or leaves no process,
    [DoUpgrade] returns an error and the process has not exited. *)
Theorem DoUpgrade_handoff (w : World) :
  errors_Is_ErrNotExist (Stat_error (files w) installerExe) = false →
  match spawn_answer w with
  | StartOk (Some pid) =>
      ∃ w' lines,
        DoUpgrade w = (Exits 0, w') ∧
        history w' =
          history w ++
          [EvStat installerExe;
           EvLog LevelDebug ("XXX attempting to start installer "
                             +:+ installerExe);
           EvStart installerExe installArgs;
           EvRelease pid] ++
          map (λ l, EvLog l.1 l.2) lines ++ [EvExit 0]
  | _ =>
      ∃ err w',
        DoUpgrade w = (Returns (Some err), w') ∧
        exits (history w') = exits (history w)
  end.
Proof.
  intros Hthere. rewrite DoUpgrade_unfold, Hthere. cbv zeta.
  destruct (spawn_answer w) as [err|[pid|]].
  - eexists _, _. split; [reflexivity|]. by projections.
  - destruct (on_Release _ pid) as [e|].
    + eexists _, [(_, _); (_, _)]. split; [reflexivity|].
      rewrite !history_push, <- !app_assoc. reflexivity.
    + eexists _, [(_, _)]. split; [reflexivity|].
      rewrite !history_push, <- !app_assoc. reflexivity.
  - eexists _, _. split; [reflexivity|]. by projections.
Qed.

(** C10.  When [os.Stat] of the installer fails with an error that is not
    [os.ErrNotExist], [DoUpgrade] does not stop there: it goes on to start
    the installer with the install arguments. *)
Theorem DoUpgrade_other_stat_error (w : World) (e : error) :
  Stat_error (files w) installerExe = Some e →
  is_ErrNotExist e = false →
  ∃ result w',
    DoUpgrade w = (result, w') ∧
    spawns (history w') = spawns (history w) ++ [(installerExe, installArgs)].
Proof.
  intros Hstat He. rewrite DoUpgrade_unfold, Hstat.
  cbn [errors_Is_ErrNotExist]. rewrite He. cbv zeta.
  destruct (spawn_answer w) as [err|[pid|]].
  - eexists _, _. split; [reflexivity|]. by projections.
  - destruct (on_Release _ pid) as [e'|];
      (eexists _, _; split; [reflexivity|]; by projections).
  - eexists _, _. split; [reflexivity|]. by projections.
Qed.

End DoUpgrade_claims.

(* ===================================================================== *)
(** ** Calls that return, poll no context and leave the flag up *)
(* ===================================================================== *)


Lemma tame_ret {A : Type} (a : A) : tame (mret a).
Proof.
  intros w. exists a, w, []. rewrite app_nil_r. by repeat split.
Qed.

Lemma tame_bind {A B : Type} (m : M A) (k : A → M B) :
  tame m → (∀ a, tame (k a)) → tame (m ≫= k).
Proof.
  intros Hm Hk w.
  destruct (Hm w) as (a & w1 & evs1 & Em & Eh1 & Ep1 & Ef1).
  destruct (Hk a w1) as (b & w2 & evs2 & Ek & Eh2 & Ep2 & Ef2).
  exists b, w2, (evs1 ++ evs2). unfold mbind, M_bind. rewrite Em, Ek.
  repeat split.
  - by rewrite Eh2, Eh1, app_assoc.
  - by rewrite polls_app, Ep1, Ep2.
  - auto.
Qed.

Lemma tame_defer {A : Type} (f : M unit) (body : M A) :
  tame f → tame body → tame (defer f body).
Proof.
  intros Hf Hb w.
  destruct (Hb w) as (a & w1 & evs1 & Em & Eh1 & Ep1 & Ef1).
  destruct (Hf w1) as (b & w2 & evs2 & Ek & Eh2 & Ep2 & Ef2).
  exists a, w2, (evs1 ++ evs2). unfold defer. rewrite Em, Ek.
  repeat split.
  - by rewrite Eh2, Eh1, app_assoc.
  - by rewrite polls_app, Ep1, Ep2.
  - auto.
Qed.

Lemma tame_ask {A : Type} (e : Event) (answer : History → A) :
  polls [e] = [] → tame (ask e answer).
Proof. intros He w. by eexists _, _, [e]. Qed.

Lemma tame_emit (e : Event) : polls [e] = [] → tame (emit e).
Proof. intros He w. by eexists _, _, [e]. Qed.

Lemma tame_set_UpdateDownloaded :
  tame (λ w, (Returns (), set_UpdateDownloaded true w)).
Proof.
  intros w. eexists _, _, []. rewrite app_nil_r. by repeat split.
Qed.

Lemma tame_try_send (c : Chan) : tame (try_send c).
Proof.
  intros w. unfold try_send. destruct (receivers w c).
  - eexists _, _, []. rewrite app_nil_r. by repeat split.
  - by eexists _, _, [EvSend c].
Qed.

Section tame_calls.
Context {env : Env}.

Lemma tame_os_Stat (path : string) : tame (os_Stat path).
Proof. intros w. by eexists _, _, [EvStat path]. Qed.

Lemma tame_os_MkdirAll (path : string) (perm : Z) : tame (os_MkdirAll path perm).
Proof.
  intros w. unfold os_MkdirAll.
  destruct (on_MkdirAll _ _); [by eexists _, _, [_]|].
  destruct (files w !! path) as [[]|]; by eexists _, _, [_].
Qed.

Lemma tame_os_OpenFile (path : string) (perm : Z) : tame (os_OpenFile path perm).
Proof.
  intros w. unfold os_OpenFile.
  destruct (on_OpenFile _ _); [by eexists _, _, [_]|].
  destruct (files w !! path) as [[]|]; by eexists _, _, [_].
Qed.

Lemma tame_File_Write (path payload : string) : tame (File_Write path payload).
Proof.
  intros w. unfold File_Write. destruct (on_Write _ _ _).
  by eexists _, _, [_].
Qed.

End tame_calls.

Create HintDb tame.
#[export] Hint Resolve tame_ret tame_set_UpdateDownloaded tame_try_send
  tame_os_Stat tame_os_MkdirAll tame_os_OpenFile tame_File_Write : tame.

(** Decomposes a call into its binds and branches and closes each leaf
    with the lemmas above. *)
Ltac tame :=
  repeat first
    [ solve [eauto with tame]
    | apply tame_emit; reflexivity
    | apply tame_ask; reflexivity
    | apply tame_bind
    | apply tame_defer
    | progress intros
    | progress unfold slog_Debug, slog_Info, slog_Warn, slog_Error,
        store_GetID, http_Get, io_ReadAll, Body_Close, File_Close, cmd_Start,
        Process_Release, time_Sleep, muNID_Lock, muNID_Unlock, nid_delete,
        nid_add, showMenu, pDestroyWindow_Call, wcex_unregister,
        pPostQuitMessage_Call, pDefWindowProc_Call, notify
    | case_match ].

Section tame_functions.
Context {env : Env} {plat : Platform}.

Lemma tame_GetUpdateCheckURL (id : string) : tame (GetUpdateCheckURL id).
Proof.
  intros w. eexists _, _, []. rewrite app_nil_r. by repeat split.
Qed.

Lemma tame_IsNewReleaseAvailable : tame IsNewReleaseAvailable.
Proof.
  unfold IsNewReleaseAvailable.
  apply tame_bind; [tame|]. intros id.
  apply tame_bind; [apply tame_GetUpdateCheckURL|]. tame.
Qed.

Lemma tame_DownloadNewRelease (r : UpdateResponse) : tame (DownloadNewRelease r).
Proof. unfold DownloadNewRelease. tame. Qed.

Lemma tame_endsession (t : winTray) : tame (endsession t).
Proof. unfold endsession. tame. Qed.

Lemma tame_wndProc (t : winTray) (hWnd message wParam lParam : Z) :
  tame (wndProc t hWnd message wParam lParam).
Proof.
  unfold wndProc.
  repeat first [ apply tame_endsession | progress tame ].
Qed.

End tame_functions.

Section IsNewReleaseAvailable_facts.
Context {env : Env} {plat : Platform}.

(** What [IsNewReleaseAvailable] returns, by the answer to its request. *)
Lemma IsNewReleaseAvailable_result (w : World) :
  ∃ w',
    IsNewReleaseAvailable w =
      (Returns
         match update_check w with
         | inl _ => (false, zero_UpdateResponse)
         | inr resp =>
             if (StatusCode resp =? 204)%Z then (false, zero_UpdateResponse)
             else
               match json_Unmarshal (Body resp).1 zero_UpdateResponse with
               | (Some _, r) => (false, r)
               | (None, r) => (true, r)
               end
         end, w').
Proof.
  unfold IsNewReleaseAvailable, update_check, GetUpdateCheckURL. step.
  rewrite snoc2.
  destruct (on_Get _ _) as [err|resp]; [by eexists|].
  destruct (StatusCode resp =? 204)%Z; [by eexists|].
  destruct (Body resp) as [body [e|]]; cbn [fst]; step;
    destruct (json_Unmarshal body zero_UpdateResponse) as [[e'|] r];
    by eexists.
Qed.

(** The text of the malformed-response line and of the transport line are
    in the history afterwards. *)
Lemma IsNewReleaseAvailable_logs (w : World) :
  ∃ result w' evs,
    IsNewReleaseAvailable w = (Returns result, w') ∧
    history w' = history w ++ evs ∧
    match update_check w with
    | inl err =>
        (LevelDebug, "XXX error checking for update: " +:+ Error err)
          ∈ logs evs
    | inr resp =>
        if (StatusCode resp =? 204)%Z then
          (LevelDebug, "XXX got 204 when checking for update") ∈ logs evs
        else
          match (json_Unmarshal (Body resp).1 zero_UpdateResponse).1 with
          | Some e =>
              (LevelWarn, "malformed response checking for update: "
                          +:+ Error e) ∈ logs evs
          | None => True
          end
    end.
Proof.
  unfold IsNewReleaseAvailable, update_check, GetUpdateCheckURL. step.
  rewrite snoc2.
  destruct (on_Get _ _) as [err|resp].
  { eexists _, _, [_; _; _; _]. split; [reflexivity|]. tidy.
    split; [reflexivity|]. cbn. set_solver. }
  destruct (StatusCode resp =? 204)%Z.
  { eexists _, _, [_; _; _; _; _]. split; [reflexivity|]. tidy.
    split; [reflexivity|]. cbn. set_solver. }
  destruct (Body resp) as [body [e|]]; cbn [fst]; step;
    destruct (json_Unmarshal body zero_UpdateResponse) as [[e'|] r];
    cbn [fst].
  - eexists _, _, [_; _; _; _; _; _]. split; [reflexivity|]. tidy.
    split; [reflexivity|]. cbn. set_solver.
  - eexists _, _, [_; _; _; _; _; _]. split; [reflexivity|]. by tidy.
  - eexists _, _, [_; _; _; _; _]. split; [reflexivity|]. tidy.
    split; [reflexivity|]. cbn. set_solver.
  - eexists _, _, [_; _; _; _; _]. split; [reflexivity|]. by tidy.
Qed.


End IsNewReleaseAvailable_facts.


Lemma decode_members_error (ms : list (string * json)) (saved : option error)
    (r : UpdateResponse) :
  (decode_members ms saved r).1 = None ↔
  saved = None ∧ accepted (JObject ms) = true.
Proof.
  revert saved r. induction ms as [|[key v] ms IH]; intros saved r.
  - cbn. tauto.
  - cbn [decode_members accepted forallb fst snd] in *.
    destruct (field_of_key key) as [f|].
    + destruct v; cbn [store_field];
        rewrite IH; destruct saved; cbn [saveError andb]; intuition congruence.
    + rewrite IH. cbn [andb]. tauto.
Qed.

Lemma decode_error (j : json) (r : UpdateResponse) :
  (decode j r).1 = None ↔ accepted j = true.
Proof.
  destruct j; cbn [decode accepted fst]; try (split; congruence).
  rewrite decode_members_error. tauto.
Qed.

Section IsNewReleaseAvailable_claims.
Context {env : Env} {plat : Platform}.


(** C2, as the code has it.  For a response whose status is not 204, the
    status is not looked at again: [IsNewReleaseAvailable] returns [true]
    exactly when [json.Unmarshal] takes the body without an error, that is
    when the body is JSON and is null or an object that gives nothing but
    strings or null to "url" and "version".  The [UpdateResponse] is what
    the decoder left. *)
Theorem IsNewReleaseAvailable_decoded (w : World) (resp : Response) :
  update_check w = inr resp →
  StatusCode resp ≠ 204%Z →
  ∃ w',
    IsNewReleaseAvailable w =
      (Returns (match json_parse (Body resp).1 with
                | Some j => accepted j
                | None => false
                end,
                (json_Unmarshal (Body resp).1 zero_UpdateResponse).2), w').
Proof.
  intros Hresp N204. destruct (IsNewReleaseAvailable_result w) as [w' ->].
  rewrite Hresp. destruct (Z.eqb_spec (StatusCode resp) 204); [done|].
  exists w'. do 2 f_equal. unfold json_Unmarshal.
  destruct (json_parse (Body resp).1) as [j|]; [|done].
  pose proof (decode_error j zero_UpdateResponse) as Hacc.
  destruct (decode j zero_UpdateResponse) as [[e|] r]; cbn [fst snd] in *.
  - destruct (accepted j); [|done]. by destruct Hacc as [_ Hacc]; specialize (Hacc eq_refl).
  - destruct Hacc as [Hacc _]. by rewrite Hacc.
Qed.

End IsNewReleaseAvailable_claims.

Section DownloadNewRelease_facts.
Context {env : Env} {plat : Platform}.

(** The call when the staging directory and the escaped file are there:
    two stats, one log line, the flag. *)
Lemma DownloadNewRelease_staged (w : World) (r : UpdateResponse) (path : string) :
  url_Parse (UpdateURL r) = inr path →
  errors_Is_ErrNotExist (Stat_error (files w) UpdateStageDir) = false →
  Stat_error (files w) (escapedFilename path) = None →
  DownloadNewRelease r w =
    (Returns None,
     set_UpdateDownloaded true
       (push (EvLog LevelDebug "XXX update already downloaded")
          (push (EvStat (escapedFilename path))
             (push (EvStat UpdateStageDir) w)))).
Proof.
  intros Hparse Hdir Hfile. unfold DownloadNewRelease. rewrite Hparse.
  fold (escapedFilename path). step. rewrite Hdir. step. rewrite Hfile.
  reflexivity.
Qed.

(** Every way out of [DownloadNewRelease] with a nil error goes through
    the assignment to [UpdateDownloaded], and leaves the staging directory
    and the escaped file in place. *)
Lemma DownloadNewRelease_nil (w w' : World) (r : UpdateResponse) :
  DownloadNewRelease r w = (Returns None, w') →
  UpdateDownloaded w' = true ∧
  ∃ path,
    url_Parse (UpdateURL r) = inr path ∧
    errors_Is_ErrNotExist (Stat_error (files w') UpdateStageDir) = false ∧
    Stat_error (files w') (escapedFilename path) = None.
Proof.
  unfold DownloadNewRelease.
  destruct (url_Parse (UpdateURL r)) as [err|path] eqn:Hparse; [done|].
  fold (escapedFilename path). set (file := escapedFilename path).
  intros Hrun. cut (UpdateDownloaded w' = true ∧
    errors_Is_ErrNotExist (Stat_error (files w') UpdateStageDir) = false ∧
    Stat_error (files w') file = None).
  { intros (Hflag & Hdir & Hfile). split; [done|]. by exists path. }
  revert Hrun. step. unfold os_MkdirAll, os_OpenFile, File_Write. step.
  repeat (split_head; step; try done).
  all: intros [= <-]; step.
  all: split; [done|].
  all: unfold Stat_error in *.
  all: repeat match goal with
         | Hi : context [<[_:=_]> _ !! _] |- _ => rewrite lookup_insert in Hi
         | |- context [<[_:=_]> _ !! _] => rewrite lookup_insert
         end.
  all: repeat case_decide; simplify_eq;
         cbn [errors_Is_ErrNotExist is_ErrNotExist] in *.
  all: repeat (case_match; simplify_eq;
               cbn [errors_Is_ErrNotExist is_ErrNotExist] in * ); done.
Qed.

(** Calling [DownloadNewRelease] again after it returned nil: nil again,
    and no request. *)
Lemma DownloadNewRelease_twice (w w1 : World) (r : UpdateResponse) :
  DownloadNewRelease r w = (Returns None, w1) →
  ∃ w2,
    DownloadNewRelease r w1 = (Returns None, w2) ∧
    gets (history w2) = gets (history w1) ∧
    files w2 = files w1.
Proof.
  intros Hfirst.
  destruct (DownloadNewRelease_nil _ _ _ Hfirst)
    as (_ & path & Hparse & Hdir & Hfile).
  rewrite (DownloadNewRelease_staged w1 r path Hparse Hdir Hfile).
  eexists. split; [reflexivity|]. split; [by projections | reflexivity].
Qed.

(** C3.  When the URL of the release parses and the staging directory and
    the escaped file in it are there for [os.Stat], [DownloadNewRelease]
    returns nil, requests nothing over HTTP, and leaves the files alone:
    whether the file is there is all that decides. *)
Theorem DownloadNewRelease_already_staged (w : World) (r : UpdateResponse)
    (path : string) :
  url_Parse (UpdateURL r) = inr path →
  errors_Is_ErrNotExist (Stat_error (files w) UpdateStageDir) = false →
  Stat_error (files w) (escapedFilename path) = None →
  ∃ w',
    DownloadNewRelease r w = (Returns None, w') ∧
    gets (history w') = gets (history w) ∧
    files w' = files w.
Proof.
  intros Hparse Hdir Hfile.
  rewrite (DownloadNewRelease_staged w r path Hparse Hdir Hfile).
  eexists. split; [reflexivity|]. split; [by projections | reflexivity].
Qed.

End DownloadNewRelease_facts.

Section DownloadNewRelease_requests.
Context {env : Env} {plat : Platform}.

(** [DownloadNewRelease] always returns, and makes at most one request:
    for the URL of the release, and only when [os.Stat] found nothing at
    the escaped path. *)
Lemma DownloadNewRelease_requests (w : World) (r : UpdateResponse) :
  ∃ result w',
    DownloadNewRelease r w = (Returns result, w') ∧
    (gets (history w') = gets (history w) ∨
     gets (history w') = gets (history w) ++ [UpdateURL r] ∧
     ∃ path,
       url_Parse (UpdateURL r) = inr path ∧
       errors_Is_ErrNotExist (Stat_error (files w) (escapedFilename path))
         = true).
Proof.
  unfold DownloadNewRelease.
  destruct (url_Parse (UpdateURL r)) as [err|path] eqn:Hparse.
  { eexists _, _. split; [reflexivity|]. by left. }
  fold (escapedFilename path). set (file := escapedFilename path).
  step. unfold os_MkdirAll, os_OpenFile, File_Write. step.
  repeat (split_head; step).
  all: eexists _, _; (split; [reflexivity|]); projections.
  all: first [ left; reflexivity | right; split; [reflexivity|] ].
  all: exists path; split; [done|].
  all: unfold Stat_error in *.
  all: repeat match goal with
         | Hi : context [<[_:=_]> _ !! _] |- _ => rewrite lookup_insert in Hi
         end.
  all: repeat case_decide; simplify_eq;
         cbn [errors_Is_ErrNotExist is_ErrNotExist] in *; done.
Qed.

End DownloadNewRelease_requests.

Section checker_facts.
Context {env : Env} {plat : Platform}.

Lemma select_Done_run (ctx : Context) (w : World) :
  select_Done ctx w =
    (Returns (ctx (history w)),
     push (if ctx (history w)
           then EvLog LevelDebug "XXX stopping background update checker"
           else EvSleep (60 * 60 * Second))
       (push (EvCtxDone (ctx (history w))) w)).
Proof. unfold select_Done. step. by destruct (ctx (history w)). Qed.


(** One turn of the loop. *)
Lemma checker_iteration_turn (ctx : Context) (cb : Callback) (w : World) :
  ∃ body w',
    checker_iteration ctx cb w = (Returns (ctx (history w ++ body)), w') ∧
    history w' =
      history w ++ body ++
      [EvCtxDone (ctx (history w ++ body));
       if ctx (history w ++ body)
       then EvLog LevelDebug "XXX stopping background update checker"
       else EvSleep (60 * 60 * Second)] ∧
    polls body = [] ∧
    (UpdateDownloaded w = true → UpdateDownloaded w' = true) ∧
    (∀ err, update_check w = inl err →
       (LevelDebug, "XXX error checking for update: " +:+ Error err)
         ∈ logs body) ∧
    (∀ resp e r,
       update_check w = inr resp → StatusCode resp ≠ 204%Z →
       json_Unmarshal (Body resp).1 zero_UpdateResponse = (Some e, r) →
       (LevelWarn, "malformed response checking for update: " +:+ Error e)
         ∈ logs body) ∧
    (∀ r w1 e w2,
       IsNewReleaseAvailable w = (Returns (true, r), w1) →
       DownloadNewRelease r w1 = (Returns (Some e), w2) →
       (LevelError, "failed to download new release: " +:+ Error e)
         ∈ logs body) ∧
    (∀ r w1 err w2,
       IsNewReleaseAvailable w = (Returns (true, r), w1) →
       DownloadNewRelease r w1 = (Returns err, w2) →
       cb (history w2 ++ download_failure err) "TODO version" ≠ None →
       (LevelDebug, "XXX failed to register update available with tray")
         ∈ logs body).
Proof.
  destruct (IsNewReleaseAvailable_logs w)
    as ([av resp] & w1 & evs1 & E1 & Eh1 & Hlog1).
  destruct (tame_IsNewReleaseAvailable w)
    as (? & ? & evs1' & E1' & Eh1' & Ep1 & Ef1).
  rewrite E1 in E1'. injection E1' as <- <-.
  rewrite Eh1 in Eh1'. apply app_inv_head in Eh1'. subst evs1'.
  assert (∀ err, update_check w = inl err →
            (LevelDebug, "XXX error checking for update: " +:+ Error err)
              ∈ logs evs1) as Hcheck.
  { intros err Herr. by rewrite Herr in Hlog1. }
  assert (∀ resp e r,
            update_check w = inr resp → StatusCode resp ≠ 204%Z →
            json_Unmarshal (Body resp).1 zero_UpdateResponse = (Some e, r) →
            (LevelWarn, "malformed response checking for update: "
                        +:+ Error e) ∈ logs evs1) as Hmalformed.
  { intros resp' e r Hresp N204 HU. rewrite Hresp in Hlog1.
    destruct (Z.eqb_spec (StatusCode resp') 204); [done|].
    by rewrite HU in Hlog1. }
  clear Hlog1.
  unfold checker_iteration. step. rewrite E1. step.
  destruct av.
  - destruct (tame_DownloadNewRelease resp w1)
      as (err & w2 & evs2 & E2 & Eh2 & Ep2 & Ef2).
    rewrite E2. step.
    destruct err as [e|]; step;
      (destruct (cb _ "TODO version") as [e'|] eqn:Ecb; step;
       rewrite select_Done_run; cbn [history push];
       rewrite Eh2, Eh1 in *; rewrite <- !app_assoc in *; cbn [app] in * ).
    + exists (evs1 ++ evs2 ++
              [EvLog LevelError ("failed to download new release: " +:+ Error e);
               EvCallback "TODO version";
               EvLog LevelDebug
                 "XXX failed to register update available with tray"]).
      eexists. split; [reflexivity|]. cbn [history push].
      rewrite Eh2, <- !app_assoc. cbn [app].
      split; [reflexivity|]. rewrite !polls_app, !logs_app, Ep1, Ep2.
      split; [reflexivity|]. split; [auto|]. cbn.
      split; [|split; [|split]].
      * intros err Herr. specialize (Hcheck err Herr). set_solver.
      * intros resp' e0 r0 ? ? ?.
        specialize (Hmalformed resp' e0 r0). set_solver.
      * intros r w0 e0 w4 [= <- <-] E4. rewrite E2 in E4.
        injection E4 as <- <-. set_solver.
      * intros. set_solver.
    + exists (evs1 ++ evs2 ++
              [EvLog LevelError ("failed to download new release: " +:+ Error e);
               EvCallback "TODO version"]).
      eexists. split; [reflexivity|]. cbn [history push].
      rewrite Eh2, <- !app_assoc. cbn [app].
      split; [reflexivity|]. rewrite !polls_app, !logs_app, Ep1, Ep2.
      split; [reflexivity|]. split; [auto|]. cbn.
      split; [|split; [|split]].
      * intros err Herr. specialize (Hcheck err Herr). set_solver.
      * intros resp' e0 r0 ? ? ?.
        specialize (Hmalformed resp' e0 r0). set_solver.
      * intros r w0 e0 w4 [= <- <-] E4. rewrite E2 in E4.
        injection E4 as <- <-. set_solver.
      * intros r w0 err w4 [= <- <-] E4. rewrite E2 in E4.
        injection E4 as <- <-. rewrite Eh2, <- !app_assoc.
        cbn [download_failure]. by rewrite Ecb.
    + exists (evs1 ++ evs2 ++
              [EvCallback "TODO version";
               EvLog LevelDebug
                 "XXX failed to register update available with tray"]).
      eexists. split; [reflexivity|]. cbn [history push].
      rewrite Eh2, <- !app_assoc. cbn [app].
      split; [reflexivity|]. rewrite !polls_app, !logs_app, Ep1, Ep2.
      split; [reflexivity|]. split; [auto|]. cbn.
      split; [|split; [|split]].
      * intros err Herr. specialize (Hcheck err Herr). set_solver.
      * intros resp' e0 r0 ? ? ?.
        specialize (Hmalformed resp' e0 r0). set_solver.
      * intros r w0 e0 w4 [= <- <-] E4. rewrite E2 in E4. done.
      * intros. set_solver.
    + exists (evs1 ++ evs2 ++ [EvCallback "TODO version"]).
      eexists. split; [reflexivity|]. cbn [history push].
      rewrite Eh2, <- !app_assoc. cbn [app].
      split; [reflexivity|]. rewrite !polls_app, !logs_app, Ep1, Ep2.
      split; [reflexivity|]. split; [auto|]. cbn.
      split; [|split; [|split]].
      * intros err Herr. specialize (Hcheck err Herr). set_solver.
      * intros resp' e0 r0 ? ? ?.
        specialize (Hmalformed resp' e0 r0). set_solver.
      * intros r w0 e0 w4 [= <- <-] E4. rewrite E2 in E4. done.
      * intros r w0 err w4 [= <- <-] E4. rewrite E2 in E4.
        injection E4 as <- <-. cbn [download_failure].
        rewrite app_nil_r, Eh2. by rewrite Ecb.
  - rewrite select_Done_run. exists evs1. eexists.
    rewrite Eh1. split; [reflexivity|]. cbn [history push].
    rewrite Eh1, <- !app_assoc. cbn [app].
    split; [reflexivity|]. split; [done|]. split; [auto|].
    split; [|split; [|split]].
    + done.
    + done.
    + intros r w0 e0 w4 [=].
    + intros r w0 e0 w4 [=].
Qed.

(** The loop, followed for [turns] turns. *)
Lemma checker_loop_polls (turns : nat) (ctx : Context) (cb : Callback)
    (w : World) :
  ∃ g w' evs,
    checker_loop turns ctx cb w = (Returns g, w') ∧
    history w' = history w ++ evs ∧
    (UpdateDownloaded w = true → UpdateDownloaded w' = true) ∧
    match g with
    | Returned =>
        (∃ n, n < turns ∧ polls evs = replicate n false ++ [true]) ∧
        ∃ pre,
          evs = pre ++
                [EvCtxDone true;
                 EvLog LevelDebug "XXX stopping background update checker"]
    | Looping => polls evs = replicate turns false
    end.
Proof.
  revert w. induction turns as [|turns IH]; intros w.
  { exists Looping, w, []. rewrite app_nil_r. by repeat split. }
  destruct (checker_iteration_turn ctx cb w)
    as (body & w1 & E1 & Eh1 & Ep1 & Ef1 & _).
  cbn [checker_loop]. unfold mbind, M_bind. rewrite E1.
  destruct (ctx (history w ++ body)).
  - eexists Returned, w1, _. split; [reflexivity|]. split; [exact Eh1|].
    split; [exact Ef1|]. split.
    + exists 0. split; [lia|]. by rewrite polls_app, Ep1.
    + by exists body.
  - destruct (IH w1) as (g & w2 & evs & E2 & Eh2 & Ef2 & Hg).
    exists g, w2, (body ++ [EvCtxDone false; EvSleep (60 * 60 * Second)] ++ evs).
    split; [exact E2|]. split.
    { rewrite Eh2, Eh1, <- !app_assoc. reflexivity. }
    split; [auto|]. rewrite !polls_app, Ep1. cbn [polls omap list_omap app].
    destruct g.
    + destruct Hg as ((n & Hn & Hpolls) & pre & ->). split.
      * exists (S n). split; [lia|]. by rewrite Hpolls.
      * eexists (body ++ _ :: _ :: pre). by rewrite <- !app_assoc.
    + by rewrite Hg.
Qed.

(** C7.  Whatever the update server, the disk and the callback answer:
    - a turn of the loop always comes to its [select], which is its last
      step: it polls [ctx.Done ()] once, without blocking, after the check,
      the download and the callback are over, and the turn ends the
      goroutine exactly when that poll finds the context done; a failed
      check, a failed download and a failed callback each leave their line
      in the log on the way;
    - the goroutine returns only right after a poll that found the context
      done, and as long as the polls find it open it is still looping,
      however many turns it is followed for. *)
Theorem checker_runs_until_cancelled (ctx : Context) (cb : Callback) :
  (∀ w, ∃ body w',
     checker_iteration ctx cb w = (Returns (ctx (history w ++ body)), w') ∧
     history w' =
       history w ++ body ++
       [EvCtxDone (ctx (history w ++ body));
        if ctx (history w ++ body)
        then EvLog LevelDebug "XXX stopping background update checker"
        else EvSleep (60 * 60 * Second)] ∧
     polls body = [] ∧
     (∀ err, update_check w = inl err →
        (LevelDebug, "XXX error checking for update: " +:+ Error err)
          ∈ logs body) ∧
     (∀ resp e r,
        update_check w = inr resp → StatusCode resp ≠ 204%Z →
        json_Unmarshal (Body resp).1 zero_UpdateResponse = (Some e, r) →
        (LevelWarn, "malformed response checking for update: " +:+ Error e)
          ∈ logs body) ∧
     (∀ r w1 e w2,
        IsNewReleaseAvailable w = (Returns (true, r), w1) →
        DownloadNewRelease r w1 = (Returns (Some e), w2) →
        (LevelError, "failed to download new release: " +:+ Error e)
          ∈ logs body) ∧
     (∀ r w1 err w2,
        IsNewReleaseAvailable w = (Returns (true, r), w1) →
        DownloadNewRelease r w1 = (Returns err, w2) →
        cb (history w2 ++ download_failure err) "TODO version" ≠ None →
        (LevelDebug, "XXX failed to register update available with tray")
          ∈ logs body)) ∧
  (∀ turns w, ∃ g w' evs,
     StartBackgroundUpdaterChecker turns ctx cb w = (Returns g, w') ∧
     history w' = history w ++ evs ∧
     match g with
     | Returned =>
         (∃ n, n < turns ∧ polls evs = replicate n false ++ [true]) ∧
         ∃ pre,
           evs = pre ++
                 [EvCtxDone true;
                  EvLog LevelDebug "XXX stopping background update checker"]
     | Looping => polls evs = replicate turns false
     end).
Proof.
  split.
  - intros w.
    destruct (checker_iteration_turn ctx cb w)
      as (body & w' & E & Eh & Ep & _ & Hcheck & Hmalformed & Hdownload & Hnotify).
    by exists body, w'.
  - intros turns w. unfold StartBackgroundUpdaterChecker. step.
    destruct (checker_loop_polls turns ctx cb
                (push (EvSleep (5 * Second)) w))
      as (g & w' & evs & E & Eh & _ & Hg).
    exists g, w', (EvSleep (5 * Second) :: evs).
    split; [exact E|]. split.
    { rewrite Eh. cbn [history push]. by rewrite <- app_assoc. }
    destruct g; [|exact Hg].
    destruct Hg as (Hn & pre & ->). split; [exact Hn|].
    by exists (EvSleep (5 * Second) :: pre).
Qed.

End checker_facts.

Section UpdateDownloaded_facts.
Context {env : Env} {plat : Platform}.

Lemma after_keeps_flag (c : Call) (w : World) :
  UpdateDownloaded w = true → UpdateDownloaded (after c w) = true.
Proof.
  intros Hflag. destruct c as [|r|turns ctx cb| |t hWnd message wParam lParam];
    cbn [after].
  - destruct (tame_IsNewReleaseAvailable w) as (? & ? & ? & -> & _ & _ & Hf).
    auto.
  - destruct (tame_DownloadNewRelease r w) as (? & ? & ? & -> & _ & _ & Hf).
    auto.
  - unfold StartBackgroundUpdaterChecker. step.
    destruct (checker_loop_polls turns ctx cb (push (EvSleep (5 * Second)) w))
      as (? & ? & ? & -> & _ & Hf & _).
    auto.
  - rewrite DoUpgrade_unfold. cbv zeta.
    repeat (case_match; try done).
  - destruct (tame_wndProc t hWnd message wParam lParam w)
      as (? & ? & ? & -> & _ & _ & Hf).
    auto.
Qed.

(** C4.  [UpdateDownloaded] is false when the process starts; it is true
    after a call of [DownloadNewRelease] that returned nil; and once it is
    true it is true after any sequence of calls of the functions of the
    two files. *)
Theorem UpdateDownloaded_only_goes_up (fs : gmap string node)
    (rcv : Chan → nat) (r : UpdateResponse) (w w' : World)
    (calls : list Call) (v : World) :
  UpdateDownloaded (process_start fs rcv) = false ∧
  (DownloadNewRelease r w = (Returns None, w') → UpdateDownloaded w' = true) ∧
  (UpdateDownloaded v = true → UpdateDownloaded (after_all calls v) = true).
Proof.
  split; [reflexivity|]. split.
  - intros Hnil. by destruct (DownloadNewRelease_nil _ _ _ Hnil).
  - revert v. induction calls as [|c calls IH]; intros v Hv; [done|].
    cbn [after_all foldl]. apply IH. by apply after_keeps_flag.
Qed.

End UpdateDownloaded_facts.

Section wndProc_claims.
Context {env : Env} {plat : Platform}.

Lemma notify_run (c : Chan) (w : World) :
  notify c w =
    match receivers w c with
    | S n =>
        (Returns (),
         set_receivers (<[c := n]> (receivers w)) (push (EvSend c) w))
    | O =>
        (Returns (),
         push (EvLog LevelError ("no listener on " +:+ Chan_name c)) w)
    end.
Proof. unfold notify, try_send. step. by destruct (receivers w c). Qed.

(** C8.  With four different menu identifiers, a WM_COMMAND message whose
    identifier is that of a channel sends exactly one signal, on that
    channel, to a goroutine that is receiving from it, and when none is
    receiving it sends nothing and logs one line; an identifier that is none
    of the four sends nothing and logs one line.  The handler returns 0 in
    every case. *)
Theorem wndProc_menu_command (t : winTray) (hWnd wParam lParam : Z)
    (w : World) :
  NoDup [QuitMenuID; UpdateMenuID; LogsMenuID; GetStartedMenuID] →
  ∃ w',
    wndProc t hWnd WM_COMMAND wParam lParam w = (Returns 0%Z, w') ∧
    (∀ c, int32 wParam = MenuID c →
       match receivers w c with
       | S n =>
           history w' = history w ++ [EvSend c] ∧
           receivers w' = <[c := n]> (receivers w)
       | O =>
           history w' =
             history w ++
             [EvLog LevelError ("no listener on " +:+ Chan_name c)] ∧
           receivers w' = receivers w
       end) ∧
    ((∀ c, int32 wParam ≠ MenuID c) →
     history w' =
       history w ++
       [EvLog LevelDebug
          ("Unexpected menu item id: " +:+ pretty (int32 wParam))] ∧
     receivers w' = receivers w).
Proof.
  intros Hdistinct.
  apply NoDup_cons in Hdistinct as [Hq Hdistinct].
  apply NoDup_cons in Hdistinct as [Hu Hdistinct].
  apply NoDup_cons in Hdistinct as [Hl _].
  rewrite !elem_of_cons, elem_of_nil in *.
  unfold wndProc. rewrite Z.eqb_refl.
  set (id := int32 wParam). unfold mbind, M_bind.
  assert (∀ c, id = MenuID c →
    (if (id =? QuitMenuID)%Z then notify Quit
     else if (id =? UpdateMenuID)%Z then notify Update
     else if (id =? LogsMenuID)%Z then notify ShowLogs
     else if (id =? GetStartedMenuID)%Z then notify DoFirstUse
     else slog_Debug ("Unexpected menu item id: " +:+ pretty id)) = notify c)
    as Hcase.
  { intros c ->.
    destruct c; cbn [MenuID]; rewrite ?Z.eqb_refl;
      repeat match goal with
        | |- context [(?a =? ?b)%Z] =>
            destruct (Z.eqb_spec a b) as [Heq|_];
            [exfalso; intuition congruence|]
        end; reflexivity. }
  assert ((∃ c, id = MenuID c) ∨ (∀ c, id ≠ MenuID c)) as [[c Hc]|Hno].
  { destruct (decide (id = MenuID Quit)); [eauto|].
    destruct (decide (id = MenuID Update)); [eauto|].
    destruct (decide (id = MenuID ShowLogs)); [eauto|].
    destruct (decide (id = MenuID DoFirstUse)); [eauto|].
    right. by intros []. }
  - rewrite (Hcase c Hc), notify_run.
    destruct (receivers w c) as [|n] eqn:Hrcv.
    + eexists. split; [reflexivity|]. split.
      * intros c' Hc'. assert (c' = c) as ->.
        { rewrite Hc in Hc'. destruct c, c'; cbn [MenuID] in Hc';
            try reflexivity; exfalso; intuition congruence. }
        by rewrite Hrcv.
      * intros Hno. by destruct (Hno c).
    + eexists. split; [reflexivity|]. split.
      * intros c' Hc'. assert (c' = c) as ->.
        { rewrite Hc in Hc'. destruct c, c'; cbn [MenuID] in Hc';
            try reflexivity; exfalso; intuition congruence. }
        by rewrite Hrcv.
      * intros Hno. by destruct (Hno c).
  - destruct (Z.eqb_spec id QuitMenuID) as [E|_]; [by destruct (Hno Quit)|].
    destruct (Z.eqb_spec id UpdateMenuID) as [E|_]; [by destruct (Hno Update)|].
    destruct (Z.eqb_spec id LogsMenuID) as [E|_]; [by destruct (Hno ShowLogs)|].
    destruct (Z.eqb_spec id GetStartedMenuID) as [E|_];
      [by destruct (Hno DoFirstUse)|].
    step. eexists. split; [reflexivity|]. split; [|done].
    intros c Hc. by destruct (Hno c).
Qed.


Lemma endsession_run (t : winTray) (w : World) :
  ∃ w',
    endsession t w = (Returns (), w') ∧
    history w' =
      history w ++ [EvLock] ++ deletion t (history w ++ [EvLock]) ++ [EvUnlock].
Proof.
  unfold endsession, deletion. step.
  destruct (nid t); step; [destruct (on_nid_delete _); step|];
    eexists; (split; [reflexivity|]); cbn [history push];
    by rewrite <- !app_assoc.
Qed.

(** C9, as the code has it.  On WM_DESTROY and on WM_ENDSESSION the
    handler takes the icon mutex, deletes the notification-icon descriptor
    if the tray has one, and gives the mutex back; on WM_DESTROY it then
    posts the quit message, on WM_ENDSESSION it never does. *)
Theorem wndProc_destroy_endsession (t : winTray) (hWnd wParam lParam : Z)
    (w : World) :
  ∃ w_destroy w_end,
    wndProc t hWnd WM_DESTROY wParam lParam w = (Returns 0%Z, w_destroy) ∧
    history w_destroy =
      history w ++ [EvLock] ++ deletion t (history w ++ [EvLock]) ++
      [EvUnlock; EvPostQuitMessage 0] ∧
    wndProc t hWnd WM_ENDSESSION wParam lParam w = (Returns 0%Z, w_end) ∧
    history w_end =
      history w ++ [EvLock] ++ deletion t (history w ++ [EvLock]) ++
      [EvUnlock].
Proof.
  destruct (endsession_run t w) as (w1 & E & Eh).
  exists (push (EvPostQuitMessage 0) w1), w1.
  unfold wndProc.
  change (WM_DESTROY =? WM_COMMAND)%Z with false.
  change (WM_DESTROY =? WM_CLOSE)%Z with false.
  change (WM_DESTROY =? WM_DESTROY)%Z with true.
  change (WM_ENDSESSION =? WM_COMMAND)%Z with false.
  change (WM_ENDSESSION =? WM_CLOSE)%Z with false.
  change (WM_ENDSESSION =? WM_DESTROY)%Z with false.
  change (WM_ENDSESSION =? WM_ENDSESSION)%Z with true.
  cbv beta iota. unfold defer, mbind, M_bind, mret, M_ret. rewrite E.
  unfold pPostQuitMessage_Call, emit. change (int32 0) with 0%Z.
  split; [reflexivity|]. split.
  { cbn [history push]. rewrite Eh, <- !app_assoc. reflexivity. }
  split; [reflexivity | exact Eh].
Qed.

End wndProc_claims.

(* ===================================================================== *)
(** ** The scanner and its fuel *)
(* ===================================================================== *)

Section Scan_fuel.
Import Scan.
Local Open Scope nat_scope.

Lemma skip_ws_length (s : list ascii) : length (skip_ws s) ≤ length s.
Proof.
  induction s as [|c s IH]; cbn [skip_ws]; [done|].
  destruct (is_ws c); cbn [length]; lia.
Qed.

Lemma skip_digits_length (s : list ascii) : length (skip_digits s) ≤ length s.
Proof.
  induction s as [|c s IH]; cbn [skip_digits]; [done|].
  destruct (is_digit c); cbn [length]; lia.
Qed.

Lemma skip_digits1_length (s r : list ascii) :
  skip_digits1 s = Some r → length r < length s.
Proof.
  destruct s as [|c s]; [done|]. cbn [skip_digits1].
  destruct (is_digit c); [|done]. intros [= <-].
  pose proof (skip_digits_length s). cbn [length]. lia.
Qed.

Lemma strip_length (lit : string) (s r : list ascii) :
  strip lit s = Some r → lit ≠ EmptyString → length r < length s.
Proof.
  unfold strip. case_decide as Htake; [|done]. intros [= <-] Hlit.
  rewrite length_drop.
  assert (length (list_ascii_of_string lit) ≠ 0).
  { destruct lit; [done|]. cbn. lia. }
  assert (length (take (length (list_ascii_of_string lit)) s)
          = length (list_ascii_of_string lit)) as Hlen by (by rewrite Htake).
  rewrite length_take in Hlen. lia.
Qed.

Lemma number_rest_length (s r : list ascii) :
  number_rest s = Some r → length r < length s.
Proof.
  unfold number_rest. intros Hscan.
  repeat first
    [ discriminate
    | match type of Hscan with
      | context [skip_digits1 ?t] =>
          let Hd := fresh "Hd" in
          destruct (skip_digits1 t) eqn:Hd;
          [apply skip_digits1_length in Hd|]
      | context [match ?x with _ => _ end] =>
          lazymatch x with
          | context [match _ with _ => _ end] => fail
          | _ => destruct x eqn:?
          end
      | _ => progress cbn [mbind option_bind] in Hscan
      end ].
  all: injection Hscan as <-; cbn [length] in *; lia.
Qed.

Lemma scan_number_length (s lit r : list ascii) :
  scan_number s = Some (lit, r) → length r < length s.
Proof.
  unfold scan_number. destruct (number_rest s) as [r'|] eqn:Hrest; [|done].
  intros [= <- <-]. by apply number_rest_length.
Qed.

Lemma scan_string_length (s str r : list ascii) :
  scan_string s = Some (str, r) → length r < length s.
Proof.
  remember (length s) as n eqn:Hn. revert s str r Hn.
  induction n as [n IH] using lt_wf_ind. intros s str r -> Hscan.
  assert (∀ s' str' r', length s' < length s →
            scan_string s' = Some (str', r') → length r' < length s') as IH'.
  { intros s' str' r' Hlt. by apply (IH (length s') Hlt). }
  clear IH. destruct s as [|c s]; [done|]. cbn [scan_string] in Hscan.
  repeat first
    [ discriminate
    | match type of Hscan with
      | context [scan_string ?t ≫= _] =>
          let Hrec := fresh "Hrec" in
          destruct (scan_string t) as [[? ?]|] eqn:Hrec;
          cbn [mbind option_bind] in Hscan;
          [apply IH' in Hrec; [|cbn [length]; lia]|]
      | context [match ?x with _ => _ end] =>
          lazymatch x with
          | context [match _ with _ => _ end] => fail
          | _ => destruct x eqn:?
          end
      end ].
  all: injection Hscan as <- <-; cbn [length] in *; lia.
Qed.

Lemma skip_ws_cons (s r : list ascii) (c : ascii) :
  skip_ws s = c :: r → length r < length s.
Proof.
  intros Hs. pose proof (skip_ws_length s) as Hlen. rewrite Hs in Hlen.
  cbn [length] in Hlen. lia.
Qed.

(** Splits the hypothesis [H] along the questions the scanner asks. *)
Ltac scan_cases H :=
  repeat first
    [ discriminate
    | match type of H with
      | context [match ?x with _ => _ end] =>
          lazymatch x with
          | context [match _ with _ => _ end] => fail
          | _ => destruct x eqn:?
          end
      | _ => progress unfold mbind, option_bind in H
      end ].

(** The facts about lengths that the equations in the context give. *)
Ltac lengths :=
  repeat match goal with
    | Hs : skip_ws _ = _ :: _ |- _ => apply skip_ws_cons in Hs
    | Hs : scan_string _ = Some _ |- _ => apply scan_string_length in Hs
    | Hs : scan_number _ = Some _ |- _ => apply scan_number_length in Hs
    | Hs : strip _ _ = Some _ |- _ => apply strip_length in Hs; [|done]
    end;
  cbn [length] in *.

Lemma parse_consumes (f : nat) :
  (∀ d s v r, parse_value f d s = Some (v, r) → length r < length s) ∧
  (∀ d s vs r, parse_elems f d s = Some (vs, r) → length r < length s) ∧
  (∀ d s ms r, parse_members f d s = Some (ms, r) → length r < length s).
Proof.
  induction f as [|f (IHv & IHe & IHm)]; [by repeat split|].
  split; [|split]; intros d s x r Hparse.
  - cbn [parse_value] in Hparse. scan_cases Hparse.
    all: injection Hparse as <- <-.
    all: repeat match goal with
           | Hr : parse_elems _ _ _ = Some _ |- _ => apply IHe in Hr
           | Hr : parse_members _ _ _ = Some _ |- _ => apply IHm in Hr
           end.
    all: lengths; lia.
  - cbn [parse_elems] in Hparse. scan_cases Hparse.
    all: injection Hparse as <- <-.
    all: repeat match goal with
           | Hr : parse_value _ _ _ = Some _ |- _ => apply IHv in Hr
           | Hr : parse_elems _ _ _ = Some _ |- _ => apply IHe in Hr
           end.
    all: lengths; lia.
  - cbn [parse_members] in Hparse. scan_cases Hparse.
    all: injection Hparse as <- <-.
    all: repeat match goal with
           | Hr : parse_value _ _ _ = Some _ |- _ => apply IHv in Hr
           | Hr : parse_members _ _ _ = Some _ |- _ => apply IHm in Hr
           end.
    all: lengths; lia.
Qed.

(** Closes a goal about lengths from the equations of a parse. *)
Ltac measure :=
  repeat match goal with
    | Hr : parse_value _ _ _ = Some _ |- _ =>
        apply (proj1 (parse_consumes _)) in Hr
    | Hr : parse_elems _ _ _ = Some _ |- _ =>
        apply (proj1 (proj2 (parse_consumes _))) in Hr
    | Hr : parse_members _ _ _ = Some _ |- _ =>
        apply (proj2 (proj2 (parse_consumes _))) in Hr
    end;
  lengths; lia.

(** A parse that succeeds with some fuel succeeds, with the same result,
    with any fuel above twice the number of bytes it consumed. *)
Lemma parse_fuel (f : nat) :
  (∀ d s v r, parse_value f d s = Some (v, r) →
     ∀ g, 2 * (length s - length r) ≤ g + 1 →
          parse_value g d s = Some (v, r)) ∧
  (∀ d s vs r, parse_elems f d s = Some (vs, r) →
     ∀ g, 2 * (length s - length r) ≤ g + 2 →
          parse_elems g d s = Some (vs, r)) ∧
  (∀ d s ms r, parse_members f d s = Some (ms, r) →
     ∀ g, 2 * (length s - length r) ≤ g + 2 →
          parse_members g d s = Some (ms, r)).
Proof.
  induction f as [|f (IHv & IHe & IHm)]; [by repeat split|].
  split; [|split]; intros d s x r Hparse g Hg.
  - assert (length r < length s) by measure.
    destruct g as [|g]; [lia|].
    cbn [parse_value] in Hparse |- *. scan_cases Hparse.
    all: injection Hparse as <- <-; try reflexivity.
    all: first [ erewrite IHm; [reflexivity|eassumption|measure]
               | erewrite IHe; [reflexivity|eassumption|measure] ].
  - cbn [parse_elems] in Hparse. scan_cases Hparse.
    all: injection Hparse as <- <-.
    all: (destruct g as [|g]; [measure|]); cbn [parse_elems].
    all: erewrite IHv; [|eassumption|measure].
    all: unfold mbind, option_bind; cbv beta iota.
    all: repeat match goal with
           | Hs : skip_ws ?t = _ |- context [skip_ws ?t] => rewrite Hs
           | Hb : ?b = _ |- context [if ?b then _ else _] => rewrite Hb
           end; try reflexivity.
    all: erewrite IHe; [reflexivity|eassumption|measure].
  - cbn [parse_members] in Hparse. scan_cases Hparse.
    all: injection Hparse as <- <-.
    all: (destruct g as [|g]; [measure|]); cbn [parse_members].
    all: repeat match goal with
           | Hs : skip_ws ?t = _ |- context [skip_ws ?t] => rewrite Hs
           | Hs : scan_string ?t = _ |- context [scan_string ?t] => rewrite Hs
           | Hb : ?b = _ |- context [if ?b then _ else _] => rewrite Hb
           end.
    all: unfold mbind, option_bind; cbv beta iota.
    all: repeat match goal with
           | Hs : skip_ws ?t = _ |- context [skip_ws ?t] => rewrite Hs
           | Hb : ?b = _ |- context [if ?b then _ else _] => rewrite Hb
           end.
    all: erewrite IHv; [|eassumption|measure].
    all: repeat match goal with
           | Hs : skip_ws ?t = _ |- context [skip_ws ?t] => rewrite Hs
           | Hb : ?b = _ |- context [if ?b then _ else _] => rewrite Hb
           end; try reflexivity.
    all: erewrite IHm; [reflexivity|eassumption|measure].
Qed.

(** [json_parse] does not depend on the fuel it gives the scanner: a text
    that the scanner takes with any fuel at all is taken by [json_parse],
    with the same value. *)
Lemma json_parse_fuel (data : string) (f : nat) (v : json) (r : list ascii) :
  parse_value f 0 (list_ascii_of_string data) = Some (v, r) →
  skip_ws r = [] →
  json_parse data = Some v.
Proof.
  intros Hparse Hrest. unfold json_parse.
  erewrite (proj1 (parse_fuel f)); [|exact Hparse|lia]. by rewrite Hrest.
Qed.

End Scan_fuel.

(** What the decoder makes of some bodies. *)
Example json_Unmarshal_release :
  json_Unmarshal release_body zero_UpdateResponse = (None, release).
Proof. vm_compute. reflexivity. Qed.

Example json_Unmarshal_empty_object :
  json_Unmarshal "{}" zero_UpdateResponse = (None, zero_UpdateResponse).
Proof. vm_compute. reflexivity. Qed.

Example json_Unmarshal_null :
  json_Unmarshal "null" zero_UpdateResponse = (None, zero_UpdateResponse).
Proof. vm_compute. reflexivity. Qed.

Example json_Unmarshal_key_case :
  json_Unmarshal ("{" +:+ quoted "URL" +:+ ":" +:+ quoted "a" +:+ ","
                  +:+ quoted "Version" +:+ ":null," +:+ quoted "other"
                  +:+ ":[1,{}]}")
                 zero_UpdateResponse
  = (None, {| UpdateURL := "a"; UpdateVersion := EmptyString |}).
Proof. vm_compute. reflexivity. Qed.

Example json_Unmarshal_array :
  (json_Unmarshal "[]" zero_UpdateResponse).1
  = Some (errors_New
            "json: cannot unmarshal array into Go value of type lifecycle.UpdateResponse").
Proof. vm_compute. reflexivity. Qed.

Example json_Unmarshal_truncated :
  json_Unmarshal ("{" +:+ quoted "url" +:+ ":") release
  = (Some (errors_New "json: syntax error"), release).
Proof. vm_compute. reflexivity. Qed.

(* ===================================================================== *)
(** ** The claims on the example worlds *)
(* ===================================================================== *)

(** C5 at the start of the process on an empty disk. *)
Lemma DoUpgrade_installer_missing_witness :
  files cold_start !! installerExe = None ∧
  ∃ err w',
    DoUpgrade (env := env_release) cold_start = (Returns (Some err), w') ∧
    contains installerExe (Error err) = true ∧
    spawns (history w') = spawns (history cold_start) ∧
    exits (history w') = exits (history cold_start).
Proof.
  split; [vm_compute; reflexivity|].
  apply (DoUpgrade_installer_missing (env := env_release) cold_start).
  vm_compute. reflexivity.
Defined.

(** C6 with the installer staged: once where it starts, once where it
    cannot be started. *)
Lemma DoUpgrade_handoff_witness :
  errors_Is_ErrNotExist (Stat_error (files staged) installerExe) = false ∧
  (∃ w' lines,
     DoUpgrade (env := env_release) staged = (Exits 0, w') ∧
     history w' =
       history staged ++
       [EvStat installerExe;
        EvLog LevelDebug ("XXX attempting to start installer " +:+ installerExe);
        EvStart installerExe installArgs;
        EvRelease 7] ++
       map (λ l, EvLog l.1 l.2) lines ++ [EvExit 0]) ∧
  (∃ err w',
     DoUpgrade (env := env_no_spawn) staged = (Returns (Some err), w') ∧
     exits (history w') = exits (history staged)).
Proof.
  split; [vm_compute; reflexivity|]. split.
  - apply (DoUpgrade_handoff (env := env_release) staged).
    vm_compute. reflexivity.
  - apply (DoUpgrade_handoff (env := env_no_spawn) staged).
    vm_compute. reflexivity.
Defined.

(** C10 with an installer that cannot be looked at. *)
Lemma DoUpgrade_other_stat_error_witness :
  Stat_error (files locked_out) installerExe
    = Some (PathError "stat" installerExe (errors_New "Access is denied.")) ∧
  is_ErrNotExist
    (PathError "stat" installerExe (errors_New "Access is denied.")) = false ∧
  ∃ result w',
    DoUpgrade (env := env_release) locked_out = (result, w') ∧
    spawns (history w') =
      spawns (history locked_out) ++ [(installerExe, installArgs)].
Proof.
  split; [vm_compute; reflexivity|]. split; [reflexivity|].
  apply (DoUpgrade_other_stat_error (env := env_release) locked_out
           (PathError "stat" installerExe (errors_New "Access is denied."))).
  - vm_compute. reflexivity.
  - reflexivity.
Defined.



(** C2 on the announcement of a release. *)
Lemma IsNewReleaseAvailable_decoded_witness :
  update_check (env := env_release) cold_start = ok 200 release_body ∧
  200%Z ≠ 204%Z ∧
  ∃ w', IsNewReleaseAvailable (env := env_release) cold_start
        = (Returns (true, release), w').
Proof.
  split; [vm_compute; reflexivity|]. split; [lia|].
  apply (IsNewReleaseAvailable_decoded (env := env_release) cold_start
           {| StatusCode := 200; Body := (release_body, None) |}).
  - vm_compute. reflexivity.
  - cbn. lia.
Defined.

(** C2 as it is stated fails on each of the shapes it names: status 200
    with the body [{}], status 200 with the body [null], and status 500
    with a JSON body all come back as an update, with an empty URL. *)
Lemma IsNewReleaseAvailable_takes_other_shapes :
  (update_check (env := env_empty_object) cold_start = ok 200 "{}" ∧
   (IsNewReleaseAvailable (env := env_empty_object) cold_start).1
     = Returns (true, zero_UpdateResponse)) ∧
  (update_check (env := env_null) cold_start = ok 200 "null" ∧
   (IsNewReleaseAvailable (env := env_null) cold_start).1
     = Returns (true, zero_UpdateResponse)) ∧
  (update_check (env := env_error_status) cold_start = ok 500 "{}" ∧
   (IsNewReleaseAvailable (env := env_error_status) cold_start).1
     = Returns (true, zero_UpdateResponse)).
Proof. repeat split; vm_compute; reflexivity. Qed.

(** C3 with the release in the staging directory. *)
Lemma DownloadNewRelease_already_staged_witness :
  url_Parse (UpdateURL release) = inr "/v2/installer.exe" ∧
  errors_Is_ErrNotExist (Stat_error (files already_staged) UpdateStageDir)
    = false ∧
  Stat_error (files already_staged) (escapedFilename "/v2/installer.exe")
    = None ∧
  ∃ w',
    DownloadNewRelease (env := env_offline) release already_staged
      = (Returns None, w') ∧
    gets (history w') = gets (history already_staged) ∧
    files w' = files already_staged.
Proof.
  split; [vm_compute; reflexivity|]. split; [vm_compute; reflexivity|].
  split; [vm_compute; reflexivity|].
  apply (DownloadNewRelease_already_staged (env := env_offline)
           already_staged release "/v2/installer.exe");
    vm_compute; reflexivity.
Defined.

(** The scenario of the specification: the announced release is fetched
    into the staging directory under its escaped name, with the whole
    body, and a second call finds it there. *)
Example DownloadNewRelease_scenario :
  (DownloadNewRelease (env := env_release) release cold_start).1 = Returns None ∧
  files (DownloadNewRelease (env := env_release) release cold_start).2
    !! "C:\Temp\ollama\%2Fv2%2Finstaller.exe" = Some (File "MZ") ∧
  UpdateDownloaded (DownloadNewRelease (env := env_release) release cold_start).2
    = true ∧
  gets (history (DownloadNewRelease (env := env_release) release cold_start).2)
    = [release_url].
Proof. repeat split; vm_compute; reflexivity. Qed.

Lemma pair_of_fst {A B : Type} (x : A * B) (a : A) : x.1 = a → x = (a, x.2).
Proof. destruct x. cbn. congruence. Qed.

(** C4 on a run: the flag is down at the start, up after the download,
    and still up after a check, a tray message and the upgrade. *)
Lemma UpdateDownloaded_only_goes_up_witness :
  UpdateDownloaded cold_start = false ∧
  (DownloadNewRelease (env := env_release) release cold_start).1
    = Returns None ∧
  UpdateDownloaded
    (DownloadNewRelease (env := env_release) release cold_start).2 = true ∧
  UpdateDownloaded
    (after_all (env := env_release)
       [CallIsNewReleaseAvailable;
        CallWndProc (tray None) 0 WM_DESTROY 0 0;
        CallChecker 2 never_cancelled failing_callback;
        CallDoUpgrade]
       (DownloadNewRelease (env := env_release) release cold_start).2) = true.
Proof.
  pose proof (UpdateDownloaded_only_goes_up (env := env_release)
                ∅ no_receivers release cold_start
                (DownloadNewRelease (env := env_release) release cold_start).2
                [CallIsNewReleaseAvailable;
                 CallWndProc (tray None) 0 WM_DESTROY 0 0;
                 CallChecker 2 never_cancelled failing_callback;
                 CallDoUpgrade]
                (DownloadNewRelease (env := env_release) release cold_start).2)
    as (Hstart & Hdownload & Hafter).
  assert ((DownloadNewRelease (env := env_release) release cold_start).1
          = Returns None) as Hnil by (vm_compute; reflexivity).
  assert (UpdateDownloaded
            (DownloadNewRelease (env := env_release) release cold_start).2
          = true) as Hup.
  { apply Hdownload, pair_of_fst, Hnil. }
  split; [exact Hstart|]. split; [exact Hnil|]. split; [exact Hup|].
  apply Hafter, Hup.
Defined.

(** C7 on a server that drops every download, with a callback that always
    fails and a context cancelled after two polls: a turn logs both
    failures and goes on, and the goroutine returns at the third poll. *)
Lemma checker_runs_until_cancelled_witness :
  (∃ body w',
     checker_iteration (env := env_flaky) (cancelled_after 2) failing_callback
       cold_start = (Returns false, w') ∧
     history w' = body ++ [EvCtxDone false; EvSleep (60 * 60 * Second)] ∧
     (LevelError,
      "failed to download new release: error downloading update: connection reset by peer")
       ∈ logs body ∧
     (LevelDebug, "XXX failed to register update available with tray")
       ∈ logs body) ∧
  (∃ w' evs,
     StartBackgroundUpdaterChecker (env := env_flaky) 5 (cancelled_after 2)
       failing_callback cold_start = (Returns Returned, w') ∧
     history w' = evs ∧
     polls evs = [false; false; true]).
Proof.
  destruct (checker_runs_until_cancelled (env := env_flaky)
              (cancelled_after 2) failing_callback) as [Hturn Hloop].
  split.
  - destruct (Hturn cold_start)
      as (body & w' & Hrun & Hhist & _ & _ & _ & Hdownload & Hnotify).
    assert (cancelled_after 2 (history cold_start ++ body) = false) as Hopen.
    { assert ((checker_iteration (env := env_flaky) (cancelled_after 2)
                 failing_callback cold_start).1 = Returns false) as Hfalse
        by (vm_compute; reflexivity).
      rewrite Hrun in Hfalse. by injection Hfalse. }
    rewrite Hopen in Hrun, Hhist. exists body, w'.
    split; [exact Hrun|]. split; [exact Hhist|]. split.
    + apply (Hdownload release
               (IsNewReleaseAvailable (env := env_flaky) cold_start).2
               (Wrapped "error downloading update: "
                  (errors_New "connection reset by peer"))
               (DownloadNewRelease (env := env_flaky) release
                  (IsNewReleaseAvailable (env := env_flaky) cold_start).2).2).
      * apply pair_of_fst. vm_compute. reflexivity.
      * apply pair_of_fst. vm_compute. reflexivity.
    + apply (Hnotify release
               (IsNewReleaseAvailable (env := env_flaky) cold_start).2
               (Some (Wrapped "error downloading update: "
                        (errors_New "connection reset by peer")))
               (DownloadNewRelease (env := env_flaky) release
                  (IsNewReleaseAvailable (env := env_flaky) cold_start).2).2).
      * apply pair_of_fst. vm_compute. reflexivity.
      * apply pair_of_fst. vm_compute. reflexivity.
      * discriminate.
  - destruct (Hloop 5 cold_start) as (g & w' & evs & Hrun & Hhist & Hg).
    assert ((StartBackgroundUpdaterChecker (env := env_flaky) 5
               (cancelled_after 2) failing_callback cold_start).1
            = Returns Returned) as Hret by (vm_compute; reflexivity).
    assert (polls (history (StartBackgroundUpdaterChecker (env := env_flaky) 5
               (cancelled_after 2) failing_callback cold_start).2)
            = [false; false; true]) as Hpolls by (vm_compute; reflexivity).
    rewrite Hrun in Hret, Hpolls. injection Hret as ->.
    exists w', (history w'). split; [exact Hrun|]. split; [reflexivity|].
    exact Hpolls.
Defined.

(** C8 on the example tray: the Quit item with a goroutine receiving, the
    Update item with none, and an identifier that is no item. *)
Lemma wndProc_menu_command_witness :
  NoDup [QuitMenuID; UpdateMenuID; LogsMenuID; GetStartedMenuID] ∧
  (∃ w', wndProc (env := env_release) (tray None) 0 WM_COMMAND 1 0
           (listening Quit) = (Returns 0%Z, w') ∧
         history w' = [EvSend Quit] ∧ receivers w' Quit = 0) ∧
  (∃ w', wndProc (env := env_release) (tray None) 0 WM_COMMAND 2 0
           (listening Quit) = (Returns 0%Z, w') ∧
         history w' = [EvLog LevelError "no listener on Update"]) ∧
  (∃ w', wndProc (env := env_release) (tray None) 0 WM_COMMAND 9 0
           (listening Quit) = (Returns 0%Z, w') ∧
         history w' = [EvLog LevelDebug "Unexpected menu item id: 9"]).
Proof.
  assert (NoDup [QuitMenuID; UpdateMenuID; LogsMenuID; GetStartedMenuID])
    as Hdistinct.
  { apply (bool_decide_unpack _). vm_compute. exact I. }
  split; [exact Hdistinct|]. split; [|split].
  - destruct (wndProc_menu_command (env := env_release) (tray None) 0 1 0
                (listening Quit) Hdistinct) as (w' & Hrun & Hitem & _).
    exists w'. split; [exact Hrun|].
    destruct (Hitem Quit eq_refl) as [Hhist Hrcv].
    split; [exact Hhist|]. rewrite Hrcv. reflexivity.
  - destruct (wndProc_menu_command (env := env_release) (tray None) 0 2 0
                (listening Quit) Hdistinct) as (w' & Hrun & Hitem & _).
    exists w'. split; [exact Hrun|].
    destruct (Hitem Update eq_refl) as [Hhist _]. exact Hhist.
  - destruct (wndProc_menu_command (env := env_release) (tray None) 0 9 0
                (listening Quit) Hdistinct) as (w' & Hrun & _ & Hother).
    exists w'. split; [exact Hrun|].
    destruct Hother as [Hhist _]; [|exact Hhist].
    intros [] Hc; vm_compute in Hc; discriminate Hc.
Defined.

(** C9 as it is stated fails on a tray whose [nid] is nil: WM_DESTROY
    takes and gives back the mutex and posts the quit message, and no
    descriptor is deleted. *)
Lemma wndProc_destroy_without_icon :
  nid (tray None) = None ∧
  (wndProc (env := env_release) (tray None) 0 WM_DESTROY 0 0 cold_start).1
    = Returns 0%Z ∧
  history
    (wndProc (env := env_release) (tray None) 0 WM_DESTROY 0 0 cold_start).2
    = [EvLock; EvUnlock; EvPostQuitMessage 0] ∧
  EvNidDelete ∉
    history
      (wndProc (env := env_release) (tray None) 0 WM_DESTROY 0 0 cold_start).2.
Proof.
  split; [reflexivity|]. split; [vm_compute; reflexivity|].
  split; [vm_compute; reflexivity|].
  change (EvNidDelete ∉ [EvLock; EvUnlock; EvPostQuitMessage 0]).
  rewrite !not_elem_of_cons. repeat split; try discriminate.
  apply not_elem_of_nil.
Qed.

(** With a descriptor, both messages delete it under the mutex, and only
    WM_DESTROY posts the quit message. *)
Example icon_deleted_on_destroy_and_endsession :
  history
    (wndProc (env := env_release) (tray (Some NotifyIconData)) 0 WM_DESTROY 0 0
       cold_start).2
    = [EvLock; EvNidDelete; EvUnlock; EvPostQuitMessage 0] ∧
  history
    (wndProc (env := env_release) (tray (Some NotifyIconData)) 0 WM_ENDSESSION
       0 0 cold_start).2
    = [EvLock; EvNidDelete; EvUnlock].
Proof. split; vm_compute; reflexivity. Qed.

(* ===================================================================== *)
(** ** Where a call goes and what it writes *)
(* ===================================================================== *)

Lemma callbacks_app (h1 h2 : History) :
  callbacks (h1 ++ h2) = callbacks h1 ++ callbacks h2.
Proof. apply omap_app. Qed.

Lemma sleeps_app (h1 h2 : History) : sleeps (h1 ++ h2) = sleeps h1 ++ sleeps h2.
Proof. apply omap_app. Qed.

Lemma closes_app (h1 h2 : History) : closes (h1 ++ h2) = closes h1 + closes h2.
Proof. unfold closes. by rewrite omap_app, length_app. Qed.

Lemma confined_ret {A : Type} (ks : list Kind) (ps : list Part) (a : A) :
  confined ks ps (mret a).
Proof.
  intros w. exists a, w, []. rewrite app_nil_r. by repeat split.
Qed.

Lemma confined_bind {A B : Type} (ks : list Kind) (ps : list Part)
    (m : M A) (k : A → M B) :
  confined ks ps m → (∀ a, confined ks ps (k a)) → confined ks ps (m ≫= k).
Proof.
  intros Hm Hk w.
  destruct (Hm w) as (a & w1 & evs1 & Em & Eh1 & Ek1 & Eb1 & Ef1 & Ed1 & Er1).
  destruct (Hk a w1) as (b & w2 & evs2 & Ek & Eh2 & Ek2 & Eb2 & Ef2 & Ed2 & Er2).
  exists b, w2, (evs1 ++ evs2). unfold mbind, M_bind. rewrite Em, Ek.
  split; [done|]. split; [by rewrite Eh2, Eh1, app_assoc|].
  split; [by apply Forall_app|]. split; [congruence|].
  repeat split; intros Hp.
  - by rewrite Ef2, Ef1.
  - by rewrite Ed2, Ed1.
  - by rewrite Er2, Er1.
Qed.

Lemma confined_defer {A : Type} (ks : list Kind) (ps : list Part)
    (f : M unit) (body : M A) :
  confined ks ps f → confined ks ps body → confined ks ps (defer f body).
Proof.
  intros Hf Hb w.
  destruct (Hb w) as (a & w1 & evs1 & Em & Eh1 & Ek1 & Eb1 & Ef1 & Ed1 & Er1).
  destruct (Hf w1) as (b & w2 & evs2 & Ek & Eh2 & Ek2 & Eb2 & Ef2 & Ed2 & Er2).
  exists a, w2, (evs1 ++ evs2). unfold defer. rewrite Em, Ek.
  split; [done|]. split; [by rewrite Eh2, Eh1, app_assoc|].
  split; [by apply Forall_app|]. split; [congruence|].
  repeat split; intros Hp.
  - by rewrite Ef2, Ef1.
  - by rewrite Ed2, Ed1.
  - by rewrite Er2, Er1.
Qed.

Lemma confined_ask {A : Type} (ks : list Kind) (ps : list Part) (e : Event)
    (answer : History → A) :
  kind e ∈ ks → confined ks ps (ask e answer).
Proof.
  intros He w. eexists _, _, [e]. split; [reflexivity|].
  split; [reflexivity|]. split; [by repeat constructor|]. done.
Qed.

Lemma confined_emit (ks : list Kind) (ps : list Part) (e : Event) :
  kind e ∈ ks → confined ks ps (emit e).
Proof.
  intros He w. eexists _, _, [e]. split; [reflexivity|].
  split; [reflexivity|]. split; [by repeat constructor|]. done.
Qed.

Lemma confined_set_UpdateDownloaded (ks : list Kind) (ps : list Part) :
  Flag ∈ ps → confined ks ps (λ w, (Returns (), set_UpdateDownloaded true w)).
Proof.
  intros Hp w. eexists _, _, []. rewrite app_nil_r.
  split; [reflexivity|]. by repeat split.
Qed.

Lemma confined_try_send (ks : list Kind) (ps : list Part) (c : Chan) :
  Channel ∈ ks → Receivers ∈ ps → confined ks ps (try_send c).
Proof.
  intros Hk Hp w. unfold try_send. destruct (receivers w c).
  - eexists _, _, []. rewrite app_nil_r. split; [reflexivity|]. by repeat split.
  - eexists _, _, [EvSend c]. split; [reflexivity|]. split; [reflexivity|].
    split; [by repeat constructor|]. by repeat split.
Qed.

Section confined_calls.
Context {env : Env}.

Lemma confined_os_Stat (ks : list Kind) (ps : list Part) (path : string) :
  Disk ∈ ks → confined ks ps (os_Stat path).
Proof.
  intros Hk w. eexists _, _, [EvStat path]. split; [reflexivity|].
  split; [reflexivity|]. split; [by repeat constructor|]. done.
Qed.

Lemma confined_os_MkdirAll (ks : list Kind) (ps : list Part) (path : string)
    (perm : Z) :
  Disk ∈ ks → Files ∈ ps → confined ks ps (os_MkdirAll path perm).
Proof.
  intros Hk Hp w. unfold os_MkdirAll.
  destruct (on_MkdirAll _ _); [|destruct (files w !! path) as [[]|]];
    (eexists _, _, [_]; split; [reflexivity|]; split; [reflexivity|];
     split; [by repeat constructor|]; by repeat split).
Qed.

Lemma confined_os_OpenFile (ks : list Kind) (ps : list Part) (path : string)
    (perm : Z) :
  Disk ∈ ks → Files ∈ ps → confined ks ps (os_OpenFile path perm).
Proof.
  intros Hk Hp w. unfold os_OpenFile.
  destruct (on_OpenFile _ _); [|destruct (files w !! path) as [[]|]];
    (eexists _, _, [_]; split; [reflexivity|]; split; [reflexivity|];
     split; [by repeat constructor|]; by repeat split).
Qed.

Lemma confined_File_Write (ks : list Kind) (ps : list Part)
    (path payload : string) :
  Disk ∈ ks → Files ∈ ps → confined ks ps (File_Write path payload).
Proof.
  intros Hk Hp w. unfold File_Write. destruct (on_Write _ _ _).
  eexists _, _, [_]. split; [reflexivity|]. split; [reflexivity|].
  split; [by repeat constructor|]. by repeat split.
Qed.

End confined_calls.

(** Decomposes a call into its binds and branches; the kinds and the parts
    asked of each leaf are looked up in the lists. *)
Ltac confined :=
  repeat first
    [ apply confined_ret
    | apply confined_emit; cbn [kind]; set_solver
    | apply confined_ask; cbn [kind]; set_solver
    | apply confined_set_UpdateDownloaded; set_solver
    | apply confined_try_send; set_solver
    | apply confined_os_Stat; set_solver
    | apply confined_os_MkdirAll; set_solver
    | apply confined_os_OpenFile; set_solver
    | apply confined_File_Write; set_solver
    | apply confined_bind
    | apply confined_defer
    | progress intros
    | progress unfold slog_Debug, slog_Info, slog_Warn, slog_Error,
        store_GetID, http_Get, io_ReadAll, Body_Close, File_Close, cmd_Start,
        Process_Release, time_Sleep, muNID_Lock, muNID_Unlock, nid_delete,
        nid_add, showMenu, pDestroyWindow_Call, wcex_unregister,
        pPostQuitMessage_Call, pDefWindowProc_Call, notify
    | case_match ].

Lemma confined_absent {A : Type} (ks : list Kind) (evs : History)
    (f : Event → option A) (k : Kind) :
  Forall (λ e, kind e ∈ ks) evs →
  k ∉ ks →
  (∀ e, kind e ≠ k → f e = None) →
  omap f evs = [].
Proof.
  intros Hevs Hk Hf. induction Hevs as [|e evs He _ IH]; [done|].
  cbn. rewrite Hf; [exact IH|]. intros <-. done.
Qed.

Section confined_functions.
Context {env : Env} {plat : Platform}.

Lemma confined_GetUpdateCheckURL (ks : list Kind) (ps : list Part)
    (id : string) :
  confined ks ps (GetUpdateCheckURL id).
Proof.
  intros w. eexists _, _, []. rewrite app_nil_r. split; [reflexivity|].
  by repeat split.
Qed.

Lemma confined_IsNewReleaseAvailable :
  confined [Store; Logging; Network] [] IsNewReleaseAvailable.
Proof.
  unfold IsNewReleaseAvailable.
  apply confined_bind; [confined|]. intros id.
  apply confined_bind; [apply confined_GetUpdateCheckURL|]. confined.
Qed.

Lemma confined_DownloadNewRelease (r : UpdateResponse) :
  confined [Disk; Logging; Network] [Flag; Files] (DownloadNewRelease r).
Proof. unfold DownloadNewRelease. confined. Qed.


End confined_functions.

(* ===================================================================== *)
(** ** updater.go: the check, the checker and the download *)
(* ===================================================================== *)

Lemma world_eta (w w' : World) :
  UpdateCheckURLBase w' = UpdateCheckURLBase w →
  UpdateDownloaded w' = UpdateDownloaded w →
  files w' = files w →
  receivers w' = receivers w →
  w' = {| UpdateCheckURLBase := UpdateCheckURLBase w;
          UpdateDownloaded := UpdateDownloaded w;
          files := files w; receivers := receivers w;
          history := history w' |}.
Proof. destruct w, w'; cbn. by intros -> -> -> ->. Qed.

Section IsNewReleaseAvailable_extras.
Context {env : Env} {plat : Platform}.

(** The request of [IsNewReleaseAvailable] and the close of the body. *)
Lemma IsNewReleaseAvailable_events (w : World) :
  ∃ result w' evs,
    IsNewReleaseAvailable w = (Returns result, w') ∧
    history w' = history w ++ evs ∧
    gets evs =
      [UpdateCheckURLBase w +:+ "?os=" +:+ GOOS +:+ "&arch=" +:+ GOARCH +:+
       "&version=" +:+ Version +:+ "&id=" +:+ on_GetID (history w)] ∧
    closes evs = match update_check w with inl _ => 0 | inr _ => 1 end.
Proof.
  unfold IsNewReleaseAvailable, update_check, GetUpdateCheckURL. step.
  rewrite snoc2.
  destruct (on_Get _ _) as [err|resp].
  { eexists _, _, [_; _; _; _]. split; [reflexivity|]. tidy. by repeat split. }
  destruct (StatusCode resp =? 204)%Z.
  { eexists _, _, [_; _; _; _; _]. split; [reflexivity|]. tidy.
    by repeat split. }
  destruct (Body resp) as [body [e|]]; cbn [fst]; step;
    destruct (json_Unmarshal body zero_UpdateResponse) as [[e'|] r].
  - eexists _, _, [_; _; _; _; _; _]. split; [reflexivity|]. tidy.
    by repeat split.
  - eexists _, _, [_; _; _; _; _; _]. split; [reflexivity|]. tidy.
    by repeat split.
  - eexists _, _, [_; _; _; _; _]. split; [reflexivity|]. tidy.
    by repeat split.
  - eexists _, _, [_; _; _; _; _]. split; [reflexivity|]. tidy.
    by repeat split.
Qed.

(** X1.  [IsNewReleaseAvailable] always returns, and whatever the server
    answers it makes one request and no more (it does not retry): for the
    URL that [GetUpdateCheckURL] builds from the client id.  It closes the
    body of the response exactly when it got one, also on the ways out
    through 204 and through a malformed body.  It reads the store, logs
    and talks to the network, and touches nothing else: the files, the
    flag, the base URL and the tray are as before. *)
Theorem IsNewReleaseAvailable_one_request (w : World) :
  ∃ result w' evs,
    IsNewReleaseAvailable w = (Returns result, w') ∧
    w' = {| UpdateCheckURLBase := UpdateCheckURLBase w;
            UpdateDownloaded := UpdateDownloaded w;
            files := files w; receivers := receivers w;
            history := history w ++ evs |} ∧
    (GetUpdateCheckURL (on_GetID (history w)) w).1
      = Returns (hd EmptyString (gets evs)) ∧
    length (gets evs) = 1 ∧
    closes evs = match update_check w with inl _ => 0 | inr _ => 1 end ∧
    Forall (λ e, kind e ∈ [Store; Logging; Network]) evs.
Proof.
  destruct (IsNewReleaseAvailable_events w)
    as (result & w' & evs & E & Eh & Eg & Ec).
  destruct (confined_IsNewReleaseAvailable w)
    as (? & ? & evs' & E' & Eh' & Ek & Eb & Ef & Ed & Er).
  rewrite E in E'. injection E' as <- <-.
  rewrite Eh in Eh'. apply app_inv_head in Eh'. subst evs'.
  exists result, w', evs. split; [exact E|]. split.
  { rewrite <- Eh. apply world_eta; auto using not_elem_of_nil. }
  rewrite Eg. by repeat split.
Qed.

End IsNewReleaseAvailable_extras.

Section checker_extras.
Context {env : Env} {plat : Platform}.

(** What one turn of the checker adds before its [select]. *)
Lemma checker_iteration_body (ctx : Context) (cb : Callback) (w : World) :
  ∃ av r w1 body w',
    IsNewReleaseAvailable w = (Returns (av, r), w1) ∧
    checker_iteration ctx cb w = (Returns (ctx (history w ++ body)), w') ∧
    history w' =
      history w ++ body ++
      [EvCtxDone (ctx (history w ++ body));
       if ctx (history w ++ body)
       then EvLog LevelDebug "XXX stopping background update checker"
       else EvSleep (60 * 60 * Second)] ∧
    Forall (λ e, kind e ∈ [Store; Logging; Network; Disk; Caller]) body ∧
    polls body = [] ∧
    callbacks body = (if av then ["TODO version"] else []) ∧
    (1 ≤ length (gets body) ≤ 2)%nat ∧
    UpdateCheckURLBase w' = UpdateCheckURLBase w ∧
    receivers w' = receivers w ∧
    (av = false →
     files w' = files w ∧ UpdateDownloaded w' = UpdateDownloaded w ∧
     length (gets body) = 1%nat).
Proof.
  destruct (IsNewReleaseAvailable_events w)
    as ([av r] & w1 & evs1 & E1 & Eh1 & Eg1 & _).
  destruct (confined_IsNewReleaseAvailable w)
    as (? & ? & evs' & E' & Eh' & Ek1 & Eb1 & Ef1 & Ed1 & Er1).
  rewrite E1 in E'. injection E' as <- <-.
  rewrite Eh1 in Eh'. apply app_inv_head in Eh'. subst evs'.
  specialize (Ef1 (not_elem_of_nil _)). specialize (Ed1 (not_elem_of_nil _)).
  specialize (Er1 (not_elem_of_nil _)).
  assert (Forall (λ e, kind e ∈ [Store; Logging; Network; Disk; Caller]) evs1)
    as Ek1'.
  { eapply Forall_impl; [exact Ek1|]. intros e. set_solver. }
  assert (polls evs1 = []) as Ep1.
  { apply (confined_absent _ _ _ Caller Ek1); [set_solver|]. by intros []. }
  assert (callbacks evs1 = []) as Ec1.
  { apply (confined_absent _ _ _ Caller Ek1); [set_solver|]. by intros []. }
  exists av, r, w1. unfold checker_iteration. step. rewrite E1. step.
  destruct av.
  - destruct (confined_DownloadNewRelease r w1)
      as (err & w2 & evs2 & E2 & Eh2 & Ek2 & Eb2 & _ & _ & Er2).
    assert (Receivers ∉ [Flag; Files]) as Hr by set_solver.
    specialize (Er2 Hr).
    destruct (DownloadNewRelease_requests w1 r) as (? & ? & E2' & Hg2).
    rewrite E2 in E2'. injection E2' as <- <-.
    assert (length (gets evs2) ≤ 1)%nat as Hg2'.
    { rewrite Eh2, gets_app in Hg2. destruct Hg2 as [Hg2|[Hg2 _]].
      - rewrite <- (app_nil_r (gets (history w1))) in Hg2 at 2.
        apply app_inv_head in Hg2. rewrite Hg2. cbn. lia.
      - apply app_inv_head in Hg2. by rewrite Hg2. }
    assert (Forall (λ e, kind e ∈ [Store; Logging; Network; Disk; Caller]) evs2)
      as Ek2'.
    { eapply Forall_impl; [exact Ek2|]. intros e. set_solver. }
    assert (polls evs2 = []) as Ep2.
    { apply (confined_absent _ _ _ Caller Ek2); [set_solver|]. by intros []. }
    assert (callbacks evs2 = []) as Ec2.
    { apply (confined_absent _ _ _ Caller Ek2); [set_solver|]. by intros []. }
    rewrite E2. step.
    destruct err as [e|]; step;
      (destruct (cb _ "TODO version") as [e'|] eqn:Ecb; step;
       rewrite select_Done_run; cbn [history push];
       rewrite Eh2, Eh1 in *; rewrite <- !app_assoc in *; cbn [app] in * ).
    + exists (evs1 ++ evs2 ++
              [EvLog LevelError ("failed to download new release: " +:+ Error e);
               EvCallback "TODO version";
               EvLog LevelDebug
                 "XXX failed to register update available with tray"]).
      eexists. rewrite <- !app_assoc. cbn [app].
      split; [reflexivity|]. split; [reflexivity|]. cbn [history push].
      rewrite Eh2, <- !app_assoc. cbn [app]. split; [reflexivity|].
      split.
      { rewrite !Forall_app. split; [done|]. split; [done|].
        repeat constructor; cbn [kind]; set_solver. }
      rewrite !polls_app, !callbacks_app, !gets_app, !length_app,
        Ep1, Ep2, Ec1, Ec2, Eg1.
      cbn. split; [done|]. split; [done|]. split; [lia|].
      split; [congruence|]. split; [congruence|]. done.
    + exists (evs1 ++ evs2 ++
              [EvLog LevelError ("failed to download new release: " +:+ Error e);
               EvCallback "TODO version"]).
      eexists. rewrite <- !app_assoc. cbn [app].
      split; [reflexivity|]. split; [reflexivity|]. cbn [history push].
      rewrite Eh2, <- !app_assoc. cbn [app]. split; [reflexivity|].
      split.
      { rewrite !Forall_app. split; [done|]. split; [done|].
        repeat constructor; cbn [kind]; set_solver. }
      rewrite !polls_app, !callbacks_app, !gets_app, !length_app,
        Ep1, Ep2, Ec1, Ec2, Eg1.
      cbn. split; [done|]. split; [done|]. split; [lia|].
      split; [congruence|]. split; [congruence|]. done.
    + exists (evs1 ++ evs2 ++
              [EvCallback "TODO version";
               EvLog LevelDebug
                 "XXX failed to register update available with tray"]).
      eexists. rewrite <- !app_assoc. cbn [app].
      split; [reflexivity|]. split; [reflexivity|]. cbn [history push].
      rewrite Eh2, <- !app_assoc. cbn [app]. split; [reflexivity|].
      split.
      { rewrite !Forall_app. split; [done|]. split; [done|].
        repeat constructor; cbn [kind]; set_solver. }
      rewrite !polls_app, !callbacks_app, !gets_app, !length_app,
        Ep1, Ep2, Ec1, Ec2, Eg1.
      cbn. split; [done|]. split; [done|]. split; [lia|].
      split; [congruence|]. split; [congruence|]. done.
    + exists (evs1 ++ evs2 ++ [EvCallback "TODO version"]).
      eexists. rewrite <- !app_assoc. cbn [app].
      split; [reflexivity|]. split; [reflexivity|]. cbn [history push].
      rewrite Eh2, <- !app_assoc. cbn [app]. split; [reflexivity|].
      split.
      { rewrite !Forall_app. split; [done|]. split; [done|].
        repeat constructor; cbn [kind]; set_solver. }
      rewrite !polls_app, !callbacks_app, !gets_app, !length_app,
        Ep1, Ep2, Ec1, Ec2, Eg1.
      cbn. split; [done|]. split; [done|]. split; [lia|].
      split; [congruence|]. split; [congruence|]. done.
  - rewrite select_Done_run. exists evs1. eexists.
    rewrite Eh1. split; [reflexivity|]. split; [reflexivity|].
    cbn [history push]. rewrite Eh1, <- !app_assoc. cbn [app].
    split; [reflexivity|]. split; [done|]. split; [done|]. split; [done|].
    rewrite Eg1. cbn. split; [lia|]. done.
Qed.

End checker_extras.

Section checker_runs.
Context {env : Env} {plat : Platform}.

(** The loop of the checker, followed for [turns] turns: where it goes,
    how long it sleeps, how many requests and callbacks it makes. *)
Lemma checker_loop_run (turns : nat) (ctx : Context) (cb : Callback)
    (w : World) :
  ∃ g w' evs,
    checker_loop turns ctx cb w = (Returns g, w') ∧
    history w' = history w ++ evs ∧
    Forall (λ e, kind e ∈ [Store; Logging; Network; Disk; Caller; Clock]) evs ∧
    UpdateCheckURLBase w' = UpdateCheckURLBase w ∧
    receivers w' = receivers w ∧
    (g = Returned → 1 ≤ length (polls evs))%nat ∧
    sleeps evs =
      replicate (length (polls evs)
                 - match g with Returned => 1 | Looping => 0 end)%nat
        (60 * 60 * Second)%Z ∧
    (length (polls evs) ≤ length (gets evs) ≤ 2 * length (polls evs))%nat ∧
    callbacks evs = replicate (length (callbacks evs)) "TODO version" ∧
    (length (callbacks evs) ≤ length (polls evs))%nat.
Proof.
  revert w. induction turns as [|turns IH]; intros w.
  { exists Looping, w, []. rewrite app_nil_r. cbn. repeat split; done || lia. }
  destruct (checker_iteration_body ctx cb w)
    as (av & r & w0 & body & w1 & _ & E1 & Eh1 & Ek1 & Ep1 & Ec1 & Eg1 & Eb1
        & Er1 & _).
  assert (sleeps body = []) as Es1.
  { apply (confined_absent _ _ _ Clock Ek1); [set_solver|]. by intros []. }
  assert (callbacks body = replicate (length (callbacks body)) "TODO version"
          ∧ length (callbacks body) ≤ 1)%nat as [Ec1' Ec1''].
  { rewrite Ec1. destruct av; cbn; split; done || lia. }
  cbn [checker_loop]. unfold mbind, M_bind. rewrite E1.
  destruct (ctx (history w ++ body)).
  - eexists Returned, w1, _. split; [reflexivity|]. split; [exact Eh1|].
    split.
    { rewrite Forall_app. split.
      - eapply Forall_impl; [exact Ek1|]. intros e. set_solver.
      - repeat constructor; cbn [kind]; set_solver. }
    rewrite polls_app, sleeps_app, gets_app, callbacks_app, !length_app,
      Ep1, Es1.
    cbn. rewrite !Nat.add_0_r, app_nil_r.
    repeat split; done || lia.
  - destruct (IH w1)
      as (g & w2 & evs & E2 & Eh2 & Ek2 & Eb2 & Er2 & Hret & Es2 & Eg2 & Ec2
          & Ec2').
    exists g, w2, (body ++ [EvCtxDone false; EvSleep (60 * 60 * Second)] ++ evs).
    split; [exact E2|]. split.
    { rewrite Eh2, Eh1, <- !app_assoc. reflexivity. }
    split.
    { rewrite !Forall_app. split; [|split; [|done]].
      - eapply Forall_impl; [exact Ek1|]. intros e. set_solver.
      - repeat constructor; cbn [kind]; set_solver. }
    split; [congruence|]. split; [congruence|].
    rewrite !polls_app, !sleeps_app, !gets_app, !callbacks_app, !length_app,
      Ep1, Es1.
    cbn [polls sleeps gets callbacks omap list_omap app length].
    rewrite ?length_app, ?Nat.add_0_l.
    split; [lia|]. split.
    { rewrite Es2. destruct g.
      - specialize (Hret eq_refl).
        replace (1 + length (polls evs) - 1)%nat
          with (S (length (polls evs) - 1)) by lia.
        reflexivity.
      - by rewrite !Nat.sub_0_r. }
    split; [lia|]. split; [|lia].
    rewrite replicate_add, <- Ec1', <- Ec2. reflexivity.
Qed.

(** X2.  The goroutine of the checker works in the background only: for
    as long as it is followed it reads the store, logs, talks to the
    network, the disk and its caller (the context and the callback) and
    sleeps.  It starts no process and does not exit the process (it never
    installs what it downloaded), and it sends nothing to the tray; of the
    state it writes the files and the flag only. *)
Theorem checker_works_in_the_background (turns : nat) (ctx : Context)
    (cb : Callback) :
  confined [Store; Logging; Network; Disk; Caller; Clock] [Flag; Files]
    (StartBackgroundUpdaterChecker turns ctx cb).
Proof.
  intros w. unfold StartBackgroundUpdaterChecker. step.
  destruct (checker_loop_run turns ctx cb (push (EvSleep (5 * Second)) w))
    as (g & w' & evs & E & Eh & Ek & Eb & Er & _).
  exists g, w', (EvSleep (5 * Second) :: evs). split; [exact E|]. split.
  { rewrite Eh. cbn [history push]. by rewrite <- app_assoc. }
  split.
  { constructor; [cbn [kind]; set_solver | exact Ek]. }
  split; [exact Eb|]. repeat split; [set_solver..|].
  intros _. exact Er.
Qed.

(** X3.  The sleeps of the checker: five seconds before the first check,
    and one hour after every poll that found the context open; none after
    the poll that ends the goroutine.  Nothing else in a turn sleeps, and
    the hour does not depend on whether the check or the download
    failed. *)
Theorem checker_sleep_schedule (turns : nat) (ctx : Context) (cb : Callback)
    (w : World) :
  ∃ g w' evs,
    StartBackgroundUpdaterChecker turns ctx cb w = (Returns g, w') ∧
    history w' = history w ++ EvSleep (5 * Second) :: evs ∧
    sleeps evs =
      replicate (length (polls evs)
                 - match g with Returned => 1 | Looping => 0 end)%nat
        (60 * 60 * Second)%Z ∧
    sleeps evs =
      omap (λ closed : bool, if closed then None else Some (3600 * Second)%Z)
        (polls evs).
Proof.
  unfold StartBackgroundUpdaterChecker. step.
  destruct (checker_loop_run turns ctx cb (push (EvSleep (5 * Second)) w))
    as (g & w' & evs & E & Eh & _ & _ & _ & _ & Es & _).
  destruct (checker_loop_polls turns ctx cb (push (EvSleep (5 * Second)) w))
    as (g' & w'' & evs' & E' & Eh' & _ & Hg).
  rewrite E in E'. injection E' as <- <-.
  rewrite Eh in Eh'. apply app_inv_head in Eh'. subst evs'.
  exists g, w', evs. split; [exact E|]. split.
  { rewrite Eh. cbn [history push]. by rewrite <- app_assoc. }
  split; [exact Es|]. rewrite Es.
  assert (∀ n, omap (λ closed : bool,
                       if closed then None else Some (3600 * Second)%Z)
                 (replicate n false)
               = replicate n (60 * 60 * Second)%Z) as Hrep.
  { intros n. induction n as [|n IHn]; [done|]. cbn. by rewrite IHn. }
  destruct g.
  - destruct Hg as ((n & _ & ->) & _).
    rewrite omap_app, Hrep, length_app, length_replicate. cbn.
    rewrite app_nil_r. f_equal. lia.
  - rewrite Hg, Hrep, length_replicate. f_equal. lia.
Qed.

(** X4.  The requests of the checker: every turn makes the update check,
    and at most one download beside it; so after [n] polls of the context
    there have been at least [n] and at most [2 n] requests.  The callback
    is called at most once a turn, and always with the same text,
    whatever version the server announced. *)
Theorem checker_requests_per_turn (turns : nat) (ctx : Context)
    (cb : Callback) (w : World) :
  ∃ g w' evs,
    StartBackgroundUpdaterChecker turns ctx cb w = (Returns g, w') ∧
    history w' = history w ++ evs ∧
    (length (polls evs) ≤ length (gets evs) ≤ 2 * length (polls evs))%nat ∧
    (length (callbacks evs) ≤ length (polls evs))%nat ∧
    Forall (λ arg, arg = "TODO version") (callbacks evs).
Proof.
  unfold StartBackgroundUpdaterChecker. step.
  destruct (checker_loop_run turns ctx cb (push (EvSleep (5 * Second)) w))
    as (g & w' & evs & E & Eh & _ & _ & _ & _ & _ & Eg & Ec & Ec').
  exists g, w', (EvSleep (5 * Second) :: evs). split; [exact E|]. split.
  { rewrite Eh. cbn [history push]. by rewrite <- app_assoc. }
  cbn [polls gets callbacks omap list_omap].
  fold (polls evs) (gets evs) (callbacks evs).
  split; [exact Eg|]. split; [exact Ec'|].
  rewrite Ec. apply Forall_replicate. reflexivity.
Qed.

(** X5.  One turn of the checker calls the callback exactly when
    [IsNewReleaseAvailable] said yes, once, with the text "TODO version":
    the result of [DownloadNewRelease] does not decide, so the tray is told
    of an update also when the download failed.  When the check said no,
    the turn makes that one request and leaves the files and the flag as
    they were. *)
Theorem checker_callback_per_turn (ctx : Context) (cb : Callback)
    (w w1 : World) (available : bool) (r : UpdateResponse) :
  IsNewReleaseAvailable w = (Returns (available, r), w1) →
  ∃ stop w' evs,
    checker_iteration ctx cb w = (Returns stop, w') ∧
    history w' = history w ++ evs ∧
    callbacks evs = (if available then ["TODO version"] else []) ∧
    (available = false →
     files w' = files w ∧ UpdateDownloaded w' = UpdateDownloaded w ∧
     length (gets evs) = 1%nat).
Proof.
  intros Hcheck.
  destruct (checker_iteration_body ctx cb w)
    as (av & r' & w0 & body & w' & E0 & E1 & Eh1 & _ & _ & Ec1 & _ & _ & _
        & Hno).
  rewrite Hcheck in E0. injection E0 as <- <- <-.
  eexists _, w', _. split; [exact E1|]. split; [exact Eh1|].
  rewrite callbacks_app, gets_app, length_app, Ec1.
  split.
  { destruct (ctx _); cbn; by rewrite app_nil_r. }
  intros Hav. destruct (Hno Hav) as (Hf & Hd & Hg).
  split; [exact Hf|]. split; [exact Hd|].
  rewrite Hg. by destruct (ctx _).
Qed.

(** X6.  A context that is done before the goroutine starts does not keep
    it from working: it still sleeps its five seconds and runs one whole
    turn, with the update check (and the download, if there is one), and
    only then finds the context done and returns. *)
Theorem checker_cancelled_before_start (turns : nat) (ctx : Context)
    (cb : Callback) (w : World) :
  (∀ h, ctx h = true) →
  ∃ w' evs,
    StartBackgroundUpdaterChecker (S turns) ctx cb w = (Returns Returned, w') ∧
    history w' = history w ++ EvSleep (5 * Second) :: evs ∧
    polls evs = [true] ∧
    sleeps evs = [] ∧
    (1 ≤ length (gets evs))%nat.
Proof.
  intros Hdone. unfold StartBackgroundUpdaterChecker. step.
  cbn [checker_loop]. unfold mbind, M_bind.
  destruct (checker_iteration_body ctx cb (push (EvSleep (5 * Second)) w))
    as (av & r & w0 & body & w' & _ & E1 & Eh1 & Ek1 & Ep1 & _ & Eg1 & _).
  rewrite E1, Hdone in *.
  eexists w', _. split; [reflexivity|]. split.
  { rewrite Eh1. cbn [history push]. rewrite <- app_assoc. reflexivity. }
  assert (sleeps body = []) as Es1.
  { apply (confined_absent _ _ _ Clock Ek1); [set_solver|]. by intros []. }
  rewrite polls_app, sleeps_app, gets_app, length_app, Ep1, Es1.
  split; [reflexivity|]. split; [reflexivity|]. lia.
Qed.

End checker_runs.

Lemma substring_all (s : string) : substring 0 (String.length s) s = s.
Proof. induction s as [|c s IH]; [done|]. cbn. by rewrite IH. Qed.

Section DownloadNewRelease_extras.
Context {env : Env} {plat : Platform}.

(** What [DownloadNewRelease] leaves as it was. *)
Lemma DownloadNewRelease_frame (w : World) (r : UpdateResponse) :
  ∃ result w',
    DownloadNewRelease r w = (Returns result, w') ∧
    (result ≠ None → UpdateDownloaded w' = UpdateDownloaded w) ∧
    (∀ err, url_Parse (UpdateURL r) = inl err → w' = w) ∧
    (∀ p, p ≠ UpdateStageDir →
          (∀ path, url_Parse (UpdateURL r) = inr path →
                   p ≠ escapedFilename path) →
          files w' !! p = files w !! p).
Proof.
  unfold DownloadNewRelease.
  destruct (url_Parse (UpdateURL r)) as [err|path] eqn:Hparse.
  { eexists _, _. split; [reflexivity|]. by repeat split. }
  fold (escapedFilename path). set (file := escapedFilename path).
  step. unfold os_MkdirAll, os_OpenFile, File_Write. step.
  repeat (split_head; step).
  all: eexists _, _; (split; [reflexivity|]).
  all: cbn [UpdateDownloaded files push set_files set_UpdateDownloaded].
  all: (split; [done|]); (split; [done|]).
  all: intros p Hdir Hfile; specialize (Hfile path eq_refl).
  all: rewrite ?lookup_insert_ne by done; reflexivity.
Qed.

End DownloadNewRelease_extras.

Section DownloadNewRelease_paths.
Context {env : Env} {plat : Platform}.

(** The start of [DownloadNewRelease] on a URL that parses, down to the
    second [os.Stat]: the staging directory is looked at, and made when
    nothing is there. *)
Lemma DownloadNewRelease_stage_ready (w : World) (r : UpdateResponse)
    (path : string) :
  url_Parse (UpdateURL r) = inr path →
  files w !! UpdateStageDir = None ∨ files w !! UpdateStageDir = Some Dir →
  (∀ h, on_MkdirAll h UpdateStageDir = None) →
  ∃ w1,
    files w1 = <[UpdateStageDir := Dir]> (files w) ∧
    UpdateCheckURLBase w1 = UpdateCheckURLBase w ∧
    UpdateDownloaded w1 = UpdateDownloaded w ∧
    receivers w1 = receivers w ∧
    history w1 =
      history w ++ [EvStat UpdateStageDir] ++
      match files w !! UpdateStageDir with
      | None => [EvMkdirAll UpdateStageDir 493]
      | Some _ => []
      end ∧
    DownloadNewRelease r w =
      ((err ← os_Stat (escapedFilename path);
        if errors_Is_ErrNotExist err then
          slog_Debug ("XXX downloading " +:+ UpdateURL r);;
          got ← http_Get (UpdateURL r);
          match got with
          | inl err =>
              mret (Some (Errorf_w "error downloading update: " (Some err)))
          | inr resp =>
              defer Body_Close (
                '(payload, err) ← io_ReadAll resp;
                match err with
                | Some e =>
                    mret (Some (Errorf_w "failed to read body response: "
                                  (Some e)))
                | None =>
                    err ← os_OpenFile (escapedFilename path) 493;
                    match err with
                    | Some e =>
                        mret (Some (Errorf_w ("write payload "
                                      +:+ escapedFilename path +:+ ": ")
                                      (Some e)))
                    | None =>
                        defer (File_Close (escapedFilename path)) (
                          '(n, err) ←
                            File_Write (escapedFilename path) payload;
                          if bool_decide (err ≠ None)
                             || bool_decide (n ≠ String.length payload)
                          then
                            mret (Some (Errorf_w ("write payload "
                                    +:+ escapedFilename path +:+ ": "
                                    +:+ pretty n +:+ " vs "
                                    +:+ pretty (String.length payload)
                                    +:+ " -- ") err))
                          else
                            slog_Debug
                              ("XXX completed writing out update payload to "
                               +:+ escapedFilename path);;
                            ((λ w, (Returns (), set_UpdateDownloaded true w)) : M unit);;
                            mret None)
                    end
                end)
          end
        else
          match err with
          | Some e =>
              mret (Some (Errorf_w "XXX unexpected stat error " (Some e)))
          | None =>
              slog_Debug "XXX update already downloaded";;
              ((λ w, (Returns (), set_UpdateDownloaded true w)) : M unit);;
              mret None
          end) : M (option error)) w1.
Proof.
  intros Hparse Hdir Hmk. unfold DownloadNewRelease. rewrite Hparse.
  fold (escapedFilename path).
  unfold mbind at 1, M_bind at 1, os_Stat at 1. unfold Stat_error at 1.
  destruct Hdir as [Hdir|Hdir]; rewrite Hdir;
    cbn [errors_Is_ErrNotExist is_ErrNotExist].
  - unfold mbind at 1, M_bind at 1, os_MkdirAll.
    cbn [history push files]. rewrite Hmk, Hdir.
    eexists. split; [|split; [|split; [|split; [|split; [|reflexivity]]]]];
      try reflexivity.
    cbn [history push set_files]. by rewrite <- app_assoc.
  - unfold mbind at 1, M_bind at 1, mret at 1, M_ret at 1.
    eexists. split; [|split; [|split; [|split; [|split; [|reflexivity]]]]];
      try reflexivity.
    cbn [files push]. by rewrite insert_id.
Qed.

(** X7.  A release that is not staged yet, on a disk and a network that
    work: [DownloadNewRelease] makes the staging directory if it is not
    there (mode 0o755), requests the URL once, writes the whole body under
    the escaped name (created with mode 0o755), closes the file and then
    the body, sets [UpdateDownloaded] and returns nil.  The status of the
    response is not looked at: the body of any response is saved. *)
Theorem DownloadNewRelease_fresh (w : World) (r : UpdateResponse)
    (path payload : string) (status : Z) :
  url_Parse (UpdateURL r) = inr path →
  escapedFilename path ≠ UpdateStageDir →
  files w !! UpdateStageDir = None ∨ files w !! UpdateStageDir = Some Dir →
  files w !! escapedFilename path = None →
  (∀ h, on_MkdirAll h UpdateStageDir = None) →
  (∀ h, on_Get h (UpdateURL r)
        = inr {| StatusCode := status; Body := (payload, None) |}) →
  (∀ h, on_OpenFile h (escapedFilename path) = None) →
  (∀ h, on_Write h (escapedFilename path) payload
        = (String.length payload, None)) →
  ∃ w',
    DownloadNewRelease r w = (Returns None, w') ∧
    files w' =
      <[escapedFilename path := File payload]>
        (<[UpdateStageDir := Dir]> (files w)) ∧
    UpdateDownloaded w' = true ∧
    history w' =
      history w ++ [EvStat UpdateStageDir] ++
      match files w !! UpdateStageDir with
      | None => [EvMkdirAll UpdateStageDir 493]
      | Some _ => []
      end ++
      [EvStat (escapedFilename path);
       EvLog LevelDebug ("XXX downloading " +:+ UpdateURL r);
       EvHttpGet (UpdateURL r);
       EvOpenFile (escapedFilename path) 493;
       EvWrite (escapedFilename path) (String.length payload);
       EvLog LevelDebug ("XXX completed writing out update payload to "
                         +:+ escapedFilename path);
       EvFileClose (escapedFilename path);
       EvBodyClose].
Proof.
  intros Hparse Hneq Hdir Hfile Hmk Hget Hopen Hwrite.
  destruct (DownloadNewRelease_stage_ready w r path Hparse Hdir Hmk)
    as (w1 & Ef & _ & _ & _ & Eh & ->).
  set (file := escapedFilename path) in *.
  assert (files w1 !! file = None) as Hfile1.
  { rewrite Ef, lookup_insert_ne by done. exact Hfile. }
  step. unfold Stat_error. rewrite Hfile1.
  cbn [errors_Is_ErrNotExist is_ErrNotExist]. rewrite Hget. cbn [Body].
  unfold os_OpenFile. cbn [history push files]. rewrite Hopen, Hfile1.
  unfold File_Write. cbn [history push files set_files]. rewrite Hwrite.
  cbv beta iota zeta.
  match goal with
  | |- context [(?a || ?b)%bool] =>
      assert (a || b = false) as ->
        by (apply orb_false_intro; apply bool_decide_eq_false_2;
            intros Hne; by apply Hne)
  end.
  step. eexists. split; [reflexivity|].
  cbn [files history push set_files set_UpdateDownloaded UpdateDownloaded].
  rewrite substring_all, Ef, Eh. split.
  { by rewrite insert_insert_eq. }
  split; [reflexivity|]. by rewrite <- !app_assoc.
Qed.

(** X8.  A write that fails or comes short: [DownloadNewRelease] returns
    an error and leaves [UpdateDownloaded] as it was, after closing the
    file and the body; but the file stays under the escaped name with the
    bytes that reached it.  The next call finds it there, requests
    nothing, sets [UpdateDownloaded] and returns nil: the truncated file
    passes for the release. *)
Theorem DownloadNewRelease_short_write_sticks (w : World) (r : UpdateResponse)
    (path payload : string) (status : Z) (n : nat) (werr : option error) :
  url_Parse (UpdateURL r) = inr path →
  escapedFilename path ≠ UpdateStageDir →
  files w !! UpdateStageDir = None ∨ files w !! UpdateStageDir = Some Dir →
  files w !! escapedFilename path = None →
  (∀ h, on_MkdirAll h UpdateStageDir = None) →
  (∀ h, on_Get h (UpdateURL r)
        = inr {| StatusCode := status; Body := (payload, None) |}) →
  (∀ h, on_OpenFile h (escapedFilename path) = None) →
  (∀ h, on_Write h (escapedFilename path) payload = (n, werr)) →
  werr ≠ None ∨ n ≠ String.length payload →
  ∃ e w1 pre w2,
    DownloadNewRelease r w = (Returns (Some e), w1) ∧
    UpdateDownloaded w1 = UpdateDownloaded w ∧
    files w1 !! escapedFilename path = Some (File (substring 0 n payload)) ∧
    history w1 =
      history w ++ pre ++
      [EvWrite (escapedFilename path) n;
       EvFileClose (escapedFilename path);
       EvBodyClose] ∧
    DownloadNewRelease r w1 = (Returns None, w2) ∧
    gets (history w2) = gets (history w1) ∧
    files w2 = files w1 ∧
    UpdateDownloaded w2 = true.
Proof.
  intros Hparse Hneq Hdir Hfile Hmk Hget Hopen Hwrite Hshort.
  destruct (DownloadNewRelease_stage_ready w r path Hparse Hdir Hmk)
    as (w1 & Ef & _ & Ed & _ & Eh & ->).
  set (file := escapedFilename path) in *.
  assert (files w1 !! file = None) as Hfile1.
  { rewrite Ef, lookup_insert_ne by done. exact Hfile. }
  step. unfold Stat_error. rewrite Hfile1.
  cbn [errors_Is_ErrNotExist is_ErrNotExist]. rewrite Hget. cbn [Body].
  unfold os_OpenFile. cbn [history push files]. rewrite Hopen, Hfile1.
  unfold File_Write. cbn [history push files set_files]. rewrite Hwrite.
  cbv beta iota zeta.
  match goal with
  | |- context [(?a || ?b)%bool] =>
      assert (a || b = true) as ->
        by (apply orb_true_iff; destruct Hshort as [Hs|Hs];
            [left|right]; by apply bool_decide_eq_true_2)
  end.
  match goal with
  | |- ∃ _ _ _ _, (_, ?w0) = _ ∧ _ => set (v := w0)
  end.
  assert (files v !! file = Some (File (substring 0 n payload))) as Hthere.
  { subst v. cbn [files push set_files]. by rewrite lookup_insert_eq. }
  assert (files v !! UpdateStageDir = Some Dir) as Hdir2.
  { subst v. cbn [files push set_files].
    rewrite !lookup_insert_ne by done. rewrite Ef. by rewrite lookup_insert_eq. }
  assert (history v =
            history w ++
            ([EvStat UpdateStageDir] ++
             match files w !! UpdateStageDir with
             | None => [EvMkdirAll UpdateStageDir 493]
             | Some _ => []
             end ++
             [EvStat file;
              EvLog LevelDebug ("XXX downloading " +:+ UpdateURL r);
              EvHttpGet (UpdateURL r); EvOpenFile file 493]) ++
            [EvWrite file n; EvFileClose file; EvBodyClose]) as Hhist.
  { subst v. cbn [history push set_files]. rewrite Eh, <- !app_assoc.
    reflexivity. }
  pose proof (DownloadNewRelease_staged v r path Hparse) as Hnil.
  fold file in Hnil. unfold Stat_error in Hnil. rewrite Hdir2, Hthere in Hnil.
  specialize (Hnil eq_refl eq_refl).
  eexists _, v, _, _. split; [reflexivity|]. split; [exact Ed|].
  split; [exact Hthere|]. split; [exact Hhist|].
  split; [exact Hnil|]. split; [by projections|]. done.
Qed.

(** X9.  A download that fails on the network (the request fails, or the
    body cannot be read to its end) leaves nothing behind: no file under
    the escaped name, not even the bytes that were read, and
    [UpdateDownloaded] as it was; the body of a response is closed.  So
    the next call makes the request again. *)
Theorem DownloadNewRelease_failed_get_retries (w : World) (r : UpdateResponse)
    (path : string) (got : error + Response) :
  url_Parse (UpdateURL r) = inr path →
  escapedFilename path ≠ UpdateStageDir →
  files w !! UpdateStageDir = None ∨ files w !! UpdateStageDir = Some Dir →
  files w !! escapedFilename path = None →
  (∀ h, on_MkdirAll h UpdateStageDir = None) →
  (∀ h, on_Get h (UpdateURL r) = got) →
  match got with inl _ => True | inr resp => (Body resp).2 ≠ None end →
  ∃ e w1 evs e2 w2,
    DownloadNewRelease r w = (Returns (Some e), w1) ∧
    history w1 = history w ++ evs ∧
    closes evs = match got with inl _ => 0 | inr _ => 1 end ∧
    files w1 = <[UpdateStageDir := Dir]> (files w) ∧
    UpdateDownloaded w1 = UpdateDownloaded w ∧
    DownloadNewRelease r w1 = (Returns (Some e2), w2) ∧
    gets (history w2) = gets (history w) ++ [UpdateURL r; UpdateURL r].
Proof.
  intros Hparse Hneq Hdir Hfile Hmk Hget Hfailed.
  assert (∀ v, files v !! UpdateStageDir = None
               ∨ files v !! UpdateStageDir = Some Dir →
               files v !! escapedFilename path = None →
    ∃ e v1 evs,
      DownloadNewRelease r v = (Returns (Some e), v1) ∧
      history v1 = history v ++ evs ∧
      gets evs = [UpdateURL r] ∧
      closes evs = match got with inl _ => 0 | inr _ => 1 end ∧
      files v1 = <[UpdateStageDir := Dir]> (files v) ∧
      UpdateDownloaded v1 = UpdateDownloaded v) as Hrun.
  { intros v Hdirv Hfilev.
    destruct (DownloadNewRelease_stage_ready v r path Hparse Hdirv Hmk)
      as (v1 & Ef & _ & Ed & _ & Eh & ->).
    set (file := escapedFilename path) in *.
    assert (files v1 !! file = None) as Hfile1.
    { rewrite Ef, lookup_insert_ne by done. exact Hfilev. }
    step. unfold Stat_error. rewrite Hfile1.
    cbn [errors_Is_ErrNotExist is_ErrNotExist]. rewrite Hget.
    destruct got as [err|resp].
    - eexists _, _, _. split; [reflexivity|]. cbn [history push].
      rewrite Eh, <- !app_assoc. split; [reflexivity|].
      rewrite !gets_app, !closes_app.
      destruct (files v !! UpdateStageDir); by repeat split.
    - destruct (Body resp) as [partial [e|]]; [|done].
      eexists _, _, _. split; [reflexivity|]. cbn [history push].
      rewrite Eh, <- !app_assoc. split; [reflexivity|].
      rewrite !gets_app, !closes_app.
      destruct (files v !! UpdateStageDir); by repeat split. }
  destruct (Hrun w Hdir Hfile) as (e & w1 & evs & E1 & Eh1 & Eg1 & Ec1 & Ef1 & Ed1).
  destruct (Hrun w1) as (e2 & w2 & evs2 & E2 & Eh2 & Eg2 & _).
  { right. by rewrite Ef1, lookup_insert_eq. }
  { rewrite Ef1, lookup_insert_ne by done. exact Hfile. }
  exists e, w1, evs, e2, w2. split; [exact E1|]. split; [exact Eh1|].
  split; [exact Ec1|]. split; [exact Ef1|]. split; [exact Ed1|].
  split; [exact E2|].
  rewrite Eh2, Eh1, !gets_app, Eg1, Eg2, <- app_assoc. reflexivity.
Qed.

(** X10.  When [os.Stat] of the escaped file fails with an error that is
    not [os.ErrNotExist], [DownloadNewRelease] stops there: it returns the
    error, wrapped, requests nothing, and leaves the files and
    [UpdateDownloaded] alone.  ([DoUpgrade] goes on in the same case.) *)
Theorem DownloadNewRelease_stat_error_stops (w : World) (r : UpdateResponse)
    (path : string) (e : error) :
  url_Parse (UpdateURL r) = inr path →
  errors_Is_ErrNotExist (Stat_error (files w) UpdateStageDir) = false →
  Stat_error (files w) (escapedFilename path) = Some e →
  is_ErrNotExist e = false →
  DownloadNewRelease r w =
    (Returns (Some (Wrapped "XXX unexpected stat error " e)),
     push (EvStat (escapedFilename path)) (push (EvStat UpdateStageDir) w)) ∧
  gets (history (DownloadNewRelease r w).2) = gets (history w) ∧
  files (DownloadNewRelease r w).2 = files w ∧
  UpdateDownloaded (DownloadNewRelease r w).2 = UpdateDownloaded w.
Proof.
  intros Hparse Hdir Hstat He.
  assert (DownloadNewRelease r w =
    (Returns (Some (Wrapped "XXX unexpected stat error " e)),
     push (EvStat (escapedFilename path)) (push (EvStat UpdateStageDir) w)))
    as ->.
  { unfold DownloadNewRelease. rewrite Hparse. fold (escapedFilename path).
    step. rewrite Hdir. step. rewrite Hstat.
    cbn [errors_Is_ErrNotExist]. by rewrite He. }
  split; [reflexivity|]. cbn [snd]. split; [by projections|]. done.
Qed.

(** X11.  When the staging directory is not there and cannot be made,
    [DownloadNewRelease] returns an error that names the directory and
    does nothing more: no second stat, no request.  The cause is printed
    into the text and not wrapped, so [errors.Is] does not find
    [os.ErrNotExist] in the result even when it is the cause. *)
Theorem DownloadNewRelease_mkdir_failure (w : World) (r : UpdateResponse)
    (path : string) (e : error) :
  url_Parse (UpdateURL r) = inr path →
  files w !! UpdateStageDir = None →
  on_MkdirAll (history w ++ [EvStat UpdateStageDir]) UpdateStageDir = Some e →
  ∃ err,
    DownloadNewRelease r w =
      (Returns (Some err),
       push (EvMkdirAll UpdateStageDir 493) (push (EvStat UpdateStageDir) w)) ∧
    Error err = "create ollama dir " +:+ UpdateStageDir +:+ ": " +:+ Error e ∧
    is_ErrNotExist err = false.
Proof.
  intros Hparse Hdir Hmk. unfold DownloadNewRelease. rewrite Hparse.
  step. unfold Stat_error. rewrite Hdir.
  cbn [errors_Is_ErrNotExist is_ErrNotExist].
  unfold os_MkdirAll. cbn [history push]. rewrite Hmk.
  eexists. split; [reflexivity|]. split; reflexivity.
Qed.

(** X12.  When the escaped name is the staging directory itself (what
    [filepath.Join] gives for a URL whose path is empty), the second
    [os.Stat] finds the directory that is there or was just made:
    [DownloadNewRelease] requests nothing, writes no file, sets
    [UpdateDownloaded] and returns nil. *)
Theorem DownloadNewRelease_empty_path (w : World) (r : UpdateResponse)
    (path : string) :
  url_Parse (UpdateURL r) = inr path →
  escapedFilename path = UpdateStageDir →
  files w !! UpdateStageDir = None ∨ files w !! UpdateStageDir = Some Dir →
  (∀ h, on_MkdirAll h UpdateStageDir = None) →
  ∃ w',
    DownloadNewRelease r w = (Returns None, w') ∧
    gets (history w') = gets (history w) ∧
    files w' = <[UpdateStageDir := Dir]> (files w) ∧
    UpdateDownloaded w' = true.
Proof.
  intros Hparse Hsame Hdir Hmk.
  destruct (DownloadNewRelease_stage_ready w r path Hparse Hdir Hmk)
    as (w1 & Ef & _ & _ & _ & Eh & ->).
  rewrite Hsame. step. unfold Stat_error. rewrite Ef, lookup_insert_eq.
  cbn [errors_Is_ErrNotExist]. eexists. split; [reflexivity|].
  cbn [history files push set_UpdateDownloaded UpdateDownloaded].
  rewrite Eh, Ef, !gets_app. split; [|done].
  destruct (files w !! UpdateStageDir); cbn; rewrite ?app_nil_r; reflexivity.
Qed.

(** X13.  What [DownloadNewRelease] leaves alone, on every way out: it
    always returns; when it returns an error, [UpdateDownloaded] is as it
    was; a URL that does not parse is answered before anything is touched;
    of the files, only the staging directory and the escaped name can
    change; it makes at most one request; and the tray and the base URL
    are as before. *)
Theorem DownloadNewRelease_footprint (w : World) (r : UpdateResponse) :
  ∃ result w' evs,
    DownloadNewRelease r w = (Returns result, w') ∧
    history w' = history w ++ evs ∧
    (result ≠ None → UpdateDownloaded w' = UpdateDownloaded w) ∧
    (∀ err, url_Parse (UpdateURL r) = inl err →
            w' = w ∧ ∃ e, result = Some e ∧ is_ErrNotExist e = is_ErrNotExist err) ∧
    (∀ p, p ≠ UpdateStageDir →
          (∀ path, url_Parse (UpdateURL r) = inr path →
                   p ≠ escapedFilename path) →
          files w' !! p = files w !! p) ∧
    (length (gets evs) ≤ 1)%nat ∧
    receivers w' = receivers w ∧
    UpdateCheckURLBase w' = UpdateCheckURLBase w.
Proof.
  destruct (DownloadNewRelease_frame w r)
    as (result & w' & E & Hflag & Hparse & Hfiles).
  destruct (confined_DownloadNewRelease r w)
    as (? & ? & evs & E' & Eh & _ & Eb & _ & _ & Er).
  rewrite E in E'. injection E' as <- <-.
  destruct (DownloadNewRelease_requests w r) as (? & ? & E' & Hg).
  rewrite E in E'. injection E' as <- <-.
  exists result, w', evs. split; [exact E|]. split; [exact Eh|].
  split; [exact Hflag|]. split.
  { intros err Herr. split; [by eapply Hparse|].
    revert E. unfold DownloadNewRelease. rewrite Herr. intros [= <- _].
    by eexists. }
  split; [exact Hfiles|]. split.
  { rewrite Eh, gets_app in Hg. destruct Hg as [Hg|[Hg _]].
    - rewrite <- (app_nil_r (gets (history w))) in Hg at 2.
      apply app_inv_head in Hg. rewrite Hg. cbn. lia.
    - apply app_inv_head in Hg. by rewrite Hg. }
  split; [|exact Eb]. apply Er. set_solver.
Qed.

End DownloadNewRelease_paths.

Section checker_empty.
Context {env : Env} {plat : Platform}.

(** X14.  An announcement without a URL.  When the server answers the
    check with a body that decodes without an error and gives no URL (the
    body [{}], or [null]), and the empty URL parses to a path whose
    escaped name is the staging directory itself (an empty path), one turn
    of the checker takes it for a release: it makes no second request,
    writes no file, and yet sets [UpdateDownloaded] and tells the tray
    that an update is there. *)
Theorem checker_empty_announcement (ctx : Context) (cb : Callback)
    (w : World) (resp : Response) (path : string) :
  update_check w = inr resp →
  StatusCode resp ≠ 204%Z →
  json_Unmarshal (Body resp).1 zero_UpdateResponse
    = (None, zero_UpdateResponse) →
  url_Parse EmptyString = inr path →
  escapedFilename path = UpdateStageDir →
  files w !! UpdateStageDir = None ∨ files w !! UpdateStageDir = Some Dir →
  (∀ h, on_MkdirAll h UpdateStageDir = None) →
  ∃ stop w' evs,
    checker_iteration ctx cb w = (Returns stop, w') ∧
    history w' = history w ++ evs ∧
    length (gets evs) = 1%nat ∧
    callbacks evs = ["TODO version"] ∧
    UpdateDownloaded w' = true ∧
    files w' = <[UpdateStageDir := Dir]> (files w).
Proof.
  intros Hresp N204 Hjson Hparse Hsame Hdir Hmk.
  destruct (IsNewReleaseAvailable_events w)
    as (result & w1 & evs1 & E1 & Eh1 & Eg1 & _).
  destruct (IsNewReleaseAvailable_result w) as [w1' E1'].
  rewrite Hresp, Hjson in E1'.
  destruct (Z.eqb_spec (StatusCode resp) 204) as [|_]; [done|].
  rewrite E1 in E1'. injection E1' as -> <-.
  destruct (confined_IsNewReleaseAvailable w)
    as (? & ? & evs' & E' & Eh' & Ek1 & _ & _ & Ed1 & _).
  rewrite E1 in E'. injection E' as <- <-.
  rewrite Eh1 in Eh'. apply app_inv_head in Eh'. subst evs'.
  specialize (Ed1 (not_elem_of_nil _)).
  assert (callbacks evs1 = []) as Ec1.
  { apply (confined_absent _ _ _ Caller Ek1); [set_solver|]. by intros []. }
  assert (∃ w2 evs2,
    DownloadNewRelease zero_UpdateResponse w1 = (Returns None, w2) ∧
    history w2 = history w1 ++ evs2 ∧
    gets evs2 = [] ∧ callbacks evs2 = [] ∧
    UpdateDownloaded w2 = true ∧
    files w2 = <[UpdateStageDir := Dir]> (files w)) as (w2 & evs2 & E2 & Eh2 & Eg2 & Ec2 & Ef2 & Ed2).
  { rewrite <- Ed1 in Hdir.
    destruct (DownloadNewRelease_stage_ready w1 zero_UpdateResponse path
                Hparse Hdir Hmk) as (v & Ef & _ & _ & _ & Eh & ->).
    rewrite Hsame. step. unfold Stat_error. rewrite Ef, lookup_insert_eq.
    cbn [errors_Is_ErrNotExist]. eexists _, _. split; [reflexivity|].
    cbn [history files push set_UpdateDownloaded UpdateDownloaded].
    rewrite Eh, Ef, Ed1, <- !app_assoc. split; [reflexivity|].
    rewrite !gets_app, !callbacks_app.
    destruct (files w !! UpdateStageDir); by repeat split. }
  unfold checker_iteration. step. rewrite E1. step. rewrite E2. step.
  destruct (cb _ "TODO version") as [e'|]; step;
    rewrite select_Done_run;
    (eexists _, _, _; split; [reflexivity|]);
    cbn [history push UpdateDownloaded files];
    rewrite ?Eh2, ?Eh1, <- ?app_assoc;
    (split; [reflexivity|]);
    rewrite !gets_app, !callbacks_app, !length_app, Eg1, Eg2, Ec1, Ec2;
    destruct (ctx _); by repeat split.
Qed.

End checker_empty.

(* ===================================================================== *)
(** ** DoUpgrade and the message handler *)
(* ===================================================================== *)

Section DoUpgrade_extras.
Context {env : Env} {plat : Platform}.

(** X15.  What [DoUpgrade] never does: it never returns nil (it returns
    an error, or the process exits, with status 0, after one spawn); it
    makes no request, starts at most one process, and leaves the files,
    the tray, the base URL and [UpdateDownloaded] as they are.  It does not
    read [UpdateDownloaded] either: whether a release was downloaded makes
    no difference to what it does, only what [os.Stat] finds. *)
Theorem DoUpgrade_footprint (w : World) :
  ∃ o w' evs,
    DoUpgrade w = (o, w') ∧
    w' = {| UpdateCheckURLBase := UpdateCheckURLBase w;
            UpdateDownloaded := UpdateDownloaded w;
            files := files w; receivers := receivers w;
            history := history w ++ evs |} ∧
    match o with
    | Returns None => False
    | Returns (Some _) => exits evs = [] ∧ (length (spawns evs) ≤ 1)%nat
    | Exits code =>
        code = 0%Z ∧ exits evs = [0%Z] ∧
        spawns evs = [(installerExe, installArgs)]
    end ∧
    gets evs = [] ∧
    (∀ b, DoUpgrade (set_UpdateDownloaded b w)
          = (o, set_UpdateDownloaded b w')).
Proof.
  assert (∀ b, DoUpgrade (set_UpdateDownloaded b w)
               = ((DoUpgrade w).1, set_UpdateDownloaded b (DoUpgrade w).2))
    as Hflag.
  { intros b. rewrite !DoUpgrade_unfold.
    change (spawn_answer (set_UpdateDownloaded b w)) with (spawn_answer w).
    cbn [files set_UpdateDownloaded]. cbv zeta.
    destruct (errors_Is_ErrNotExist _); [reflexivity|].
    destruct (spawn_answer w) as [err|[pid|]]; try reflexivity.
    cbn [history push set_UpdateDownloaded].
    by destruct (on_Release _ pid). }
  destruct (DoUpgrade w) as [o w'] eqn:E. cbn [fst snd] in Hflag.
  exists o, w'. revert E. rewrite DoUpgrade_unfold. cbv zeta.
  destruct (errors_Is_ErrNotExist _).
  { intros [= <- <-]. exists [EvStat installerExe].
    split; [reflexivity|]. split; [reflexivity|]. cbn. repeat split; done || lia. }
  destruct (spawn_answer w) as [err|[pid|]].
  - intros [= <- <-]. eexists [_; _; _]. split; [reflexivity|].
    split; [unfold push; cbn; by rewrite <- !app_assoc|].
    cbn. repeat split; lia || done.
  - destruct (on_Release _ pid) as [e|]; intros [= <- <-].
    + eexists [_; _; _; _; _; _; _]. split; [reflexivity|].
      split; [unfold push; cbn; by rewrite <- !app_assoc|].
      by repeat split.
    + eexists [_; _; _; _; _; _]. split; [reflexivity|].
      split; [unfold push; cbn; by rewrite <- !app_assoc|].
      by repeat split.
  - intros [= <- <-]. eexists [_; _; _]. split; [reflexivity|].
    split; [unfold push; cbn; by rewrite <- !app_assoc|].
    cbn. repeat split; lia || done.
Qed.

(** X16.  [DownloadNewRelease] and [DoUpgrade] meet only if the names do.
    After a download that returned nil, with [UpdateDownloaded] set:
    when the escaped name of the release is the path of the installer,
    [DoUpgrade] starts it; when it is another name, and no installer was
    there before, [DoUpgrade] still fails to locate the installer and
    starts nothing. *)
Theorem DownloadNewRelease_then_DoUpgrade (w w1 : World) (r : UpdateResponse)
    (path : string) :
  DownloadNewRelease r w = (Returns None, w1) →
  url_Parse (UpdateURL r) = inr path →
  UpdateDownloaded w1 = true ∧
  (escapedFilename path = installerExe →
   ∃ o w2,
     DoUpgrade w1 = (o, w2) ∧
     spawns (history w2) = spawns (history w1) ++ [(installerExe, installArgs)]) ∧
  (escapedFilename path ≠ installerExe →
   installerExe ≠ UpdateStageDir →
   files w !! installerExe = None →
   ∃ err w2,
     DoUpgrade w1 = (Returns (Some err), w2) ∧
     contains installerExe (Error err) = true ∧
     spawns (history w2) = spawns (history w1)).
Proof.
  intros Hnil Hparse.
  destruct (DownloadNewRelease_nil _ _ _ Hnil)
    as (Hflag & path' & Hparse' & _ & Hfile).
  rewrite Hparse in Hparse'. injection Hparse' as <-.
  split; [exact Hflag|]. split.
  - intros Hsame. rewrite Hsame in Hfile. rewrite DoUpgrade_unfold, Hfile.
    cbn [errors_Is_ErrNotExist]. cbv zeta.
    destruct (spawn_answer w1) as [err|[pid|]].
    + eexists _, _. split; [reflexivity|]. by projections.
    + destruct (on_Release _ pid) as [e'|];
        (eexists _, _; split; [reflexivity|]; by projections).
    + eexists _, _. split; [reflexivity|]. by projections.
  - intros Hother Hdir Habsent.
    destruct (DownloadNewRelease_frame w r) as (? & ? & E & _ & _ & Hfiles).
    rewrite Hnil in E. injection E as <- <-.
    assert (files w1 !! installerExe = None) as Habsent1.
    { rewrite Hfiles; [exact Habsent|exact Hdir|].
      intros path' Hparse'. rewrite Hparse in Hparse'.
      injection Hparse' as <-. congruence. }
    rewrite DoUpgrade_unfold. unfold Stat_error. rewrite Habsent1.
    cbn [errors_Is_ErrNotExist is_ErrNotExist].
    eexists _, _. split; [reflexivity|]. split.
    + cbn [Error]. apply contains_suffix.
    + by projections.
Qed.

End DoUpgrade_extras.

Lemma int32_periodic (x k : Z) : int32 (x + k * 2 ^ 32) = int32 x.
Proof.
  unfold int32.
  replace (x + k * 2 ^ 32 + 2 ^ 31)%Z with (x + 2 ^ 31 + k * 2 ^ 32)%Z by lia.
  by rewrite Z.mod_add.
Qed.

Section wndProc_extras.
Context {env : Env} {plat : Platform}.

(** A menu command for the item of the channel [c]. *)
Lemma wndProc_command_notify (t : winTray) (hWnd wParam lParam : Z)
    (c : Chan) (w : World) :
  NoDup [QuitMenuID; UpdateMenuID; LogsMenuID; GetStartedMenuID] →
  int32 wParam = MenuID c →
  wndProc t hWnd WM_COMMAND wParam lParam w = (Returns 0%Z, (notify c w).2).
Proof.
  intros Hdistinct Hc.
  apply NoDup_cons in Hdistinct as [Hq Hdistinct].
  apply NoDup_cons in Hdistinct as [Hu Hdistinct].
  apply NoDup_cons in Hdistinct as [Hl _].
  rewrite !elem_of_cons, elem_of_nil in *.
  unfold wndProc. rewrite Z.eqb_refl, Hc. unfold mbind, M_bind.
  assert ((if (MenuID c =? QuitMenuID)%Z then notify Quit
           else if (MenuID c =? UpdateMenuID)%Z then notify Update
           else if (MenuID c =? LogsMenuID)%Z then notify ShowLogs
           else if (MenuID c =? GetStartedMenuID)%Z then notify DoFirstUse
           else slog_Debug ("Unexpected menu item id: " +:+ pretty (MenuID c)))
          = notify c) as ->.
  { destruct c; cbn [MenuID]; rewrite ?Z.eqb_refl;
      repeat match goal with
        | |- context [(?a =? ?b)%Z] =>
            destruct (Z.eqb_spec a b) as [Heq|_];
            [exfalso; intuition congruence|]
        end; reflexivity. }
  rewrite notify_run. by destruct (receivers w c).
Qed.

(** X17.  A menu command is told by the low 32 bits of [wParam] alone:
    the window handle, [lParam] and the upper half of a 64-bit [wParam]
    make no difference to what the handler does. *)
Theorem wndProc_command_low_bits (t : winTray)
    (hWnd hWnd' wParam lParam lParam' k : Z) (w : World) :
  wndProc t hWnd' WM_COMMAND (wParam + k * 2 ^ 32) lParam' w
  = wndProc t hWnd WM_COMMAND wParam lParam w.
Proof. unfold wndProc. by rewrite int32_periodic. Qed.

(** X18.  The menu does not queue clicks.  [k] clicks on the item of a
    channel, handled one after the other while [n] goroutines are
    receiving from it and none comes back: the first [min k n] clicks
    each hand one signal to a receiver, every later click is dropped with
    one line in the log.  The handler never blocks and returns each
    time. *)
Theorem menu_clicks_are_not_queued (t : winTray) (c : Chan) (wParam : Z)
    (k : nat) (w : World) :
  NoDup [QuitMenuID; UpdateMenuID; LogsMenuID; GetStartedMenuID] →
  int32 wParam = MenuID c →
  ∃ w',
    handle_all (wndProc_of t) (replicate k (msg WM_COMMAND wParam 0)) w
      = (Returns (), w') ∧
    history w' =
      history w ++
      replicate (k `min` receivers w c) (EvSend c) ++
      replicate (k - receivers w c)
        (EvLog LevelError ("no listener on " +:+ Chan_name c)) ∧
    receivers w' c = (receivers w c - k)%nat ∧
    (∀ c', c' ≠ c → receivers w' c' = receivers w c').
Proof.
  intros Hdistinct Hc. revert w. induction k as [|k IH]; intros w.
  { exists w. cbn. rewrite app_nil_r, Nat.sub_0_r. by repeat split. }
  cbn [replicate handle_all]. unfold mbind, M_bind, wndProc_of.
  cbn [WindowHandle Message Wparam Lparam msg].
  rewrite (wndProc_command_notify t _ _ _ c w Hdistinct Hc), notify_run.
  destruct (receivers w c) as [|n] eqn:Hrcv.
  - destruct (IH (push (EvLog LevelError ("no listener on " +:+ Chan_name c)) w))
      as (w' & E & Eh & Er & Eo).
    cbn [receivers push history] in *. rewrite Hrcv in *.
    exists w'. split; [exact E|]. split.
    { rewrite Eh, !Nat.min_0_r, !Nat.sub_0_r, <- !app_assoc. reflexivity. }
    split; [by rewrite Er|done].
  - destruct (IH (set_receivers (<[c := n]> (receivers w)) (push (EvSend c) w)))
      as (w' & E & Eh & Er & Eo).
    cbn [receivers push history set_receivers] in *.
    rewrite fn_lookup_insert in *.
    exists w'. split; [exact E|]. split.
    { rewrite Eh, <- !app_assoc. reflexivity. }
    split; [by rewrite Er|].
    intros c' Hc'. rewrite (Eo c' Hc'). by rewrite fn_lookup_insert_ne.
Qed.

(** X19.  On WM_CLOSE the handler destroys the window of the tray (its
    own [t.window], not the handle the message came with) and unregisters
    the window class, the second also when the first failed; each failure
    leaves one line in the log.  It posts no quit message, sends no
    signal, and returns 0. *)
Theorem wndProc_close (t : winTray) (hWnd wParam lParam : Z) (w : World) :
  let destroyed := on_DestroyWindow (history w) (window t) in
  let h1 :=
    history w ++
    EvDestroyWindow (window t) ::
    (if (destroyed.1 =? 0)%Z
     then [EvLog LevelError ("failed to destroy window: "
                             +:+ Error destroyed.2)]
     else []) in
  ∃ w',
    wndProc t hWnd WM_CLOSE wParam lParam w = (Returns 0%Z, w') ∧
    history w' =
      h1 ++
      EvUnregister ::
      match on_unregister h1 with
      | Some e => [EvLog LevelError ("failed to uregister windo " +:+ Error e)]
      | None => []
      end ∧
    receivers w' = receivers w.
Proof.
  cbv zeta. unfold wndProc.
  change (WM_CLOSE =? WM_COMMAND)%Z with false.
  change (WM_CLOSE =? WM_CLOSE)%Z with true.
  cbv beta iota. step.
  destruct (on_DestroyWindow (history w) (window t)) as [boolRet err].
  cbn [fst snd]. step. destruct (boolRet =? 0)%Z; step.
  - destruct (on_unregister _) as [e|] eqn:Hun; step;
      (eexists; split; [reflexivity|]); cbn [history push receivers];
      rewrite <- ?app_assoc in *; cbn [app] in *; rewrite ?Hun; by split.
  - destruct (on_unregister _) as [e|] eqn:Hun; step;
      (eexists; split; [reflexivity|]); cbn [history push receivers];
      rewrite <- ?app_assoc in *; cbn [app] in *; rewrite ?Hun; by split.
Qed.

(** X20.  Messages of the tray icon, when the number registered for them
    is none of the four constants above it in the switch: mouse moves,
    left button down and 0x404 do nothing at all; a button released
    (right or left) shows the menu, once, and logs a failure; nothing is
    sent to the callbacks in either case, and the handler returns 0. *)
Theorem wndProc_tray_icon (t : winTray) (hWnd wParam lParam : Z) (w : World) :
  wmSystrayMessage t ∉ [WM_COMMAND; WM_CLOSE; WM_DESTROY; WM_ENDSESSION] →
  (lParam ∈ [WM_MOUSEMOVE; WM_LBUTTONDOWN; 0x404%Z] →
   wndProc t hWnd (wmSystrayMessage t) wParam lParam w = (Returns 0%Z, w)) ∧
  (lParam ∈ [WM_RBUTTONUP; WM_LBUTTONUP] →
   wndProc t hWnd (wmSystrayMessage t) wParam lParam w =
     (Returns 0%Z,
      match on_showMenu (history w) with
      | Some e =>
          push (EvLog LevelError ("failed to show menu: " +:+ Error e))
            (push EvShowMenu w)
      | None => push EvShowMenu w
      end)).
Proof.
  intros Hfree. rewrite !not_elem_of_cons in Hfree.
  destruct Hfree as (H1 & H2 & H3 & H4 & _).
  apply Z.eqb_neq in H1, H2, H3, H4.
  unfold wndProc. rewrite H1, H2, H3, H4, Z.eqb_refl. split.
  - rewrite !elem_of_cons, elem_of_nil. intros [->|[->|[->|[]]]]; reflexivity.
  - rewrite !elem_of_cons, elem_of_nil. intros [->|[->|[]]].
    + change (WM_RBUTTONUP =? WM_MOUSEMOVE)%Z with false.
      change (WM_RBUTTONUP =? WM_LBUTTONDOWN)%Z with false.
      change (WM_RBUTTONUP =? WM_RBUTTONUP)%Z with true.
      cbn [orb]. step. by destruct (on_showMenu (history w)).
    + change (WM_LBUTTONUP =? WM_MOUSEMOVE)%Z with false.
      change (WM_LBUTTONUP =? WM_LBUTTONDOWN)%Z with false.
      change (WM_LBUTTONUP =? WM_RBUTTONUP)%Z with false.
      change (WM_LBUTTONUP =? WM_LBUTTONUP)%Z with true.
      cbn [orb]. step. by destruct (on_showMenu (history w)).
Qed.

(** X21.  A click on the notification (the tray message with [lParam]
    0x405) is sent to one channel, chosen by [t.pendingUpdate]: Update
    when an update is pending, DoFirstUse when none is.  The signal goes
    to a goroutine that is receiving, and is dropped with a line in the
    log when none is. *)
Theorem wndProc_notification_click (t : winTray) (hWnd wParam : Z) (w : World) :
  wmSystrayMessage t ∉ [WM_COMMAND; WM_CLOSE; WM_DESTROY; WM_ENDSESSION] →
  let c := if pendingUpdate t then Update else DoFirstUse in
  ∃ w',
    wndProc t hWnd (wmSystrayMessage t) wParam 0x405 w = (Returns 0%Z, w') ∧
    match receivers w c with
    | S n =>
        history w' = history w ++ [EvSend c] ∧
        receivers w' = <[c := n]> (receivers w)
    | O =>
        history w' =
          history w ++ [EvLog LevelError ("no listener on " +:+ Chan_name c)] ∧
        receivers w' = receivers w
    end.
Proof.
  intros Hfree. rewrite !not_elem_of_cons in Hfree.
  destruct Hfree as (H1 & H2 & H3 & H4 & _).
  apply Z.eqb_neq in H1, H2, H3, H4.
  cbv zeta. unfold wndProc. rewrite H1, H2, H3, H4, Z.eqb_refl.
  change (0x405 =? WM_MOUSEMOVE)%Z with false.
  change (0x405 =? WM_LBUTTONDOWN)%Z with false.
  change (0x405 =? WM_RBUTTONUP)%Z with false.
  change (0x405 =? WM_LBUTTONUP)%Z with false.
  change (0x405 =? 0x405)%Z with true.
  cbn [orb]. unfold mbind, M_bind.
  destruct (pendingUpdate t); rewrite notify_run;
    destruct (receivers w _); eexists; by split.
Qed.

(** X22.  Every message that has no case of its own goes to the default
    window procedure, with the four arguments as they came, and what it
    returns is what the handler returns; nothing else happens.  A message
    that has a case never gets there, and the handler returns 0 for it. *)
Theorem wndProc_default (t : winTray) (hWnd message wParam lParam : Z)
    (w : World) :
  (message ∉ handled t →
   wndProc t hWnd message wParam lParam w =
     (Returns (on_DefWindowProc (history w) hWnd message wParam lParam),
      push (EvDefWindowProc hWnd message wParam lParam) w)) ∧
  (message ∈ handled t →
   ∃ w' evs,
     wndProc t hWnd message wParam lParam w = (Returns 0%Z, w') ∧
     history w' = history w ++ evs ∧
     Forall (λ e, kind e ≠ Default) evs).
Proof.
  split.
  - unfold handled. rewrite !not_elem_of_cons.
    intros (H1 & H2 & H3 & H4 & H5 & H6 & _).
    apply Z.eqb_neq in H1, H2, H3, H4, H5, H6.
    unfold wndProc. by rewrite H1, H2, H3, H4, H5, H6.
  - intros Hin.
    assert (confined [Logging; Channel; Mutex; Icon; Menu; Window] [Receivers]
              (wndProc t hWnd message wParam lParam)
            ∧ ∀ v, ∃ v', wndProc t hWnd message wParam lParam v
                         = (Returns 0%Z, v')) as [Hc Hz].
    { unfold wndProc, endsession, notify, try_send.
      repeat match goal with
        | |- context [(message =? ?x)%Z] =>
            destruct (Z.eqb_spec message x);
            [split;
             [confined
             |intros v; step; repeat (split_head; step); by eexists]|]
        end.
      exfalso. unfold handled in Hin. set_solver. }
    destruct (Hc w) as (z & w' & evs & E & Eh & Ek & _).
    destruct (Hz w) as (v' & E'). rewrite E in E'. injection E' as -> <-.
    exists w', evs. split; [exact E|]. split; [exact Eh|].
    eapply Forall_impl; [exact Ek|]. intros e He Hd. cbv beta in He.
    rewrite Hd in He. set_solver.
Qed.

End wndProc_extras.

(* ===================================================================== *)
(** ** The handler as a whole, the message pump and Quit *)
(* ===================================================================== *)

Section wndProc_discipline.
Context {env : Env} {plat : Platform}.

(** X23.  Whatever the message, the handler returns (it never exits the
    process, not even on WM_DESTROY, which only posts the quit message),
    and it keeps to the tray: it logs, sends on the callbacks, takes the
    icon mutex, calls the icon, the menu, the window and the default
    procedure.  It makes no request, touches no file, starts no process,
    and leaves [UpdateDownloaded] and the base URL alone. *)
Theorem wndProc_keeps_to_the_tray (t : winTray)
    (hWnd message wParam lParam : Z) :
  confined [Logging; Channel; Mutex; Icon; Menu; Window; Default] [Receivers]
    (wndProc t hWnd message wParam lParam).
Proof. unfold wndProc, endsession. confined. Qed.

(** X24.  The icon mutex: whatever the message, the handler either does
    not touch the mutex and the icon at all, or takes the mutex once,
    gives it back once before it returns, and calls the icon only in
    between.  It never returns with the mutex held, also when the call to
    the icon failed. *)
Theorem wndProc_icon_under_mutex (t : winTray)
    (hWnd message wParam lParam : Z) (w : World) :
  ∃ z w' evs,
    wndProc t hWnd message wParam lParam w = (Returns z, w') ∧
    history w' = history w ++ evs ∧
    (Forall (λ e, kind e ∉ [Mutex; Icon]) evs ∨
     ∃ pre mid post,
       evs = pre ++ [EvLock] ++ mid ++ [EvUnlock] ++ post ∧
       Forall (λ e, kind e ∉ [Mutex; Icon]) pre ∧
       Forall (λ e, kind e ≠ Mutex) mid ∧
       Forall (λ e, kind e ∉ [Mutex; Icon]) post).
Proof.
  unfold wndProc, endsession, notify, try_send. step.
  repeat (split_head; step).
  all: eexists _, _, _; (split; [reflexivity|]).
  all: split;
    [cbn [history push set_receivers]; rewrite <- ?app_assoc; cbn [app];
     first [reflexivity | symmetry; apply app_nil_r]|].
  all: first
    [ left; solve [repeat constructor; cbn [kind]; set_solver]
    | right; first
        [ solve [eexists [], [], _; (split; [reflexivity|]);
                 repeat split; repeat constructor; cbn [kind]; set_solver]
        | solve [eexists [], [_], _; (split; [reflexivity|]);
                 repeat split; repeat constructor; cbn [kind]; set_solver]
        | solve [eexists [], [_; _], _; (split; [reflexivity|]);
                 repeat split; repeat constructor; cbn [kind]; set_solver]
        | solve [eexists [_], [_], _; (split; [reflexivity|]);
                 repeat split; repeat constructor; cbn [kind]; set_solver]
        | solve [eexists [_], [_; _], _; (split; [reflexivity|]);
                 repeat split; repeat constructor; cbn [kind]; set_solver] ] ].
Qed.

End wndProc_discipline.

Section pump_facts.
Context {env : Env} {plat : Platform}.

Lemma handle_all_returns (t : winTray) (ms : list MSG) (w : World) :
  ∃ w', handle_all (wndProc_of t) ms w = (Returns (), w').
Proof.
  revert w. induction ms as [|m ms IH]; intros w; [by eexists|].
  cbn [handle_all]. unfold mbind, M_bind, wndProc_of.
  destruct (tame_wndProc t (WindowHandle m) (Message m) (Wparam m) (Lparam m) w)
    as (z & w1 & _ & -> & _). apply IH.
Qed.

(** The pump on answers it goes on with. *)
Lemma pump_ordinary (t : winTray) (pre rest : list (Z * error * MSG))
    (d : Desktop) :
  forallb ordinary pre = true →
  ∃ w1,
    handle_all (wndProc_of t) (pre.*2) (world d) = (Returns (), w1) ∧
    pump (wndProc_of t) (pre ++ rest) d =
      pump (wndProc_of t) rest
        {| world := w1; user32 := user32 d ++ dispatched pre;
           quitOnce := quitOnce d |}.
Proof.
  revert d. induction pre as [|[[ret err] m] pre IH]; intros d Hpre.
  { exists (world d). split; [reflexivity|]. cbn.
    rewrite app_nil_r. by destruct d. }
  cbn [forallb] in Hpre. apply andb_true_iff in Hpre as [Hm Hpre].
  unfold ordinary in Hm. cbn [fst snd] in Hm.
  apply andb_true_iff in Hm as [Herr Hquit].
  apply negb_true_iff in Herr, Hquit.
  cbn [app pump fmap list_fmap handle_all snd].
  destruct (tame_wndProc t (WindowHandle m) (Message m) (Wparam m) (Lparam m)
              (world d)) as (z & w1 & _ & Hrun & _).
  unfold mbind, D_bind, M_bind, call, lift. cbn [world user32 quitOnce].
  rewrite Herr, Hquit. cbn [world user32 quitOnce].
  unfold wndProc_of at 1 3. rewrite Hrun.
  destruct (IH {| world := w1;
                  user32 := ((user32 d ++ [Call_GetMessage])
                             ++ [Call_TranslateMessage m])
                            ++ [Call_DispatchMessage m];
                  quitOnce := quitOnce d |} Hpre) as (w2 & Hall & Hpump).
  cbn [world user32 quitOnce] in *.
  exists w2. split; [exact Hall|]. rewrite Hpump.
  unfold dispatched. cbn [mbind list_bind app]. fold (dispatched pre).
  by rewrite <- !app_assoc.
Qed.

(** X25.  The message pump.  [Run] asks GetMessage for one message after
    the other; each message it gets is translated and then dispatched to
    the window procedure, in the order it came, and the handler has
    returned before the next message is asked for.  The loop ends at the
    first answer whose low 32 bits are 0 (the quit message) or -1 (an
    error, which leaves one line in the log): it asks for nothing after
    that, and the message of that answer is not dispatched.  As long as
    no such answer comes it does not return. *)
Theorem Run_pumps_until_quit (t : winTray) (pre rest : list (Z * error * MSG))
    (d : Desktop) :
  forallb ordinary pre = true →
  match rest with [] => True | a :: _ => ordinary a = false end →
  ∃ w1,
    handle_all (wndProc_of t) (pre.*2)
      (push (EvLog LevelDebug "XXX starting nativeLoop...") (world d))
      = (Returns (), w1) ∧
    winTray_Run t (wndProc_of t) (pre ++ rest) d =
      match rest with
      | [] =>
          (Returns Looping,
           {| world := w1; user32 := user32 d ++ dispatched pre;
              quitOnce := quitOnce d |})
      | (ret, err, m) :: _ =>
          (Returns Returned,
           {| world :=
                if (int32 ret =? -1)%Z
                then push (EvLog LevelError ("get message failure: "
                                             +:+ Error err)) w1
                else w1;
              user32 := user32 d ++ dispatched pre ++ [Call_GetMessage];
              quitOnce := quitOnce d |})
      end.
Proof.
  intros Hpre Hrest. unfold winTray_Run, nativeLoop.
  unfold mbind at 1, D_bind at 1, lift at 1, slog_Debug at 1, emit at 1.
  destruct (pump_ordinary t pre rest
              {| world := push (EvLog LevelDebug "XXX starting nativeLoop...")
                            (world d);
                 user32 := user32 d; quitOnce := quitOnce d |} Hpre)
    as (w1 & Hall & Hpump).
  cbn [world user32 quitOnce] in *.
  exists w1. split; [exact Hall|]. rewrite Hpump.
  destruct rest as [|[[ret err] m] rest]; [reflexivity|].
  unfold ordinary in Hrest. cbn [fst snd] in Hrest.
  cbn [pump]. unfold mbind at 1, D_bind at 1, call at 1.
  cbn [world user32 quitOnce].
  destruct (int32 ret =? -1)%Z.
  - unfold mbind, D_bind, lift, slog_Error, emit, mret, D_ret.
    cbn [world user32 quitOnce]. by rewrite <- app_assoc.
  - cbn [negb andb] in Hrest. apply negb_false_iff in Hrest.
    rewrite Hrest. unfold mret, D_ret. by rewrite <- app_assoc.
Qed.

End pump_facts.

Section Quit_facts.
Context {u32 : User32}.

Lemma Quit_each_done (wt : winTray) (ts : list winTray) (d : Desktop) :
  quitOnce d = true → Quit_each wt ts d = (Returns (), d).
Proof.
  intros Hdone. induction ts as [|t ts IH]; [reflexivity|].
  cbn [Quit_each]. unfold mbind, D_bind, winTray_Quit, quitOnce_Do.
  rewrite Hdone. exact IH.
Qed.

(** X26.  [Quit] posts the close message once.  However many times it is
    called, one after the other and on whatever tray, the first call
    posts WM_CLOSE to the window of the package's tray [wt] (not to the
    tray it was called on), and logs when the post failed; every later
    call does nothing at all, also when that first post had failed: it is
    not tried again. *)
Theorem Quit_posts_once (wt t : winTray) (ts : list winTray) (d : Desktop) :
  quitOnce d = false →
  let posted := on_PostMessage (user32 d) (window wt) pkg_WM_CLOSE 0 0 in
  let d' :=
    {| world :=
         if (posted.1 =? 0)%Z
         then push (EvLog LevelError
                      ("failed to post close message on shutdown "
                       +:+ Error posted.2)) (world d)
         else world d;
       user32 := user32 d ++ [Call_PostMessage (window wt) pkg_WM_CLOSE 0 0];
       quitOnce := true |} in
  winTray_Quit wt t d = (Returns (), d') ∧
  Quit_each wt (t :: ts) d = (Returns (), d').
Proof.
  intros Hfirst. cbv zeta.
  assert (winTray_Quit wt t d =
    (Returns (),
     {| world :=
          if ((on_PostMessage (user32 d) (window wt) pkg_WM_CLOSE 0 0).1 =? 0)%Z
          then push (EvLog LevelError
                       ("failed to post close message on shutdown "
                        +:+ Error (on_PostMessage (user32 d) (window wt)
                                     pkg_WM_CLOSE 0 0).2)) (world d)
          else world d;
        user32 := user32 d ++ [Call_PostMessage (window wt) pkg_WM_CLOSE 0 0];
        quitOnce := true |})) as Hquit.
  { unfold winTray_Quit, quitOnce_Do, quit. rewrite Hfirst.
    unfold mbind, D_bind.
    destruct (on_PostMessage _ _ _ _ _) as [boolRet err]. cbn [fst snd].
    destruct (boolRet =? 0)%Z; reflexivity. }
  split; [exact Hquit|].
  cbn [Quit_each]. unfold mbind, D_bind. rewrite Hquit.
  by apply Quit_each_done.
Qed.

End Quit_facts.

(* ===================================================================== *)
(** ** The further properties on the example worlds *)
(* ===================================================================== *)

(** X5 on a server that announces a release and drops the download: the
    callback is called all the same. *)
Lemma checker_callback_per_turn_witness :
  IsNewReleaseAvailable (env := env_flaky) cold_start
    = (Returns (true, release),
       (IsNewReleaseAvailable (env := env_flaky) cold_start).2) ∧
  (DownloadNewRelease (env := env_flaky) release
     (IsNewReleaseAvailable (env := env_flaky) cold_start).2).1
    = Returns (Some (Wrapped "error downloading update: "
                       (errors_New "connection reset by peer"))) ∧
  ∃ stop w' evs,
    checker_iteration (env := env_flaky) never_cancelled quiet_callback
      cold_start = (Returns stop, w') ∧
    history w' = history cold_start ++ evs ∧
    callbacks evs = ["TODO version"].
Proof.
  assert (IsNewReleaseAvailable (env := env_flaky) cold_start
          = (Returns (true, release),
             (IsNewReleaseAvailable (env := env_flaky) cold_start).2))
    as Hcheck.
  { apply pair_of_fst. vm_compute. reflexivity. }
  split; [exact Hcheck|]. split; [vm_compute; reflexivity|].
  destruct (checker_callback_per_turn (env := env_flaky) never_cancelled
              quiet_callback cold_start _ true release Hcheck)
    as (stop & w' & evs & Hrun & Hhist & Hcb & _).
  by exists stop, w', evs.
Defined.

(** X6 with a context that is done from the start. *)
Lemma checker_cancelled_before_start_witness :
  (∀ h, cancelled_after 0 h = true) ∧
  ∃ w' evs,
    StartBackgroundUpdaterChecker (env := env_release) 3 (cancelled_after 0)
      quiet_callback cold_start = (Returns Returned, w') ∧
    history w' = history cold_start ++ EvSleep (5 * Second) :: evs ∧
    polls evs = [true] ∧
    sleeps evs = [] ∧
    (1 ≤ length (gets evs))%nat.
Proof.
  assert (∀ h, cancelled_after 0 h = true) as Hdone.
  { intros h. apply bool_decide_eq_true_2. lia. }
  split; [exact Hdone|].
  apply (checker_cancelled_before_start (env := env_release) 2
           (cancelled_after 0) quiet_callback cold_start Hdone).
Defined.

(** X7 at the start of the process on an empty disk. *)
Lemma DownloadNewRelease_fresh_witness :
  url_Parse (UpdateURL release) = inr "/v2/installer.exe" ∧
  escapedFilename "/v2/installer.exe" ≠ UpdateStageDir ∧
  files cold_start !! UpdateStageDir = None ∧
  files cold_start !! escapedFilename "/v2/installer.exe" = None ∧
  ∃ w',
    DownloadNewRelease (env := env_release) release cold_start
      = (Returns None, w') ∧
    files w' =
      <[escapedFilename "/v2/installer.exe" := File "MZ"]>
        (<[UpdateStageDir := Dir]> (files cold_start)) ∧
    UpdateDownloaded w' = true ∧
    history w' =
      [EvStat UpdateStageDir;
       EvMkdirAll UpdateStageDir 493;
       EvStat (escapedFilename "/v2/installer.exe");
       EvLog LevelDebug ("XXX downloading " +:+ release_url);
       EvHttpGet release_url;
       EvOpenFile (escapedFilename "/v2/installer.exe") 493;
       EvWrite (escapedFilename "/v2/installer.exe") 2;
       EvLog LevelDebug ("XXX completed writing out update payload to "
                         +:+ escapedFilename "/v2/installer.exe");
       EvFileClose (escapedFilename "/v2/installer.exe");
       EvBodyClose].
Proof.
  split; [vm_compute; reflexivity|]. split; [vm_compute; discriminate|].
  split; [vm_compute; reflexivity|]. split; [vm_compute; reflexivity|].
  apply (DownloadNewRelease_fresh (env := env_release) cold_start release
           "/v2/installer.exe" "MZ" 200).
  - vm_compute. reflexivity.
  - vm_compute. discriminate.
  - left. vm_compute. reflexivity.
  - vm_compute. reflexivity.
  - intros h. reflexivity.
  - intros h. vm_compute. reflexivity.
  - intros h. reflexivity.
  - intros h. reflexivity.
Defined.

(** X8 on a disk that takes one byte of the two. *)
Lemma DownloadNewRelease_short_write_sticks_witness :
  (∀ h, on_Write (Env := env_short_write) h
          (escapedFilename "/v2/installer.exe") "MZ"
        = (1%nat, Some (errors_New "There is not enough space on the disk."))) ∧
  1%nat ≠ String.length "MZ" ∧
  ∃ e w1 pre w2,
    DownloadNewRelease (env := env_short_write) release cold_start
      = (Returns (Some e), w1) ∧
    UpdateDownloaded w1 = UpdateDownloaded cold_start ∧
    files w1 !! escapedFilename "/v2/installer.exe" = Some (File "M") ∧
    history w1 =
      history cold_start ++ pre ++
      [EvWrite (escapedFilename "/v2/installer.exe") 1;
       EvFileClose (escapedFilename "/v2/installer.exe");
       EvBodyClose] ∧
    DownloadNewRelease (env := env_short_write) release w1
      = (Returns None, w2) ∧
    gets (history w2) = gets (history w1) ∧
    files w2 = files w1 ∧
    UpdateDownloaded w2 = true.
Proof.
  split; [intros h; reflexivity|]. split; [cbn; lia|].
  apply (DownloadNewRelease_short_write_sticks (env := env_short_write)
           cold_start release "/v2/installer.exe" "MZ" 200 1
           (Some (errors_New "There is not enough space on the disk."))).
  - vm_compute. reflexivity.
  - vm_compute. discriminate.
  - left. vm_compute. reflexivity.
  - vm_compute. reflexivity.
  - intros h. reflexivity.
  - intros h. vm_compute. reflexivity.
  - intros h. reflexivity.
  - intros h. reflexivity.
  - right. cbn. lia.
Defined.

(** X9 on a server that drops the download. *)
Lemma DownloadNewRelease_failed_get_retries_witness :
  (∀ h, on_Get (Env := env_flaky) h (UpdateURL release)
        = inl (errors_New "connection reset by peer")) ∧
  ∃ e w1 evs e2 w2,
    DownloadNewRelease (env := env_flaky) release cold_start
      = (Returns (Some e), w1) ∧
    history w1 = history cold_start ++ evs ∧
    closes evs = 0%nat ∧
    files w1 = <[UpdateStageDir := Dir]> (files cold_start) ∧
    UpdateDownloaded w1 = UpdateDownloaded cold_start ∧
    DownloadNewRelease (env := env_flaky) release w1
      = (Returns (Some e2), w2) ∧
    gets (history w2) = gets (history cold_start) ++ [release_url; release_url].
Proof.
  split; [intros h; vm_compute; reflexivity|].
  apply (DownloadNewRelease_failed_get_retries (env := env_flaky) cold_start
           release "/v2/installer.exe"
           (inl (errors_New "connection reset by peer"))).
  - vm_compute. reflexivity.
  - vm_compute. discriminate.
  - left. vm_compute. reflexivity.
  - vm_compute. reflexivity.
  - intros h. reflexivity.
  - intros h. vm_compute. reflexivity.
  - exact I.
Defined.

(** X10 with the release there and not to be looked at. *)
Lemma DownloadNewRelease_stat_error_stops_witness :
  Stat_error (files release_locked) (escapedFilename "/v2/installer.exe")
    = Some (PathError "stat" (escapedFilename "/v2/installer.exe")
              (errors_New "Access is denied.")) ∧
  (DownloadNewRelease (env := env_release) release release_locked).1
    = Returns (Some (Wrapped "XXX unexpected stat error "
                       (PathError "stat" (escapedFilename "/v2/installer.exe")
                          (errors_New "Access is denied.")))) ∧
  gets (history (DownloadNewRelease (env := env_release) release
                   release_locked).2) = [] ∧
  UpdateDownloaded (DownloadNewRelease (env := env_release) release
                      release_locked).2 = false.
Proof.
  split; [vm_compute; reflexivity|].
  destruct (DownloadNewRelease_stat_error_stops (env := env_release)
              release_locked release "/v2/installer.exe"
              (PathError "stat" (escapedFilename "/v2/installer.exe")
                 (errors_New "Access is denied.")))
    as (Hrun & Hgets & _ & Hflag).
  - vm_compute. reflexivity.
  - vm_compute. reflexivity.
  - vm_compute. reflexivity.
  - reflexivity.
  - rewrite Hrun at 1. split; [reflexivity|]. split; [exact Hgets|exact Hflag].
Defined.

(** X11 where the directory cannot be made because its parent is
    missing. *)
Lemma DownloadNewRelease_mkdir_failure_witness :
  files cold_start !! UpdateStageDir = None ∧
  ∃ err,
    DownloadNewRelease (env := env_denied) release cold_start =
      (Returns (Some err),
       push (EvMkdirAll UpdateStageDir 493)
         (push (EvStat UpdateStageDir) cold_start)) ∧
    Error err =
      "create ollama dir " +:+ UpdateStageDir +:+ ": " +:+
      Error (PathError "mkdir" "C:\Temp" ErrNotExist) ∧
    is_ErrNotExist (PathError "mkdir" "C:\Temp" ErrNotExist) = true ∧
    is_ErrNotExist err = false.
Proof.
  split; [vm_compute; reflexivity|].
  destruct (DownloadNewRelease_mkdir_failure (env := env_denied) cold_start
              release "/v2/installer.exe"
              (PathError "mkdir" "C:\Temp" ErrNotExist))
    as (err & Hrun & Htext & Hnot).
  - vm_compute. reflexivity.
  - vm_compute. reflexivity.
  - reflexivity.
  - exists err. by repeat split.
Defined.

(** X12 on a URL without a path, with [filepath.Join] dropping the empty
    element. *)
Lemma DownloadNewRelease_empty_path_witness :
  url_Parse (Platform := windows_amd64_Join2) "https://example.com"
    = inr EmptyString ∧
  escapedFilename (plat := windows_amd64_Join2) EmptyString
    = UpdateStageDir (Platform := windows_amd64_Join2) ∧
  ∃ w',
    DownloadNewRelease (env := env_offline) (plat := windows_amd64_Join2)
      {| UpdateURL := "https://example.com"; UpdateVersion := "2.0" |}
      cold_start = (Returns None, w') ∧
    gets (history w') = [] ∧
    files w' = <[UpdateStageDir (Platform := windows_amd64_Join2) := Dir]> ∅ ∧
    UpdateDownloaded w' = true.
Proof.
  split; [vm_compute; reflexivity|]. split; [vm_compute; reflexivity|].
  apply (DownloadNewRelease_empty_path (env := env_offline)
           (plat := windows_amd64_Join2) cold_start
           {| UpdateURL := "https://example.com"; UpdateVersion := "2.0" |}
           EmptyString).
  - vm_compute. reflexivity.
  - vm_compute. reflexivity.
  - left. vm_compute. reflexivity.
  - intros h. reflexivity.
Defined.

(** X16 on the example release: it is staged under its escaped name, and
    [DoUpgrade] does not find the installer. *)
Lemma DownloadNewRelease_then_DoUpgrade_witness :
  (DownloadNewRelease (env := env_release) release cold_start).1
    = Returns None ∧
  escapedFilename "/v2/installer.exe" ≠ installerExe ∧
  UpdateDownloaded (DownloadNewRelease (env := env_release) release
                      cold_start).2 = true ∧
  ∃ err w2,
    DoUpgrade (env := env_release)
      (DownloadNewRelease (env := env_release) release cold_start).2
      = (Returns (Some err), w2) ∧
    contains installerExe (Error err) = true ∧
    spawns (history w2) = [].
Proof.
  assert ((DownloadNewRelease (env := env_release) release cold_start).1
          = Returns None) as Hnil by (vm_compute; reflexivity).
  assert (escapedFilename "/v2/installer.exe" ≠ installerExe) as Hother
    by (vm_compute; discriminate).
  split; [exact Hnil|]. split; [exact Hother|].
  destruct (DownloadNewRelease_then_DoUpgrade (env := env_release) cold_start
              (DownloadNewRelease (env := env_release) release cold_start).2
              release "/v2/installer.exe")
    as (Hflag & _ & Hfails).
  - apply pair_of_fst, Hnil.
  - vm_compute. reflexivity.
  - split; [exact Hflag|].
    destruct (Hfails Hother) as (err & w2 & Hrun & Htext & Hspawns).
    + vm_compute. discriminate.
    + vm_compute. reflexivity.
    + exists err, w2. split; [exact Hrun|]. split; [exact Htext|].
      rewrite Hspawns. vm_compute. reflexivity.
Defined.

(** X18 with three clicks on Quit and two goroutines receiving. *)
Lemma menu_clicks_are_not_queued_witness :
  NoDup [QuitMenuID; UpdateMenuID; LogsMenuID; GetStartedMenuID] ∧
  int32 1 = MenuID Quit ∧
  ∃ w',
    handle_all (wndProc_of (env := env_release) (tray None))
      (replicate 3 (msg WM_COMMAND 1 0)) (crowd 2 Quit) = (Returns (), w') ∧
    history w' =
      [EvSend Quit; EvSend Quit; EvLog LevelError "no listener on Quit"] ∧
    receivers w' Quit = 0%nat.
Proof.
  assert (NoDup [QuitMenuID; UpdateMenuID; LogsMenuID; GetStartedMenuID])
    as Hdistinct.
  { apply (bool_decide_unpack _). vm_compute. exact I. }
  split; [exact Hdistinct|]. split; [reflexivity|].
  destruct (menu_clicks_are_not_queued (env := env_release) (tray None) Quit 1
              3 (crowd 2 Quit) Hdistinct eq_refl)
    as (w' & Hrun & Hhist & Hrcv & _).
  exists w'. split; [exact Hrun|]. split; [exact Hhist|exact Hrcv].
Defined.

(** X20 on the example tray: a mouse move, and a right click whose menu
    cannot be shown. *)
Lemma wndProc_tray_icon_witness :
  (wmSystrayMessage (tray None)
     ∉ [WM_COMMAND; WM_CLOSE; WM_DESTROY; WM_ENDSESSION]) ∧
  wndProc (env := env_denied) (tray None) 0 0x401 0 WM_MOUSEMOVE cold_start
    = (Returns 0%Z, cold_start) ∧
  wndProc (env := env_denied) (tray None) 0 0x401 0 WM_RBUTTONUP cold_start
    = (Returns 0%Z,
       push (EvLog LevelError "failed to show menu: Invalid menu handle.")
         (push EvShowMenu cold_start)).
Proof.
  assert (wmSystrayMessage (tray None)
            ∉ [WM_COMMAND; WM_CLOSE; WM_DESTROY; WM_ENDSESSION]) as Hfree.
  { apply (bool_decide_unpack _). vm_compute. exact I. }
  split; [exact Hfree|].
  destruct (wndProc_tray_icon (env := env_denied) (tray None) 0 0 WM_MOUSEMOVE
              cold_start Hfree) as [Hmove _].
  destruct (wndProc_tray_icon (env := env_denied) (tray None) 0 0 WM_RBUTTONUP
              cold_start Hfree) as [_ Hup].
  split.
  - apply Hmove. apply (bool_decide_unpack _). vm_compute. exact I.
  - apply Hup. apply (bool_decide_unpack _). vm_compute. exact I.
Defined.

(** X21 on the example tray, which has no update pending, with a goroutine
    receiving from DoFirstUse. *)
Lemma wndProc_notification_click_witness :
  (wmSystrayMessage (tray None)
     ∉ [WM_COMMAND; WM_CLOSE; WM_DESTROY; WM_ENDSESSION]) ∧
  pendingUpdate (tray None) = false ∧
  ∃ w',
    wndProc (env := env_release) (tray None) 0 0x401 0 0x405
      (listening DoFirstUse) = (Returns 0%Z, w') ∧
    history w' = [EvSend DoFirstUse].
Proof.
  assert (wmSystrayMessage (tray None)
            ∉ [WM_COMMAND; WM_CLOSE; WM_DESTROY; WM_ENDSESSION]) as Hfree.
  { apply (bool_decide_unpack _). vm_compute. exact I. }
  split; [exact Hfree|]. split; [reflexivity|].
  destruct (wndProc_notification_click (env := env_release) (tray None) 0 0
              (listening DoFirstUse) Hfree) as (w' & Hrun & Hhist & _).
  exists w'. split; [exact Hrun|exact Hhist].
Defined.

(** X25 on a click on Quit followed by the quit message: the click is
    dispatched, the quit message ends the loop, and the message that would
    have come after is never asked for. *)
Lemma Run_pumps_until_quit_witness :
  forallb ordinary
    [(1%Z, errors_New "The operation completed successfully.",
      msg WM_COMMAND 1 0)] = true ∧
  ordinary (0x100000000%Z, errors_New "The operation completed successfully.",
            msg 0x12 0 0) = false ∧
  winTray_Run (tray None)
    (wndProc_of (env := env_release) (tray None))
    ([(1%Z, errors_New "The operation completed successfully.",
       msg WM_COMMAND 1 0)] ++
     [(0x100000000%Z, errors_New "The operation completed successfully.",
       msg 0x12 0 0);
      (1%Z, errors_New "The operation completed successfully.",
       msg WM_COMMAND 2 0)])
    (desktop_start (listening Quit))
  = (Returns Returned,
     {| world :=
          {| UpdateCheckURLBase := "https://ollama.ai/api/update";
             UpdateDownloaded := false;
             files := ∅;
             receivers := <[Quit := 0%nat]> (one_receiver Quit);
             history := [EvLog LevelDebug "XXX starting nativeLoop...";
                         EvSend Quit] |};
        user32 := [Call_GetMessage;
                   Call_TranslateMessage (msg WM_COMMAND 1 0);
                   Call_DispatchMessage (msg WM_COMMAND 1 0);
                   Call_GetMessage];
        quitOnce := false |}).
Proof.
  split; [reflexivity|]. split; [reflexivity|].
  destruct (Run_pumps_until_quit (env := env_release) (tray None)
              [(1%Z, errors_New "The operation completed successfully.",
                msg WM_COMMAND 1 0)]
              [(0x100000000%Z, errors_New "The operation completed successfully.",
                msg 0x12 0 0);
               (1%Z, errors_New "The operation completed successfully.",
                msg WM_COMMAND 2 0)]
              (desktop_start (listening Quit)) eq_refl eq_refl)
    as (w1 & Hall & Hrun).
  rewrite Hrun. vm_compute in Hall. injection Hall as <-. reflexivity.
Defined.

(** X26 with a post that fails: one post, one line in the log, and the
    later calls do nothing. *)
Lemma Quit_posts_once_witness :
  quitOnce (desktop_start cold_start) = false ∧
  Quit_each (u32 := user32_failing) (tray None)
    [tray None; tray (Some NotifyIconData); tray None]
    (desktop_start cold_start)
  = (Returns (),
     {| world :=
          push (EvLog LevelError
                  "failed to post close message on shutdown Invalid window handle.")
            cold_start;
        user32 := [Call_PostMessage 0x50a 0x10 0 0];
        quitOnce := true |}).
Proof.
  split; [reflexivity|].
  destruct (Quit_posts_once (u32 := user32_failing) (tray None) (tray None)
              [tray (Some NotifyIconData); tray None]
              (desktop_start cold_start) eq_refl) as [_ Hall].
  exact Hall.
Defined.

(** X14 on a server that answers [{}], at the start of the process. *)
Lemma checker_empty_announcement_witness :
  update_check (env := env_empty_object) (plat := windows_amd64_Join2)
    cold_start = ok 200 "{}" ∧
  json_Unmarshal "{}" zero_UpdateResponse = (None, zero_UpdateResponse) ∧
  url_Parse (Platform := windows_amd64_Join2) EmptyString = inr EmptyString ∧
  escapedFilename (plat := windows_amd64_Join2) EmptyString
    = UpdateStageDir (Platform := windows_amd64_Join2) ∧
  ∃ stop w' evs,
    checker_iteration (env := env_empty_object) (plat := windows_amd64_Join2)
      never_cancelled quiet_callback cold_start = (Returns stop, w') ∧
    history w' = history cold_start ++ evs ∧
    length (gets evs) = 1%nat ∧
    callbacks evs = ["TODO version"] ∧
    UpdateDownloaded w' = true ∧
    files w' = <[UpdateStageDir (Platform := windows_amd64_Join2) := Dir]> ∅.
Proof.
  split; [vm_compute; reflexivity|]. split; [vm_compute; reflexivity|].
  split; [vm_compute; reflexivity|]. split; [vm_compute; reflexivity|].
  apply (checker_empty_announcement (env := env_empty_object)
           (plat := windows_amd64_Join2) never_cancelled quiet_callback
           cold_start {| StatusCode := 200; Body := ("{}", None) |}
           EmptyString).
  - vm_compute. reflexivity.
  - cbn. lia.
  - vm_compute. reflexivity.
  - vm_compute. reflexivity.
  - vm_compute. reflexivity.
  - left. vm_compute. reflexivity.
  - intros h. reflexivity.
Defined.
